(** * Retirement simulator: a shallow embedding of [retirement_simulator.py]

    The Python script reads six integers from the user, rejects illogical
    combinations, runs [num_sim] Monte Carlo retirement runs over historical
    return and inflation tables, and prints summary statistics.

    Python [int] is modelled by [Z], Python [float] (IEEE 754 binary64) by
    the Standard Library's [spec_float] at precision 53 and maximal exponent
    1024, Python exceptions by an error monad, and the process-wide random
    generator by explicit state passing over an abstract generator
    interface. *)

From Stdlib Require Import ZArith List Bool Lia Permutation.
From Stdlib Require Import Floats.SpecFloat.
Import ListNotations.
Open Scope Z_scope.

(** ** Exceptions *)

Inductive exn : Type :=
| ValueError
| ZeroDivisionError
| OverflowError
| IndexError.

Inductive result (A : Type) : Type :=
| Ok (a : A)
| Raise (e : exn).

Arguments Ok {A} a.
Arguments Raise {A} e.

Definition bind {A B : Type} (m : result A) (k : A -> result B) : result B :=
  match m with
  | Ok a => k a
  | Raise e => Raise e
  end.

Declare Scope py_scope.
Delimit Scope py_scope with py.
Notation "x <- m ;; k" := (bind m (fun x => k))
  (at level 61, m at next level, right associativity) : py_scope.
Notation "' p <- m ;; k" := (bind m (fun p => k))
  (at level 61, p pattern, m at next level, right associativity) : py_scope.
Open Scope py_scope.

(** ** Python floats *)

Module PyFloat.

Definition prec : Z := 53.
Definition emax : Z := 1024.

Definition float : Type := spec_float.

Definition add : float -> float -> float := SFadd prec emax.
Definition mul : float -> float -> float := SFmul prec emax.

(** An integer seen as an exact (unrounded) binary number. *)
Definition exact_int (n : Z) : float :=
  match n with
  | Z0 => S754_zero false
  | Zpos p => S754_finite false p 0
  | Zneg p => S754_finite true p 0
  end.

(** Conversion [int -> float], as done implicitly by mixed arithmetic:
    round to nearest, ties to even; too large a magnitude is an
    [OverflowError]. *)
Definition of_int (n : Z) : result float :=
  match binary_normalize prec emax n 0 false with
  | S754_infinity _ => Raise OverflowError
  | f => Ok f
  end.

(** [int(x)]: truncation toward zero; [int(nan)] is a [ValueError],
    [int(inf)] an [OverflowError]. *)
Definition to_int (x : float) : result Z :=
  match x with
  | S754_zero _ => Ok 0
  | S754_infinity _ => Raise OverflowError
  | S754_nan => Raise ValueError
  | S754_finite s m e => Ok (cond_Zopp s (Z.shiftl (Zpos m) e))
  end.

(** [n + x] and [n * x] for an int [n] and a float [x]. *)
Definition int_add (n : Z) (x : float) : result float :=
  f <- of_int n ;; Ok (add f x).

Definition int_mul (n : Z) (x : float) : result float :=
  f <- of_int n ;; Ok (mul f x).

(** [a / b] on two ints: the correctly rounded quotient. *)
Definition int_truediv (a b : Z) : result float :=
  if b =? 0 then Raise ZeroDivisionError
  else if a =? 0 then Ok (S754_zero (b <? 0))
  else match SFdiv prec emax (exact_int a) (exact_int b) with
       | S754_infinity _ => Raise OverflowError
       | f => Ok f
       end.

(** Nearest integer to [n / d] for [0 <= n], [0 < d], ties to even. *)
Definition div_half_even (n d : Z) : Z :=
  let q := n / d in
  let r := n mod d in
  match 2 * r ?= d with
  | Lt => q
  | Gt => q + 1
  | Eq => if Z.even q then q else q + 1
  end.

(** [round(x, 1)]: the exact value of [x] is rounded to one decimal
    place, ties to even, and the decimal is converted back to the
    nearest float. *)
Definition round1 (x : float) : float :=
  match x with
  | S754_finite s m e =>
      let tenths :=
        if 0 <=? e then 10 * Zpos m * 2 ^ e
        else div_half_even (10 * Zpos m) (2 ^ (- e)) in
      match tenths with
      | Zpos k => SFdiv prec emax (S754_finite s k 0) (S754_finite false 10 0)
      | _ => S754_zero s
      end
  | _ => x
  end.

Definition leb : float -> float -> bool := SFleb.

(** The floats [0.0] and [100.0]. *)
Definition zero : float := S754_zero false.
Definition hundred : float := S754_finite false 7036874417766400 (-46).

End PyFloat.

Arguments PyFloat.of_int : simpl never.
Arguments PyFloat.int_add : simpl never.
Arguments PyFloat.int_mul : simpl never.
Arguments PyFloat.int_truediv : simpl never.
Arguments PyFloat.round1 : simpl never.

(** ** Built-in sequence operations *)

(** [a % b] on ints; Python's result takes the sign of the divisor, as
    [Z.modulo] does. *)
Definition py_mod (a b : Z) : result Z :=
  if b =? 0 then Raise ZeroDivisionError else Ok (a mod b).

Definition len {A : Type} (l : list A) : Z := Z.of_nat (length l).

(** [l[i]], negative indices counting from the end. *)
Definition py_index {A : Type} (l : list A) (i : Z) : result A :=
  let j := if i <? 0 then i + len l else i in
  if j <? 0 then Raise IndexError
  else match nth_error l (Z.to_nat j) with
       | Some x => Ok x
       | None => Raise IndexError
       end.

(** [range(a, b)]. *)
Definition py_range (a b : Z) : list Z :=
  map (fun k => a + Z.of_nat k) (seq 0 (Z.to_nat (b - a))).

(** [sum], [min] and [max] of a list of ints; the last two raise
    [ValueError] on an empty sequence. *)
Definition py_sum (l : list Z) : Z := fold_left Z.add l 0.

Definition py_min (l : list Z) : result Z :=
  match l with
  | [] => Raise ValueError
  | x :: r => Ok (fold_left Z.min r x)
  end.

Definition py_max (l : list Z) : result Z :=
  match l with
  | [] => Raise ValueError
  | x :: r => Ok (fold_left Z.max r x)
  end.

(** ** The random generator

    [random.randrange] and [random.triangular] live in Python's library;
    the embedding takes them as an interface over an explicit generator
    state. [randbelow n] is the library's draw below a positive [n]. *)

Class RandomGen (G : Type) : Type := {
  randbelow : Z -> G -> Z * G;
  triangular : Z -> Z -> Z -> G -> PyFloat.float * G
}.

(** [random.randrange(start, stop)]: an empty range is a [ValueError]. *)
Definition randrange {G : Type} `{RandomGen G} (start stop : Z) (g : G)
  : result (Z * G) :=
  let width := stop - start in
  if 0 <? width
  then let '(r, g') := randbelow width g in Ok (start + r, g')
  else Raise ValueError.

(** ** User inputs

    The seven prompts loop until [str.isdigit] holds, so every numeric
    input is a non-negative integer by the time [int] is applied. *)

Record SimulationParameters : Type := {
  start_value : Z;
  withdrawal : Z;
  min_years : Z;
  most_likely_years : Z;
  max_years : Z;
  num_sim : Z
}.

(** What the prompts let through. *)
Definition digits_only (p : SimulationParameters) : Prop :=
  0 <= start_value p /\ 0 <= withdrawal p /\ 0 <= min_years p /\
  0 <= most_likely_years p /\ 0 <= max_years p /\ 0 <= num_sim p.

(** The spec's invariants on [SimulationParameters]. *)
Definition valid_parameters (p : SimulationParameters) : Prop :=
  0 < start_value p /\
  0 <= withdrawal p < start_value p /\
  0 < min_years p /\
  min_years p < most_likely_years p /\
  most_likely_years p < max_years p /\
  max_years p < 99 /\
  0 < num_sim p.

(** The two diagnostics printed before [sys.exit(1)]. *)
Inductive fatal : Type :=
| IllogicalYears
| WithdrawalTooLarge.

(** "check the math on inputs": [None] lets the program go on. *)
Definition check_inputs (p : SimulationParameters) : option fatal :=
  if negb ((min_years p <? most_likely_years p)
           && (most_likely_years p <? max_years p))
     || (99 <? max_years p)
  then Some IllogicalYears
  else if negb (withdrawal p <? start_value p)
  then Some WithdrawalTooLarge
  else None.

(** ** The simulator *)

Section Simulator.

Context {G : Type} `{RandomGen G}.

Variable p : SimulationParameters.
Variable returns : list PyFloat.float.
Variable infl_rate : list PyFloat.float.

(** "build temporary lists for each simulation". *)
Fixpoint build_lifespan (lifespan : list Z)
  (lifespan_returns lifespan_infl : list PyFloat.float)
  : result (list PyFloat.float * list PyFloat.float) :=
  match lifespan with
  | [] => Ok (lifespan_returns, lifespan_infl)
  | i :: rest =>
      jr <- py_mod i (len returns) ;;
      r <- py_index returns jr ;;
      ji <- py_mod i (len infl_rate) ;;
      f <- py_index infl_rate ji ;;
      build_lifespan rest (lifespan_returns ++ [r]) (lifespan_infl ++ [f])
  end.

(** The inflation-adjusted withdrawal of the year at position [index]. *)
Definition year_withdrawal (index : nat) (infl : PyFloat.float)
  (withdrawal_infl : Z) : result Z :=
  match index with
  | O => Ok (withdrawal p)
  | S _ =>
      growth <- PyFloat.int_add 1 infl ;;
      x <- PyFloat.int_mul withdrawal_infl growth ;;
      PyFloat.to_int x
  end.

(** The portfolio after the withdrawal and the year's return [i]. *)
Definition year_investments (i : PyFloat.float)
  (withdrawal_infl investments : Z) : result Z :=
  let investments := investments - withdrawal_infl in
  growth <- PyFloat.int_add 1 i ;;
  x <- PyFloat.int_mul investments growth ;;
  PyFloat.to_int x.

(** "loop through each year of retirement": the remaining years
    [lifespan_returns] of the enumeration, the first at position
    [index]. The result is the [bankrupt] flag and [investments]. *)
Fixpoint retirement_years (index : nat)
  (lifespan_returns lifespan_infl : list PyFloat.float)
  (withdrawal_infl investments : Z) : result (bool * Z) :=
  match lifespan_returns with
  | [] => Ok (false, investments)
  | i :: rest =>
      infl <- py_index lifespan_infl (Z.of_nat index) ;;
      withdrawal_infl <- year_withdrawal index infl withdrawal_infl ;;
      investments <- year_investments i withdrawal_infl investments ;;
      if investments <=? 0 then Ok (true, investments)
      else retirement_years (S index) rest lifespan_infl
             withdrawal_infl investments
  end.

(** One pass of the [while] body: the appended outcome and whether the
    run went bankrupt. [withdrawal_infl] is assigned at position 0
    before it is read, so its initial value here never matters. *)
Definition simulate_run (g : G) : result (Z * bool * G) :=
  let investments := start_value p in
  '(start_year, g) <- randrange 0 (len returns) g ;;
  let '(t, g) :=
    triangular (min_years p) (max_years p) (most_likely_years p) g in
  duration <- PyFloat.to_int t ;;
  let end_year := start_year + duration in
  let lifespan := py_range start_year end_year in
  '(lifespan_returns, lifespan_infl) <- build_lifespan lifespan [] [] ;;
  '(bankrupt, investments) <-
    retirement_years 0 lifespan_returns lifespan_infl 0 investments ;;
  if bankrupt then Ok (0, true, g) else Ok (investments, false, g).

(** The [while sim_count < int(num_sim)] loop, [remaining] passes
    left. *)
Fixpoint sim_loop (remaining : nat) (bankrupt_count : Z)
  (outcome : list Z) (g : G) : result (list Z * Z * G) :=
  match remaining with
  | O => Ok (outcome, bankrupt_count, g)
  | S remaining =>
      '(o, bankrupt, g) <- simulate_run g ;;
      sim_loop remaining
        (if bankrupt then bankrupt_count + 1 else bankrupt_count)
        (outcome ++ [o]) g
  end.

Definition simulator (g : G) : result (list Z * Z * G) :=
  sim_loop (Z.to_nat (num_sim p)) 0 [] g.

End Simulator.

(** ** Statistics *)

Record Statistics : Type := {
  odds : PyFloat.float;
  average : Z;
  minimum : Z;
  maximum : Z
}.

(** [bankrupt_prob]: the returned odds together with the three printed
    outcome statistics. *)
Definition bankrupt_prob (outcome : list Z) (bankrupt_count : Z)
  : result Statistics :=
  let total := len outcome in
  q <- PyFloat.int_truediv (100 * bankrupt_count) total ;;
  let odds := PyFloat.round1 q in
  mean <- PyFloat.int_truediv (py_sum outcome) total ;;
  avg <- PyFloat.to_int mean ;;
  lo <- py_min outcome ;;
  hi <- py_max outcome ;;
  Ok {| odds := odds; average := avg; minimum := lo; maximum := hi |}.

(** ** The whole program *)

(** Where an exception that nothing catches was raised. *)
Inductive stage : Type :=
| InSimulator
| InBankruptProb.

Inductive run_result : Type :=
| SysExit (code : Z) (why : fatal)
| Uncaught (at_ : stage) (e : exn)
| Finished (s : Statistics) (outcome : list Z).

(** The input checks at the top of the script, then [main]: the simulator
    followed by the statistics. *)
Definition program {G : Type} `{RandomGen G} (p : SimulationParameters)
  (returns infl_rate : list PyFloat.float) (g : G) : run_result :=
  match check_inputs p with
  | Some why => SysExit 1 why
  | None =>
      match simulator p returns infl_rate g with
      | Raise e => Uncaught InSimulator e
      | Ok (outcome, bankrupt_count, _) =>
          match bankrupt_prob outcome bankrupt_count with
          | Raise e => Uncaught InBankruptProb e
          | Ok s => Finished s outcome
          end
      end
  end.

(** ** A scripted generator

    A generator that replays a prepared list of draws, one pair per run:
    the value handed to [randrange] (reduced into the requested range) and
    the sample handed back by [triangular]. Once the script is used up it
    repeats [0] and [0.0]. *)

Definition Script : Type := list (Z * PyFloat.float).

#[export] Instance ScriptGen : RandomGen Script := {
  randbelow n g :=
    match g with
    | [] => (0, g)
    | (r, _) :: _ => (r mod n, g)
    end;
  triangular _ _ _ g :=
    match g with
    | [] => (S754_zero false, g)
    | (_, t) :: rest => (t, rest)
    end
}.

(** ** A tape generator

    A second generator with the same draws kept differently: a function
    from positions to draws and the position of the next run. *)

Record Tape : Type := {
  tape_draws : nat -> Z * PyFloat.float;
  tape_pos : nat
}.

#[export] Instance TapeGen : RandomGen Tape := {
  randbelow n t := (fst (tape_draws t (tape_pos t)) mod n, t);
  triangular _ _ _ t :=
    (snd (tape_draws t (tape_pos t)),
     {| tape_draws := tape_draws t; tape_pos := S (tape_pos t) |})
}.

(** The tape holds, from its position on, the draws of the script. *)
Definition replays (s : Script) (t : Tape) : Prop :=
  forall k, nth k s (0, S754_zero false) = tape_draws t (tape_pos t + k).

Definition tape_of (s : Script) : Tape :=
  {| tape_draws := fun k => nth k s (0, S754_zero false); tape_pos := 0 |}.

(** ** The yearly step in the words of the specification

    Every year: the withdrawal is the base withdrawal in the first year
    and the previous withdrawal grown by [1 + inflation] and truncated
    afterwards; the withdrawal is subtracted from the portfolio; the
    portfolio is grown by [1 + return] and truncated. A portfolio at or
    below zero ends the run. *)

Module Spec.

(** Truncation toward zero of the exact value of a float. *)
Definition truncate (x : PyFloat.float) : result Z :=
  match x with
  | S754_zero _ => Ok 0
  | S754_infinity _ => Raise OverflowError
  | S754_nan => Raise ValueError
  | S754_finite s m e =>
      Ok (Z.quot (cond_Zopp s (Zpos m) * 2 ^ Z.max e 0) (2 ^ Z.max (- e) 0))
  end.

(** [amount] grown by [1 + rate], truncated toward zero. *)
Definition grow (amount : Z) (rate : PyFloat.float) : result Z :=
  factor <- PyFloat.int_add 1 rate ;;
  x <- PyFloat.int_mul amount factor ;;
  truncate x.

Section Years.

Variable p : SimulationParameters.

Definition year (index : nat) (infl ret : PyFloat.float)
  (previous portfolio : Z) : result (Z * Z) :=
  amount <- match index with
            | O => Ok (withdrawal p)
            | S _ => grow previous infl
            end ;;
  let portfolio := portfolio - amount in
  portfolio <- grow portfolio ret ;;
  Ok (amount, portfolio).

(** The years of a run, each given by its inflation and its return. *)
Fixpoint years (index : nat)
  (rates : list (PyFloat.float * PyFloat.float))
  (previous portfolio : Z) : result (bool * Z) :=
  match rates with
  | [] => Ok (false, portfolio)
  | (infl, ret) :: rest =>
      '(amount, portfolio) <- year index infl ret previous portfolio ;;
      if portfolio <=? 0 then Ok (true, portfolio)
      else years (S index) rest amount portfolio
  end.

End Years.

End Spec.

(** ** Rounding in closed form

    Every float operation ends in [binary_round_aux], which is handed the
    integer part of a quotient [N / D] and the position of the remainder.
    The definitions below describe that input and the rounded result
    through integer division alone. *)

(** Where [N / D] lies between its integer part and the next integer. *)
Definition loc_of_frac (N D : Z) : location :=
  if N mod D =? 0 then loc_Exact else loc_Inexact (2 * (N mod D) ?= D).

(** A shift record that stands for the fraction [N / D]. *)
Definition represents (mrs : shr_record) (N D : Z) : Prop :=
  shr_m mrs = N / D /\ loc_of_shr_record mrs = loc_of_frac N D.

(** [N / D * 2 ^ e], rounded to the nearest float, ties to even. *)
Definition round_frac (s : bool) (N D e : Z) : spec_float :=
  let e1 := Z.max e (fexp PyFloat.prec PyFloat.emax (Zdigits2 (N / D) + e)) in
  let m1 := PyFloat.div_half_even N (D * 2 ^ (e1 - e)) in
  let e2 := Z.max e1 (fexp PyFloat.prec PyFloat.emax (Zdigits2 m1 + e1)) in
  match m1 / 2 ^ (e2 - e1) with
  | Z0 => S754_zero s
  | Zpos m =>
      if e2 <=? PyFloat.emax - PyFloat.prec
      then S754_finite s m e2 else S754_infinity s
  | Zneg _ => S754_nan
  end.

(** [k / 10] as a float lies between [0.0] and [100.0]. *)
Definition tenths_in_range (k : positive) : bool :=
  let x := SFdiv PyFloat.prec PyFloat.emax
             (S754_finite false k 0) (S754_finite false 10 0) in
  PyFloat.leb PyFloat.zero x && PyFloat.leb x PyFloat.hundred.

Fixpoint tenths_in_range_upto (n : nat) : bool :=
  match n with
  | O => true
  | S n' => tenths_in_range (Pos.of_nat n) && tenths_in_range_upto n'
  end.

(** ** Auxiliary notions for the statements *)

Definition is_minimum (lo : Z) (l : list Z) : Prop :=
  In lo l /\ forall x, In x l -> lo <= x.

Definition is_maximum (hi : Z) (l : list Z) : Prop :=
  In hi l /\ forall x, In x l -> x <= hi.

(** The exact value of a float lies in [[lo, hi)], for [0 <= lo]. *)
Definition within (lo hi : Z) (x : PyFloat.float) : Prop :=
  match x with
  | S754_zero _ => lo <= 0 < hi
  | S754_finite false m e =>
      lo * 2 ^ Z.max (- e) 0 <= Z.pos m * 2 ^ Z.max e 0
      /\ Z.pos m * 2 ^ Z.max e 0 < hi * 2 ^ Z.max (- e) 0
  | _ => False
  end.

(** Exceptions that a float conversion can raise. *)
Definition float_error (e : exn) : Prop :=
  e = OverflowError \/ e = ValueError.

Definition zero_or_positive (o : Z) : Prop := o = 0 \/ 0 < o.

(** Number of entries equal to [0]. *)
Definition zeros (outcome : list Z) : Z :=
  Z.of_nat (count_occ Z.eq_dec outcome 0).

(** Two generators hand out the same stream from related states. *)
Definition same_stream {G1 G2 : Type} `{RandomGen G1} `{RandomGen G2}
  (R : G1 -> G2 -> Prop) : Prop :=
  (forall n g1 g2, R g1 g2 ->
     fst (randbelow n g1) = fst (randbelow n g2)
     /\ R (snd (randbelow n g1)) (snd (randbelow n g2)))
  /\ (forall low high mode g1 g2, R g1 g2 ->
     fst (triangular low high mode g1) = fst (triangular low high mode g2)
     /\ R (snd (triangular low high mode g1))
          (snd (triangular low high mode g2))).

(** Two invocations end alike: the same exception, or the same outcome
    sequence and bankrupt count with related generators. *)
Definition same_result {G1 G2 : Type} (R : G1 -> G2 -> Prop)
  (r1 : result (list Z * Z * G1)) (r2 : result (list Z * Z * G2)) : Prop :=
  match r1, r2 with
  | Ok (o1, b1, g1), Ok (o2, b2, g2) => o1 = o2 /\ b1 = b2 /\ R g1 g2
  | Raise e1, Raise e2 => e1 = e2
  | _, _ => False
  end.

(** ** Floats of bounded magnitude *)

(** The mantissa [m] is the one a double uses at exponent [e]. *)
Definition canonical (m : positive) (e : Z) : Prop :=
  fexp PyFloat.prec PyFloat.emax (Z.pos (digits2_pos m) + e) = e.

(** A double of magnitude at most [2 ^ B]. *)
Definition bounded_by (B : Z) (x : PyFloat.float) : Prop :=
  match x with
  | S754_zero _ => True
  | S754_finite _ m e => canonical m e /\ e <= B /\ Z.pos m <= 2 ^ (B - e)
  | _ => False
  end.

(** A yearly rate between -100 % and +100 %. *)
Definition modest_rate (r : PyFloat.float) : Prop := bounded_by 0 r.

(** Every sample drawn for the parameters [p] lies in
    [[min_years, max_years)]. *)
Definition honours_range {G : Type} `{RandomGen G} (p : SimulationParameters)
  : Prop :=
  forall g,
    within (min_years p) (max_years p)
      (fst (triangular (min_years p) (max_years p) (most_likely_years p) g)).

(** ** Sample inputs *)

Module Sample.

(** [a / b] as a float, for [b <> 0]. *)
Definition ratio (a b : Z) : PyFloat.float :=
  match PyFloat.int_truediv a b with
  | Ok f => f
  | Raise _ => S754_nan
  end.

(** Ten per cent return every year, no inflation. *)
Definition growth_returns : list PyFloat.float := repeat (ratio 10 100) 50.
Definition no_inflation : list PyFloat.float := repeat (S754_zero false) 50.

Definition five_years : SimulationParameters :=
  {| start_value := 100000; withdrawal := 1000; min_years := 4;
     most_likely_years := 5; max_years := 6; num_sim := 1 |}.

(** One run starting at offset 0 with a sample of 5.5 years. *)
Definition one_draw : Script := [(0, ratio 11 2)].

(** No run requested. *)
Definition no_runs : SimulationParameters :=
  {| start_value := 100000; withdrawal := 1000; min_years := 4;
     most_likely_years := 5; max_years := 6; num_sim := 0 |}.

(** A retirement of up to 99 years. *)
Definition ninety_nine : SimulationParameters :=
  {| start_value := 100000; withdrawal := 1000; min_years := 1;
     most_likely_years := 50; max_years := 99; num_sim := 1 |}.

(** A starting value beyond the range of a float. *)
Definition huge : SimulationParameters :=
  {| start_value := 2 ^ 1024; withdrawal := 0; min_years := 1;
     most_likely_years := 2; max_years := 3; num_sim := 1 |}.

Definition two_years_draw : Script := [(0, ratio 2 1)].

(** A good year followed by a total loss, and two runs over them: one
    year from offset 0, then two years from offset 1. *)
Definition boom_bust : list PyFloat.float := [ratio 10 100; ratio (-1) 1].

Definition two_runs : SimulationParameters :=
  {| start_value := 100000; withdrawal := 1000; min_years := 1;
     most_likely_years := 2; max_years := 3; num_sim := 2 |}.

Definition two_draws : Script := [(0, ratio 3 2); (1, ratio 5 2)].

(** The guaranteed loss of the specification: every year loses
    everything, five runs. *)
Definition total_loss : list PyFloat.float := repeat (ratio (-1) 1) 10.

Definition five_runs : SimulationParameters :=
  {| start_value := 100000; withdrawal := 1000; min_years := 1;
     most_likely_years := 2; max_years := 3; num_sim := 5 |}.

Definition five_draws : Script :=
  [(0, ratio 3 2); (7, ratio 5 2); (3, ratio 1 1); (9, ratio 2 1);
   (12, ratio 11 4)].

(** A single outcome of 2^53 + 1, which no float holds exactly. *)
Definition odd_outcome : list Z := [9007199254740993].

End Sample.

(** ** A steady generator

    A generator that counts its runs: the start year is the count
    (reduced into the requested range) and every sample is the most
    likely duration. *)

Record Steady : Type := { steady_count : nat }.

#[export] Instance SteadyGen : RandomGen Steady := {
  randbelow n g := (Z.of_nat (steady_count g) mod n, g);
  triangular _ _ mode g :=
    (Sample.ratio mode 1, {| steady_count := S (steady_count g) |})
}.

(** ** One pair of draws

    The generator after the two draws of one run: [randrange] over the
    return series, then [triangular]. *)
Definition advance {G : Type} `{RandomGen G} (p : SimulationParameters)
  (returns : list PyFloat.float) (g : G) : G :=
  snd (triangular (min_years p) (max_years p) (most_likely_years p)
         (snd (randbelow (len returns) g))).

(** ** A total loss

    The rate of -100 %, as [read_to_list] makes it from the line [-100]. *)
Definition total_loss_rate : PyFloat.float :=
  S754_finite true 4503599627370496 (-52).

(** Every sample drawn for the parameters [p] truncates to at least one
    year. *)
Definition samples_a_year {G : Type} `{RandomGen G}
  (p : SimulationParameters) : Prop :=
  forall g, exists duration,
    PyFloat.to_int
      (fst (triangular (min_years p) (max_years p) (most_likely_years p) g))
    = Ok duration
    /\ 1 <= duration.

(** ** Loading a table

    [float / int] and [round(x, 5)], as [read_to_list] uses them. *)

(** [x / n] for a float [x] and an int [n]. *)
Definition float_div_int (x : PyFloat.float) (n : Z) : result PyFloat.float :=
  d <- PyFloat.of_int n ;;
  match d with
  | S754_zero _ => Raise ZeroDivisionError
  | _ => Ok (SFdiv PyFloat.prec PyFloat.emax x d)
  end.

(** [round(x, 5)]: the exact value of [x] is rounded to five decimal
    places, ties to even, and the decimal is converted back to the
    nearest float. *)
Definition round5 (x : PyFloat.float) : PyFloat.float :=
  match x with
  | S754_finite s m e =>
      let units :=
        if 0 <=? e then 100000 * Zpos m * 2 ^ e
        else PyFloat.div_half_even (100000 * Zpos m) (2 ^ (- e)) in
      match units with
      | Zpos k =>
          SFdiv PyFloat.prec PyFloat.emax
            (S754_finite s k 0) (S754_finite false 100000 0)
      | _ => S754_zero s
      end
  | _ => x
  end.

(** The list comprehension of [read_to_list], over the numbers parsed
    from the lines of the file; reading the file and parsing its lines
    are outside the model. *)
Fixpoint read_to_list (lines : list PyFloat.float)
  : result (list PyFloat.float) :=
  match lines with
  | [] => Ok []
  | line :: rest =>
      x <- float_div_int line 100 ;;
      decimal <- read_to_list rest ;;
      Ok (round5 x :: decimal)
  end.

(** A number of magnitude at most the integer [M]. *)
Definition at_most (M : Z) (x : PyFloat.float) : Prop :=
  match x with
  | S754_zero _ => True
  | S754_finite _ m e => Z.pos m * 2 ^ Z.max e 0 <= M * 2 ^ Z.max (- e) 0
  | _ => False
  end.

(** A percentage between -100 and 100. *)
Definition percentage (x : PyFloat.float) : Prop := at_most 100 x.

(** ** The bar chart of [main] *)

(** [outcome[:3000]]. *)
Definition plot_data (outcome : list Z) : list Z := firstn 3000 outcome.

(** [[i + 1 for i in range(len(plot_data))]]: the positions of the
    bars. *)
Definition bar_index (plot : list Z) : list Z :=
  map (fun i => i + 1) (py_range 0 (len plot)).

(** * Properties *)

(** ** The error monad *)

Lemma bind_Ok {A B : Type} (m : result A) (k : A -> result B) (b : B) :
  bind m k = Ok b -> exists a, m = Ok a /\ k a = Ok b.
Proof.
  destruct m as [a|e]; simpl; intros Hk; [eauto | discriminate].
Qed.

Lemma bind_Raise {A B : Type} (m : result A) (k : A -> result B) (e : exn) :
  bind m k = Raise e ->
  m = Raise e \/ exists a, m = Ok a /\ k a = Raise e.
Proof.
  destruct m as [a|e']; simpl; intros Hk; [right; eauto | left; congruence].
Qed.

Ltac bind_inv H :=
  let a := fresh "a" in
  let Ha := fresh "Ha" in
  apply bind_Ok in H; destruct H as (a & Ha & H).

Lemma of_int_error (n : Z) (e : exn) :
  PyFloat.of_int n = Raise e -> float_error e.
Proof.
  unfold PyFloat.of_int.
  destruct (binary_normalize _ _ _ _ _); intros E; inversion E; now left.
Qed.

Lemma to_int_error (x : PyFloat.float) (e : exn) :
  PyFloat.to_int x = Raise e -> float_error e.
Proof.
  destruct x; simpl; intros E; inversion E; [now left | now right].
Qed.

Lemma int_add_error (n : Z) (x : PyFloat.float) (e : exn) :
  PyFloat.int_add n x = Raise e -> float_error e.
Proof.
  unfold PyFloat.int_add. intros E.
  apply bind_Raise in E as [E | (f & _ & E)]; [|discriminate].
  eapply of_int_error; eauto.
Qed.

Lemma int_mul_error (n : Z) (x : PyFloat.float) (e : exn) :
  PyFloat.int_mul n x = Raise e -> float_error e.
Proof.
  unfold PyFloat.int_mul. intros E.
  apply bind_Raise in E as [E | (f & _ & E)]; [|discriminate].
  eapply of_int_error; eauto.
Qed.

(** ** Sequence operations *)

Lemma len_pos {A : Type} (l : list A) : l <> [] -> 0 < len l.
Proof. destruct l; [congruence | unfold len; simpl; lia]. Qed.

Lemma py_index_in_range {A : Type} (l : list A) (i : Z) :
  0 <= i < len l ->
  exists x, py_index l i = Ok x /\ nth_error l (Z.to_nat i) = Some x.
Proof.
  intros Hi. unfold py_index.
  destruct (i <? 0) eqn:E; [lia|]. rewrite E.
  destruct (nth_error l (Z.to_nat i)) as [x|] eqn:N; [eauto|].
  apply nth_error_None in N. unfold len in Hi. lia.
Qed.

Lemma py_mod_in_range (a b : Z) :
  0 < b -> exists j, py_mod a b = Ok j /\ j = a mod b /\ 0 <= j < b.
Proof.
  intros Hb. unfold py_mod. destruct (b =? 0) eqn:E; [lia|].
  exists (a mod b). repeat split; try apply Z.mod_pos_bound; auto.
Qed.

Lemma py_range_length (a b : Z) : length (py_range a b) = Z.to_nat (b - a).
Proof. unfold py_range. now rewrite length_map, length_seq. Qed.

Lemma py_range_nth (a b : Z) (k : nat) :
  (k < Z.to_nat (b - a))%nat ->
  nth_error (py_range a b) k = Some (a + Z.of_nat k).
Proof.
  intros Hk. unfold py_range.
  rewrite nth_error_map, nth_error_seq.
  destruct (Nat.ltb_spec k (Z.to_nat (b - a))); [reflexivity | lia].
Qed.

(** ** The temporary lists of a run *)

Section LifespanLists.

Variable returns infl_rate : list PyFloat.float.
Hypothesis returns_nonempty : returns <> [].
Hypothesis infl_nonempty : infl_rate <> [].

Lemma build_lifespan_spec (lifespan : list Z) :
  forall acc_r acc_i,
  exists rs fs,
    build_lifespan returns infl_rate lifespan acc_r acc_i
      = Ok (acc_r ++ rs, acc_i ++ fs)
    /\ length rs = length lifespan
    /\ length fs = length lifespan
    /\ forall k i, nth_error lifespan k = Some i ->
         (exists r, nth_error rs k = Some r
            /\ nth_error returns (Z.to_nat (i mod len returns)) = Some r)
         /\ (exists f, nth_error fs k = Some f
            /\ nth_error infl_rate (Z.to_nat (i mod len infl_rate)) = Some f).
Proof.
  induction lifespan as [|i rest IH]; intros acc_r acc_i.
  - exists [], []. simpl. rewrite !app_nil_r. repeat split; auto.
    all: destruct k; discriminate.
  - simpl.
    destruct (py_mod_in_range i (len returns) (len_pos _ returns_nonempty))
      as (jr & Ejr & -> & Hjr).
    destruct (py_index_in_range returns _ Hjr) as (r & Er & Hr).
    destruct (py_mod_in_range i (len infl_rate) (len_pos _ infl_nonempty))
      as (ji & Eji & -> & Hji).
    destruct (py_index_in_range infl_rate _ Hji) as (f & Ef & Hf).
    rewrite Ejr; cbn [bind]. rewrite Er; cbn [bind].
    rewrite Eji; cbn [bind]. rewrite Ef; cbn [bind].
    destruct (IH (acc_r ++ [r]) (acc_i ++ [f]))
      as (rs & fs & -> & Lr & Lf & Hnth).
    exists (r :: rs), (f :: fs).
    rewrite <- !app_assoc. simpl. repeat split; auto.
    + destruct k; simpl in *; [inversion H; subst; eauto | now apply Hnth].
    + destruct k; simpl in *; [inversion H; subst; eauto | now apply Hnth].
Qed.

End LifespanLists.

(** ** The yearly loop *)

Section YearlyLoop.

Variable p : SimulationParameters.

(** The loop either stops at the first year that leaves the portfolio at
    or below zero, or ends with a positive portfolio. *)
Lemma retirement_years_sound (lifespan_returns lifespan_infl : list PyFloat.float) :
  forall index withdrawal_infl investments bankrupt final,
    0 < investments ->
    retirement_years p index lifespan_returns lifespan_infl
      withdrawal_infl investments = Ok (bankrupt, final) ->
    (bankrupt = true /\ final <= 0) \/ (bankrupt = false /\ 0 < final).
Proof.
  induction lifespan_returns as [|i rest IH];
    intros index w v b final Hv Hrun; cbn [retirement_years] in Hrun.
  - inversion Hrun; subst. right; split; [reflexivity | lia].
  - bind_inv Hrun. bind_inv Hrun. bind_inv Hrun.
    destruct (a1 <=? 0) eqn:E.
    + inversion Hrun; subst. left; split; [reflexivity | lia].
    + eapply IH; [|exact Hrun]. lia.
Qed.

Lemma retirement_years_bankrupt (lifespan_returns lifespan_infl : list PyFloat.float) :
  forall index withdrawal_infl investments final,
    retirement_years p index lifespan_returns lifespan_infl
      withdrawal_infl investments = Ok (true, final) ->
    final <= 0.
Proof.
  induction lifespan_returns as [|i rest IH];
    intros index w v final Hrun; cbn [retirement_years] in Hrun;
    [discriminate|].
  bind_inv Hrun. bind_inv Hrun. bind_inv Hrun.
  destruct (a1 <=? 0) eqn:E.
  - inversion Hrun; subst. lia.
  - eapply IH; exact Hrun.
Qed.

(** Once a year has left the portfolio at or below zero, the years after
    it play no part in the result. *)
Lemma retirement_years_stop (years later lifespan_infl : list PyFloat.float) :
  forall index withdrawal_infl investments final,
    retirement_years p index years lifespan_infl
      withdrawal_infl investments = Ok (true, final) ->
    retirement_years p index (years ++ later) lifespan_infl
      withdrawal_infl investments = Ok (true, final).
Proof.
  induction years as [|i rest IH]; intros index w v final Hrun;
    cbn [retirement_years app] in *; [discriminate|].
  destruct (py_index lifespan_infl (Z.of_nat index)) as [infl|];
    cbn [bind] in *; [|discriminate].
  destruct (year_withdrawal p index infl w) as [w'|];
    cbn [bind] in *; [|discriminate].
  destruct (year_investments i w' v) as [v'|];
    cbn [bind] in *; [|discriminate].
  destruct (v' <=? 0); [exact Hrun | now apply IH].
Qed.

Lemma year_withdrawal_error index infl w e :
  year_withdrawal p index infl w = Raise e -> float_error e.
Proof.
  destruct index; cbn [year_withdrawal]; [discriminate|]. intros E.
  apply bind_Raise in E as [E | (g & _ & E)];
    [eapply int_add_error; eauto|].
  apply bind_Raise in E as [E | (x & _ & E)];
    [eapply int_mul_error; eauto | eapply to_int_error; eauto].
Qed.

Lemma year_investments_error i w v e :
  year_investments i w v = Raise e -> float_error e.
Proof.
  unfold year_investments. intros E.
  apply bind_Raise in E as [E | (g & _ & E)];
    [eapply int_add_error; eauto|].
  apply bind_Raise in E as [E | (x & _ & E)];
    [eapply int_mul_error; eauto | eapply to_int_error; eauto].
Qed.

(** With an inflation entry for every remaining year, the loop can only
    be left early by a float conversion. *)
Lemma retirement_years_error (lifespan_returns lifespan_infl : list PyFloat.float) :
  forall index withdrawal_infl investments e,
    (index + length lifespan_returns <= length lifespan_infl)%nat ->
    retirement_years p index lifespan_returns lifespan_infl
      withdrawal_infl investments = Raise e ->
    float_error e.
Proof.
  induction lifespan_returns as [|i rest IH];
    intros index w v e Hlen Hrun; cbn [retirement_years] in Hrun;
    [discriminate|].
  cbn [length] in Hlen.
  destruct (py_index_in_range lifespan_infl (Z.of_nat index))
    as (infl & Hinfl & _); [unfold len; lia|].
  rewrite Hinfl in Hrun. cbn [bind] in Hrun.
  apply bind_Raise in Hrun as [E | (w' & _ & Hrun)];
    [eapply year_withdrawal_error; eauto|].
  apply bind_Raise in Hrun as [E | (v' & _ & Hrun)];
    [eapply year_investments_error; eauto|].
  destruct (v' <=? 0); [discriminate|].
  eapply IH; [|exact Hrun]. lia.
Qed.

End YearlyLoop.

(** ** One run and the loop over runs *)

Section Runs.

Context {G : Type} `{RandomGen G}.

Variable p : SimulationParameters.
Variable returns infl_rate : list PyFloat.float.

(** A run is reported as [0] exactly when it went bankrupt. *)
Lemma simulate_run_outcome (g g' : G) (o : Z) (bankrupt : bool) :
  0 < start_value p ->
  simulate_run p returns infl_rate g = Ok (o, bankrupt, g') ->
  (bankrupt = true /\ o = 0) \/ (bankrupt = false /\ 0 < o).
Proof.
  intros Hstart Hrun. unfold simulate_run in Hrun.
  bind_inv Hrun. destruct a as [start_year g1].
  destruct (triangular _ _ _ g1) as [t g2].
  bind_inv Hrun. bind_inv Hrun. destruct a0 as [lr li].
  bind_inv Hrun. destruct a0 as [b final].
  apply retirement_years_sound in Ha2; [|exact Hstart].
  destruct b; inversion Hrun; subst; intuition congruence.
Qed.

Lemma simulate_run_error (g : G) (e : exn) :
  returns <> [] -> infl_rate <> [] ->
  simulate_run p returns infl_rate g = Raise e -> float_error e.
Proof.
  intros Hr Hi Hrun. unfold simulate_run in Hrun.
  apply bind_Raise in Hrun as [E | ([start_year g1] & _ & Hrun)].
  { unfold randrange in E. rewrite Z.sub_0_r in E.
    pose proof (len_pos _ Hr) as L. apply Z.ltb_lt in L. rewrite L in E.
    destruct (randbelow _ _); discriminate. }
  destruct (triangular _ _ _ g1) as [t g2].
  apply bind_Raise in Hrun as [E | (duration & _ & Hrun)];
    [eapply to_int_error; eauto|].
  destruct (build_lifespan_spec returns infl_rate Hr Hi
              (py_range start_year (start_year + duration)) [] [])
    as (lr & li & Hb & Lr & Li & _).
  rewrite Hb in Hrun. cbn [bind app] in Hrun.
  apply bind_Raise in Hrun as [E | ([b final] & _ & Hrun)].
  - eapply retirement_years_error; [|exact E]. simpl. lia.
  - destruct b; discriminate.
Qed.

Lemma zeros_cons (o : Z) (l : list Z) :
  zeros (o :: l) = (if o =? 0 then 1 else 0) + zeros l.
Proof.
  unfold zeros. cbn [count_occ].
  destruct (Z.eq_dec o 0) as [->|N]; [simpl (0 =? 0); lia|].
  apply Z.eqb_neq in N. rewrite N. lia.
Qed.

Lemma zeros_bounds (l : list Z) : 0 <= zeros l <= len l.
Proof.
  unfold zeros, len. pose proof (count_occ_bound Z.eq_dec 0 l). lia.
Qed.

(** What [remaining] more passes add to the accumulators. *)
Lemma sim_loop_spec (remaining : nat) :
  forall bankrupt_count outcome g outcome' bankrupt_count' g',
    0 < start_value p ->
    sim_loop p returns infl_rate remaining bankrupt_count outcome g
      = Ok (outcome', bankrupt_count', g') ->
    exists new,
      outcome' = outcome ++ new
      /\ length new = remaining
      /\ Forall zero_or_positive new
      /\ bankrupt_count' = bankrupt_count + zeros new.
Proof.
  induction remaining as [|n IH];
    intros bc out g out' bc' g' Hstart Hloop; cbn [sim_loop] in Hloop.
  - inversion Hloop; subst. exists []. rewrite app_nil_r.
    repeat split; auto. unfold zeros; simpl; lia.
  - bind_inv Hloop. destruct a as [[o b] g1].
    pose proof (simulate_run_outcome _ _ _ _ Hstart Ha) as Ho.
    apply IH in Hloop as (new & -> & Ln & Fn & ->); [|exact Hstart].
    exists (o :: new). rewrite <- app_assoc. cbn [app length].
    repeat split; auto.
    + constructor; [|exact Fn]. unfold zero_or_positive. intuition.
    + rewrite zeros_cons.
      destruct Ho as [[-> ->] | [-> Ho]];
        [change (0 =? 0) with true; cbv iota; lia|].
      cbv iota. destruct (Z.eqb_spec o 0); lia.
Qed.

Lemma sim_loop_error (remaining : nat) :
  forall bankrupt_count outcome g e,
    returns <> [] -> infl_rate <> [] ->
    sim_loop p returns infl_rate remaining bankrupt_count outcome g
      = Raise e ->
    float_error e.
Proof.
  induction remaining as [|n IH];
    intros bc out g e Hr Hi Hloop; cbn [sim_loop] in Hloop;
    [discriminate|].
  apply bind_Raise in Hloop as [E | ([[o b] g1] & _ & Hloop)].
  - eapply simulate_run_error; eauto.
  - eapply IH; eauto.
Qed.

End Runs.

(** ** Truncation *)

(** [int(x)] on a float is truncation toward zero of its exact value. *)
Lemma to_int_truncate (x : PyFloat.float) : PyFloat.to_int x = Spec.truncate x.
Proof.
  destruct x as [s|s| |s m e]; try reflexivity.
  unfold PyFloat.to_int, Spec.truncate. f_equal.
  destruct (Z.le_gt_cases 0 e) as [He|He].
  - rewrite Z.max_l, Z.max_r by lia. change (2 ^ 0) with 1.
    rewrite Z.quot_1_r, Z.shiftl_mul_pow2 by lia.
    destruct s; unfold cond_Zopp; lia.
  - rewrite Z.max_r, Z.max_l by lia. rewrite Z.mul_1_r.
    rewrite <- (Z.opp_involutive e) at 1.
    rewrite Z.shiftl_opp_r, Z.shiftr_div_pow2 by lia.
    assert (0 < 2 ^ (- e)) by (apply Z.pow_pos_nonneg; lia).
    destruct s; unfold cond_Zopp.
    + change (Z.neg m) with (- Z.pos m).
      rewrite Z.quot_opp_l by lia. f_equal.
      symmetry. apply Z.quot_div_nonneg; lia.
    + symmetry. apply Z.quot_div_nonneg; lia.
Qed.

(** A sample of [[lo, hi)] keeps to that range when truncated: what
    [int] contributes to the duration of a run, whatever the library's
    [triangular] hands back within its bounds. *)
Lemma to_int_within (lo hi : Z) (t : PyFloat.float) :
  0 <= lo -> within lo hi t ->
  exists duration, PyFloat.to_int t = Ok duration /\ lo <= duration < hi.
Proof.
  intros Hlo Hin. rewrite to_int_truncate.
  destruct t as [s|s| |[|] m e]; cbn [within Spec.truncate] in *;
    try contradiction.
  - exists 0. split; [reflexivity | lia].
  - destruct Hin as [Hl Hh]. eexists. split; [reflexivity|].
    unfold cond_Zopp.
    assert (0 < 2 ^ Z.max (- e) 0) by (apply Z.pow_pos_nonneg; lia).
    assert (0 < 2 ^ Z.max e 0) by (apply Z.pow_pos_nonneg; lia).
    rewrite Z.quot_div_nonneg by lia. split.
    + apply Z.div_le_lower_bound; lia.
    + apply Z.div_lt_upper_bound; lia.
Qed.

(** ** Order of operations within a year *)

Section YearOrder.

Variable p : SimulationParameters.

Lemma year_withdrawal_spec index infl w :
  year_withdrawal p index infl w
  = match index with
    | O => Ok (withdrawal p)
    | S _ => Spec.grow w infl
    end.
Proof.
  destruct index; [reflexivity|].
  unfold year_withdrawal, Spec.grow.
  destruct (PyFloat.int_add 1 infl) as [f|]; cbn [bind]; [|reflexivity].
  destruct (PyFloat.int_mul w f) as [x|]; cbn [bind]; [|reflexivity].
  apply to_int_truncate.
Qed.

Lemma year_investments_spec i w v :
  year_investments i w v = Spec.grow (v - w) i.
Proof.
  unfold year_investments, Spec.grow.
  destruct (PyFloat.int_add 1 i) as [f|]; cbn [bind]; [|reflexivity].
  destruct (PyFloat.int_mul (v - w) f) as [x|]; cbn [bind]; [|reflexivity].
  apply to_int_truncate.
Qed.

Lemma retirement_years_refines (lifespan_returns : list PyFloat.float) :
  forall index seen lifespan_infl withdrawal_infl investments,
    length seen = index ->
    length lifespan_infl = length lifespan_returns ->
    retirement_years p index lifespan_returns (seen ++ lifespan_infl)
      withdrawal_infl investments
    = Spec.years p index (combine lifespan_infl lifespan_returns)
        withdrawal_infl investments.
Proof.
  induction lifespan_returns as [|i rest IH];
    intros index seen li w v Hseen Hlen.
  - destruct li; reflexivity.
  - destruct li as [|infl li]; [discriminate|].
    cbn [retirement_years combine Spec.years].
    assert (Hidx : py_index (seen ++ infl :: li) (Z.of_nat index) = Ok infl).
    { destruct (py_index_in_range (seen ++ infl :: li) (Z.of_nat index))
        as (x & Hx & Hn).
      - unfold len. rewrite length_app. simpl. lia.
      - rewrite Nat2Z.id, nth_error_app2 in Hn by lia.
        rewrite Hseen, Nat.sub_diag in Hn. simpl in Hn. congruence. }
    rewrite Hidx. cbn [bind]. unfold Spec.year.
    rewrite year_withdrawal_spec.
    destruct (match index with
              | O => Ok (withdrawal p)
              | S _ => Spec.grow w infl
              end) as [w'|]; cbn [bind]; [|reflexivity].
    rewrite year_investments_spec.
    destruct (Spec.grow (v - w') i) as [v'|]; cbn [bind]; [|reflexivity].
    destruct (v' <=? 0); [reflexivity|].
    change (seen ++ infl :: li) with (seen ++ [infl] ++ li).
    rewrite app_assoc. apply IH.
    + rewrite length_app. simpl. lia.
    + simpl in Hlen. lia.
Qed.

(** C2: year by year, the loop of the simulator applies the steps of the
    specification in its order: the withdrawal of the year (the base
    withdrawal at position 0, else the previous one grown by one plus
    the inflation and truncated toward zero), its subtraction from the
    portfolio, the growth of the portfolio by one plus the return
    followed by truncation toward zero, and the bankruptcy test. *)
Theorem yearly_order (lifespan_returns lifespan_infl : list PyFloat.float)
  (withdrawal_infl investments : Z) :
  length lifespan_infl = length lifespan_returns ->
  retirement_years p 0 lifespan_returns lifespan_infl
    withdrawal_infl investments
  = Spec.years p 0 (combine lifespan_infl lifespan_returns)
      withdrawal_infl investments.
Proof.
  intros Hlen.
  apply (retirement_years_refines lifespan_returns 0%nat [] lifespan_infl);
    [reflexivity | exact Hlen].
Qed.

End YearOrder.

Lemma yearly_order_witness :
  retirement_years Sample.five_years 0
    (firstn 5 Sample.growth_returns) (firstn 5 Sample.no_inflation) 0 100000
  = Spec.years Sample.five_years 0
      (combine (firstn 5 Sample.no_inflation) (firstn 5 Sample.growth_returns))
      0 100000.
Proof.
  apply (yearly_order Sample.five_years); reflexivity.
Defined.

(** The closed-form scenario of the specification: five years at ten per
    cent, no inflation, 1000 withdrawn from 100000 each year. *)
Example five_years_by_hand :
  Spec.years Sample.five_years 0
    (combine (firstn 5 Sample.no_inflation) (firstn 5 Sample.growth_returns))
    0 100000 = Ok (false, 154334).
Proof. vm_compute. reflexivity. Qed.

(** ** Cyclic indexing *)

(** C6: the year at offset [k] of a run that starts at [start_year] is
    given the return at index [(start_year + k) mod N] and the inflation
    at index [(start_year + k) mod M], where [N] and [M] are the lengths
    of the two series. *)
Theorem cyclic_indexing (returns infl_rate : list PyFloat.float)
  (start_year duration : Z) :
  returns <> [] -> infl_rate <> [] ->
  exists lifespan_returns lifespan_infl,
    build_lifespan returns infl_rate
      (py_range start_year (start_year + duration)) [] []
      = Ok (lifespan_returns, lifespan_infl)
    /\ length lifespan_returns = Z.to_nat duration
    /\ length lifespan_infl = Z.to_nat duration
    /\ forall k, (k < Z.to_nat duration)%nat ->
         let i := start_year + Z.of_nat k in
         (exists r, nth_error lifespan_returns k = Some r
            /\ py_index returns (i mod len returns) = Ok r)
         /\ (exists f, nth_error lifespan_infl k = Some f
            /\ py_index infl_rate (i mod len infl_rate) = Ok f).
Proof.
  intros Hr Hi.
  destruct (build_lifespan_spec returns infl_rate Hr Hi
              (py_range start_year (start_year + duration)) [] [])
    as (rs & fs & Hb & Lr & Lf & Hnth).
  rewrite py_range_length in Lr, Lf.
  replace (start_year + duration - start_year) with duration in Lr, Lf by lia.
  exists rs, fs. cbn [app] in Hb. repeat split; auto.
  - destruct (Hnth k (start_year + Z.of_nat k)) as [(r & Er & Nr) _].
    { apply py_range_nth. replace (start_year + duration - start_year)
        with duration by lia. exact H. }
    exists r. split; [exact Er|].
    destruct (py_index_in_range returns
                ((start_year + Z.of_nat k) mod len returns))
      as (x & Ex & Nx);
      [apply Z.mod_pos_bound, len_pos, Hr | congruence].
  - destruct (Hnth k (start_year + Z.of_nat k)) as [_ (f & Ef & Nf)].
    { apply py_range_nth. replace (start_year + duration - start_year)
        with duration by lia. exact H. }
    exists f. split; [exact Ef|].
    destruct (py_index_in_range infl_rate
                ((start_year + Z.of_nat k) mod len infl_rate))
      as (x & Ex & Nx);
      [apply Z.mod_pos_bound, len_pos, Hi | congruence].
Qed.

Lemma cyclic_indexing_witness :
  exists lifespan_returns lifespan_infl,
    build_lifespan Sample.growth_returns [S754_zero false; Sample.ratio 3 100]
      (py_range 48 (48 + 5)) [] []
      = Ok (lifespan_returns, lifespan_infl)
    /\ length lifespan_returns = Z.to_nat 5
    /\ length lifespan_infl = Z.to_nat 5
    /\ forall k, (k < Z.to_nat 5)%nat ->
         let i := 48 + Z.of_nat k in
         (exists r, nth_error lifespan_returns k = Some r
            /\ py_index Sample.growth_returns
                 (i mod len Sample.growth_returns) = Ok r)
         /\ (exists f, nth_error lifespan_infl k = Some f
            /\ py_index [S754_zero false; Sample.ratio 3 100]
                 (i mod len [S754_zero false; Sample.ratio 3 100]) = Ok f).
Proof.
  apply (cyclic_indexing Sample.growth_returns
           [S754_zero false; Sample.ratio 3 100] 48 5); discriminate.
Defined.

(** ** Outcomes of the simulator *)

Section SimulatorResults.

Context {G : Type} `{RandomGen G}.

Variable p : SimulationParameters.
Variable returns infl_rate : list PyFloat.float.

Lemma simulator_spec (g g' : G) (outcome : list Z) (bankrupt_count : Z) :
  0 < start_value p ->
  simulator p returns infl_rate g = Ok (outcome, bankrupt_count, g') ->
  length outcome = Z.to_nat (num_sim p)
  /\ Forall zero_or_positive outcome
  /\ bankrupt_count = zeros outcome.
Proof.
  intros Hstart Hsim. unfold simulator in Hsim.
  apply sim_loop_spec in Hsim as (new & -> & Ln & Fn & ->);
    [|exact Hstart].
  cbn [app]. repeat split; auto.
Qed.

(** C3: every reported outcome is exactly 0 or strictly positive. A run
    reported as 0 went bankrupt: the yearly loop stopped at a portfolio
    at or below zero, and no later year changes that result. *)
Theorem outcome_zero_or_positive (g g' : G) (outcome : list Z)
  (bankrupt_count : Z) :
  valid_parameters p ->
  simulator p returns infl_rate g = Ok (outcome, bankrupt_count, g') ->
  Forall zero_or_positive outcome
  /\ (forall g1 g2 o bankrupt,
        simulate_run p returns infl_rate g1 = Ok (o, bankrupt, g2) ->
        (bankrupt = true /\ o = 0) \/ (bankrupt = false /\ 0 < o))
  /\ (forall index years later lifespan_infl withdrawal_infl investments final,
        retirement_years p index years lifespan_infl
          withdrawal_infl investments = Ok (true, final) ->
        final <= 0
        /\ retirement_years p index (years ++ later) lifespan_infl
             withdrawal_infl investments = Ok (true, final)).
Proof.
  intros (Hstart & _) Hsim. split; [|split].
  - now apply (simulator_spec _ _ _ _ Hstart) in Hsim.
  - intros g1 g2 o b Hrun. exact (simulate_run_outcome _ _ _ _ _ _ _ Hstart Hrun).
  - intros index years later li w v final Hrun. split.
    + exact (retirement_years_bankrupt _ _ _ _ _ _ _ Hrun).
    + now apply retirement_years_stop.
Qed.

(** C10: the bankrupt count is the number of outcomes equal to 0. *)
Theorem bankrupt_count_is_zero_count (g g' : G) (outcome : list Z)
  (bankrupt_count : Z) :
  valid_parameters p ->
  simulator p returns infl_rate g = Ok (outcome, bankrupt_count, g') ->
  bankrupt_count = zeros outcome.
Proof.
  intros (Hstart & _) Hsim.
  now apply (simulator_spec _ _ _ _ Hstart) in Hsim.
Qed.

(** Under valid parameters and non-empty series the simulator either is
    stopped by a float conversion or returns [num_sim] outcomes and a
    bankrupt count between 0 and [num_sim]. *)
Lemma simulator_shape_or_error (g : G) :
  valid_parameters p ->
  returns <> [] -> infl_rate <> [] ->
  match simulator p returns infl_rate g with
  | Ok (outcome, bankrupt_count, _) =>
      len outcome = num_sim p /\ 0 <= bankrupt_count <= num_sim p
  | Raise e => float_error e
  end.
Proof.
  intros Hvalid Hr Hi.
  destruct (simulator p returns infl_rate g) as [[[outcome bc] g']|e] eqn:Hsim.
  - destruct Hvalid as (Hstart & _ & _ & _ & _ & _ & Hn).
    apply (simulator_spec _ _ _ _ Hstart) in Hsim as (Hlen & _ & ->).
    assert (Hl : len outcome = num_sim p) by (unfold len; lia).
    split; [exact Hl|]. rewrite <- Hl. apply zeros_bounds.
  - unfold simulator in Hsim.
    exact (sim_loop_error p returns infl_rate _ _ _ _ _ Hr Hi Hsim).
Qed.

End SimulatorResults.

Lemma two_runs_valid : valid_parameters Sample.two_runs.
Proof. unfold valid_parameters; simpl; lia. Qed.

Lemma two_runs_result :
  simulator Sample.two_runs Sample.boom_bust Sample.no_inflation
    Sample.two_draws = Ok ([108900; 0], 1, []).
Proof. vm_compute. reflexivity. Qed.

Lemma outcome_zero_or_positive_witness :
  valid_parameters Sample.two_runs
  /\ simulator Sample.two_runs Sample.boom_bust Sample.no_inflation
       Sample.two_draws = Ok ([108900; 0], 1, [])
  /\ Forall zero_or_positive [108900; 0].
Proof.
  split; [exact two_runs_valid|]. split; [exact two_runs_result|].
  exact (proj1 (outcome_zero_or_positive Sample.two_runs Sample.boom_bust
                  Sample.no_inflation Sample.two_draws [] [108900; 0] 1
                  two_runs_valid two_runs_result)).
Defined.

Lemma bankrupt_count_is_zero_count_witness :
  valid_parameters Sample.two_runs
  /\ simulator Sample.two_runs Sample.boom_bust Sample.no_inflation
       Sample.two_draws = Ok ([108900; 0], 1, [])
  /\ 1 = zeros [108900; 0].
Proof.
  split; [exact two_runs_valid|]. split; [exact two_runs_result|].
  exact (bankrupt_count_is_zero_count Sample.two_runs Sample.boom_bust
           Sample.no_inflation Sample.two_draws [] [108900; 0] 1
           two_runs_valid two_runs_result).
Defined.

(** C1 as stated fails: with valid parameters whose starting value is
    2^1024, the first year's product cannot be formed and the simulator
    returns nothing. *)
Lemma simulator_overflow :
  valid_parameters Sample.huge
  /\ Sample.boom_bust <> [] /\ Sample.no_inflation <> []
  /\ simulator Sample.huge Sample.boom_bust Sample.no_inflation
       Sample.two_years_draw = Raise OverflowError
  /\ ~ exists outcome bankrupt_count g',
         simulator Sample.huge Sample.boom_bust Sample.no_inflation
           Sample.two_years_draw = Ok (outcome, bankrupt_count, g')
         /\ len outcome = num_sim Sample.huge
         /\ 0 <= bankrupt_count <= num_sim Sample.huge.
Proof.
  assert (E : simulator Sample.huge Sample.boom_bust Sample.no_inflation
                Sample.two_years_draw = Raise OverflowError)
    by (vm_compute; reflexivity).
  split; [|split; [discriminate | split; [discriminate | split; [exact E|]]]].
  - unfold valid_parameters. cbn [Sample.huge start_value withdrawal
      min_years most_likely_years max_years num_sim].
    assert (0 < 2 ^ 1024) by (apply Z.pow_pos_nonneg; lia). lia.
  - intros (outcome & bc & g' & Hsim & _). rewrite E in Hsim. discriminate.
Qed.

(** ** Determinism *)

Section Determinism.

Context {G1 G2 : Type} {H1 : RandomGen G1} {H2 : RandomGen G2}.

Variable R : G1 -> G2 -> Prop.
Hypothesis HR : same_stream R.

Variable p : SimulationParameters.
Variable returns infl_rate : list PyFloat.float.

Lemma simulate_run_deterministic (g1 : G1) (g2 : G2) :
  R g1 g2 ->
  match simulate_run p returns infl_rate g1,
        simulate_run p returns infl_rate g2 with
  | Ok (o1, b1, g1'), Ok (o2, b2, g2') => o1 = o2 /\ b1 = b2 /\ R g1' g2'
  | Raise e1, Raise e2 => e1 = e2
  | _, _ => False
  end.
Proof.
  intros Hg. destruct HR as [Hbelow Htri].
  unfold simulate_run, randrange.
  destruct (0 <? len returns - 0); cbn [bind]; [|reflexivity].
  specialize (Hbelow (len returns - 0) g1 g2 Hg).
  destruct (randbelow (len returns - 0) g1) as [r1 g1a].
  destruct (randbelow (len returns - 0) g2) as [r2 g2a].
  cbn [fst snd] in Hbelow. destruct Hbelow as [<- Hga]. cbn [bind].
  specialize (Htri (min_years p) (max_years p) (most_likely_years p)
                g1a g2a Hga).
  destruct (triangular _ _ _ g1a) as [t1 g1b].
  destruct (triangular _ _ _ g2a) as [t2 g2b].
  cbn [fst snd] in Htri. destruct Htri as [<- Hgb].
  destruct (PyFloat.to_int t1) as [duration|]; cbn [bind]; [|reflexivity].
  destruct (build_lifespan _ _ _ _ _) as [[lr li]|]; cbn [bind];
    [|reflexivity].
  destruct (retirement_years _ _ _ _ _ _) as [[b final]|]; cbn [bind];
    [|reflexivity].
  destruct b; repeat split; auto.
Qed.

Lemma sim_loop_deterministic (remaining : nat) :
  forall bankrupt_count outcome g1 g2,
    R g1 g2 ->
    same_result R
      (sim_loop p returns infl_rate remaining bankrupt_count outcome g1)
      (sim_loop p returns infl_rate remaining bankrupt_count outcome g2).
Proof.
  induction remaining as [|n IH]; intros bc out g1 g2 Hg;
    cbn [sim_loop].
  - cbn. auto.
  - pose proof (simulate_run_deterministic g1 g2 Hg) as Hrun.
    destruct (simulate_run p returns infl_rate g1) as [[[o1 b1] g1']|e1];
      destruct (simulate_run p returns infl_rate g2) as [[[o2 b2] g2']|e2];
      cbn [bind]; try contradiction.
    + destruct Hrun as (<- & <- & Hg'). now apply IH.
    + exact Hrun.
Qed.

(** C9: two invocations with the same parameters and series, fed the
    same random stream, end alike: the same outcome sequence and the
    same bankrupt count (or the same exception). *)
Theorem simulator_deterministic (g1 : G1) (g2 : G2) :
  R g1 g2 ->
  same_result R (simulator p returns infl_rate g1)
                (simulator p returns infl_rate g2).
Proof.
  intros Hg. unfold simulator. now apply sim_loop_deterministic.
Qed.

End Determinism.

Lemma tape_replays (s : Script) : replays s (tape_of s).
Proof. intros k. reflexivity. Qed.

(** A script and a tape that replays it hand out the same stream. *)
Lemma script_tape_same_stream : same_stream replays.
Proof.
  split.
  - intros n s t Hst. cbn [randbelow ScriptGen TapeGen].
    pose proof (Hst 0%nat) as H0. rewrite Nat.add_0_r in H0.
    destruct s as [|[r x] rest]; cbn [nth fst snd] in *.
    + rewrite <- H0. cbn [fst]. rewrite Zmod_0_l. auto.
    + rewrite <- H0. cbn [fst]. auto.
  - intros low high mode s t Hst. cbn [triangular ScriptGen TapeGen].
    pose proof (Hst 0%nat) as H0. rewrite Nat.add_0_r in H0.
    destruct s as [|[r x] rest]; cbn [nth fst snd] in *.
    + rewrite <- H0. cbn [snd]. split; [reflexivity|].
      intros k. cbn [tape_draws tape_pos].
      replace (S (tape_pos t) + k)%nat with (tape_pos t + S k)%nat by lia.
      rewrite <- Hst. destruct k; reflexivity.
    + rewrite <- H0. cbn [snd]. split; [reflexivity|].
      intros k. cbn [tape_draws tape_pos].
      replace (S (tape_pos t) + k)%nat with (tape_pos t + S k)%nat by lia.
      rewrite <- Hst. reflexivity.
Qed.

Lemma simulator_deterministic_witness :
  same_stream replays
  /\ replays Sample.two_draws (tape_of Sample.two_draws)
  /\ same_result replays
       (simulator Sample.two_runs Sample.boom_bust Sample.no_inflation
          Sample.two_draws)
       (simulator Sample.two_runs Sample.boom_bust Sample.no_inflation
          (tape_of Sample.two_draws)).
Proof.
  split; [exact script_tape_same_stream|].
  split; [exact (tape_replays Sample.two_draws)|].
  apply (simulator_deterministic replays script_tape_same_stream
           Sample.two_runs Sample.boom_bust Sample.no_inflation
           Sample.two_draws (tape_of Sample.two_draws)).
  exact (tape_replays Sample.two_draws).
Defined.

(** ** Input checks *)

(** The year check lets through exactly the inputs with
    [min < most likely < max <= 99]. *)
Lemma check_inputs_years (p : SimulationParameters) :
  check_inputs p = Some IllogicalYears
  <-> ~ (min_years p < most_likely_years p
         /\ most_likely_years p < max_years p
         /\ max_years p <= 99).
Proof.
  unfold check_inputs.
  destruct (Z.ltb_spec (min_years p) (most_likely_years p));
    destruct (Z.ltb_spec (most_likely_years p) (max_years p));
    destruct (Z.ltb_spec 99 (max_years p)); cbn [negb andb orb];
    try (split; [intros _; lia | reflexivity]).
  destruct (negb (withdrawal p <? start_value p));
    (split; [discriminate | intros N; exfalso; apply N; lia]).
Qed.

Lemma check_inputs_withdrawal (p : SimulationParameters) :
  check_inputs p = None -> withdrawal p < start_value p.
Proof.
  unfold check_inputs.
  destruct (negb _ || _); [discriminate|].
  destruct (Z.ltb_spec (withdrawal p) (start_value p)); cbn [negb];
    [auto | discriminate].
Qed.

(** C5: a maximum of exactly 99 years violates
    [min < most likely < max < 99], yet the check lets it through and the
    program goes on to simulate. *)
Theorem max_years_99_accepted :
  ~ (min_years Sample.ninety_nine < most_likely_years Sample.ninety_nine
     /\ most_likely_years Sample.ninety_nine < max_years Sample.ninety_nine
     /\ max_years Sample.ninety_nine < 99)
  /\ check_inputs Sample.ninety_nine = None
  /\ forall (G : Type) (RG : RandomGen G) returns infl_rate (g : G) code why,
       program Sample.ninety_nine returns infl_rate g <> SysExit code why.
Proof.
  split; [cbn; lia|]. split; [reflexivity|].
  intros G RG returns infl_rate g code why. unfold program.
  change (check_inputs Sample.ninety_nine) with (@None fatal).
  destruct (simulator _ _ _ _) as [[[outcome bc] g']|e]; [|discriminate].
  destruct (bankrupt_prob outcome bc); discriminate.
Qed.

(** ** No run requested *)

(** C4, as amended: with [num_sim = 0] no check rejects the input; the
    simulator returns an empty sequence and a count of 0, and the
    division by its length in [bankrupt_prob] raises
    [ZeroDivisionError]. *)
Theorem zero_runs_division_by_zero {G : Type} `{RandomGen G}
  (p : SimulationParameters) (returns infl_rate : list PyFloat.float) (g : G) :
  check_inputs p = None ->
  num_sim p = 0 ->
  simulator p returns infl_rate g = Ok ([], 0, g)
  /\ program p returns infl_rate g = Uncaught InBankruptProb ZeroDivisionError.
Proof.
  intros Hcheck Hn.
  assert (Hsim : simulator p returns infl_rate g = Ok ([], 0, g))
    by (unfold simulator; rewrite Hn; reflexivity).
  split; [exact Hsim|].
  unfold program. rewrite Hcheck, Hsim. reflexivity.
Qed.

Lemma zero_runs_division_by_zero_witness :
  check_inputs Sample.no_runs = None
  /\ num_sim Sample.no_runs = 0
  /\ simulator Sample.no_runs Sample.growth_returns Sample.no_inflation
       Sample.one_draw = Ok ([], 0, Sample.one_draw)
  /\ program Sample.no_runs Sample.growth_returns Sample.no_inflation
       Sample.one_draw = Uncaught InBankruptProb ZeroDivisionError.
Proof.
  split; [reflexivity|]. split; [reflexivity|].
  apply (zero_runs_division_by_zero Sample.no_runs Sample.growth_returns
           Sample.no_inflation Sample.one_draw); reflexivity.
Defined.

(** C4 as stated fails: no run requested, and the program is not stopped
    by a check but by the division in [bankrupt_prob]. *)
Lemma zero_runs_not_rejected :
  num_sim Sample.no_runs = 0
  /\ program Sample.no_runs Sample.growth_returns Sample.no_inflation
       Sample.one_draw = Uncaught InBankruptProb ZeroDivisionError
  /\ forall code why,
       program Sample.no_runs Sample.growth_returns Sample.no_inflation
         Sample.one_draw <> SysExit code why.
Proof.
  split; [reflexivity|]. split; [reflexivity|]. discriminate.
Qed.

(** Inputs that pass the prompts and the checks start from a positive
    value. *)
Lemma checked_start_positive (p : SimulationParameters) :
  digits_only p -> check_inputs p = None -> 0 < start_value p.
Proof.
  intros (_ & Hw & _) Hc. apply check_inputs_withdrawal in Hc. lia.
Qed.

(** The guaranteed loss: every run is reported as 0 and the odds are
    100.0. *)
Example guaranteed_loss :
  exists s,
    program Sample.five_runs Sample.total_loss Sample.no_inflation
      Sample.five_draws = Finished s [0; 0; 0; 0; 0]
    /\ odds s = PyFloat.hundred.
Proof. eexists. split; vm_compute; reflexivity. Qed.

(** ** Rounding *)

Lemma Zdigits2_log2 (m : Z) : 0 < m -> Zdigits2 m = Z.log2 m + 1.
Proof.
  destruct m as [|p|p]; try lia. intros _. cbn [Zdigits2].
  induction p as [p IH|p IH|].
  - cbn [digits2_pos]. rewrite Pos2Z.inj_succ, IH.
    change (Z.pos p~1) with (2 * Z.pos p + 1).
    rewrite Z.log2_succ_double by lia. lia.
  - cbn [digits2_pos]. rewrite Pos2Z.inj_succ, IH.
    change (Z.pos p~0) with (2 * Z.pos p).
    rewrite Z.log2_double by lia. lia.
  - reflexivity.
Qed.

Lemma Zdigits2_bounds (m : Z) :
  0 < m -> 2 ^ (Zdigits2 m - 1) <= m < 2 ^ Zdigits2 m.
Proof.
  intros Hm. rewrite Zdigits2_log2 by exact Hm.
  replace (Z.log2 m + 1 - 1) with (Z.log2 m) by lia.
  replace (Z.log2 m + 1) with (Z.succ (Z.log2 m)) by lia.
  now apply Z.log2_spec.
Qed.

Lemma Zdigits2_nonneg (m : Z) : 0 <= Zdigits2 m.
Proof. destruct m; cbn [Zdigits2]; lia. Qed.

Lemma loc_of_shr_record_of_loc (m : Z) (l : location) :
  loc_of_shr_record (shr_record_of_loc m l) = l.
Proof. destruct l as [|[]]; reflexivity. Qed.

Lemma shr_m_of_loc (m : Z) (l : location) : shr_m (shr_record_of_loc m l) = m.
Proof. destruct l as [|[]]; reflexivity. Qed.

Lemma shr_1_m (mrs : shr_record) :
  0 <= shr_m mrs -> shr_m (shr_1 mrs) = shr_m mrs / 2.
Proof.
  destruct mrs as [m r s]. cbn [shr_m]. intros Hm.
  destruct m as [|[p|p|]|p]; cbn [shr_1 shr_m]; try lia; try reflexivity.
  - change (Z.pos p~1) with (2 * Z.pos p + 1).
    apply (Z.div_unique _ _ _ 1); lia.
  - change (Z.pos p~0) with (2 * Z.pos p).
    apply (Z.div_unique _ _ _ 0); lia.
Qed.

Lemma shr_1_bits (mrs : shr_record) :
  0 <= shr_m mrs ->
  shr_r (shr_1 mrs) = Z.odd (shr_m mrs)
  /\ shr_s (shr_1 mrs) = shr_r mrs || shr_s mrs.
Proof.
  destruct mrs as [m r s]. cbn [shr_m shr_r shr_s]. intros Hm.
  destruct m as [|[p|p|]|p]; cbn [shr_1 shr_r shr_s]; try lia; auto.
Qed.

Lemma shr_1_represents (mrs : shr_record) (N D : Z) :
  0 <= N -> 0 < D ->
  represents mrs N D -> represents (shr_1 mrs) N (D * 2).
Proof.
  intros HN HD [Hm Hl].
  assert (Hm0 : 0 <= shr_m mrs) by (rewrite Hm; apply Z.div_pos; lia).
  pose proof (shr_1_m mrs Hm0) as Hm1.
  destruct (shr_1_bits mrs Hm0) as [Hr1 Hs1].
  pose proof (Z.div_mod N D ltac:(lia)) as HND.
  pose proof (Z.mod_pos_bound N D HD) as HR.
  pose proof (Z.div_mod (N / D) 2 ltac:(lia)) as HQ.
  pose proof (Z.mod_pos_bound (N / D) 2 ltac:(lia)) as HQb.
  assert (Hdiv : N / (D * 2) = N / D / 2) by (rewrite Z.div_div; lia).
  assert (Hmod : N mod (D * 2) = (N / D) mod 2 * D + N mod D).
  { symmetry. apply (Z.mod_unique_pos _ _ (N / D / 2)); nia. }
  split; [rewrite Hm1, Hm, Hdiv; reflexivity|].
  assert (Hs : shr_r mrs || shr_s mrs = negb (N mod D =? 0)).
  { unfold loc_of_frac in Hl. destruct mrs as [m r s]. cbn in *.
    destruct (N mod D =? 0); destruct r, s; cbn in *; congruence. }
  unfold loc_of_frac. rewrite Hmod.
  destruct (shr_1 mrs) as [m1 r1 s1]. cbn [shr_m shr_r shr_s] in *.
  subst r1 s1. rewrite Hs, Hm. rewrite Zmod_odd.
  cbn [loc_of_shr_record].
  destruct (Z.odd (N / D)).
  - replace (1 * D + N mod D =? 0) with false
      by (symmetry; apply Z.eqb_neq; lia).
    destruct (Z.eqb_spec (N mod D) 0) as [Z0|NZ]; cbn [negb].
    + replace (2 * (1 * D + N mod D) ?= D * 2) with Eq
        by (symmetry; apply Z.compare_eq_iff; lia).
      reflexivity.
    + replace (2 * (1 * D + N mod D) ?= D * 2) with Gt
        by (symmetry; apply Z.compare_gt_iff; lia).
      reflexivity.
  - destruct (Z.eqb_spec (N mod D) 0) as [Z0|NZ]; cbn [negb].
    + rewrite Z0. reflexivity.
    + replace (0 * D + N mod D =? 0) with false
        by (symmetry; apply Z.eqb_neq; lia).
      replace (2 * (0 * D + N mod D) ?= D * 2) with Lt
        by (symmetry; apply Z.compare_lt_iff; lia).
      reflexivity.
Qed.

Lemma iter_shr_1_represents (n : positive) :
  forall (mrs : shr_record) (N D : Z),
    0 <= N -> 0 < D ->
    represents mrs N D ->
    represents (iter_pos shr_1 n mrs) N (D * 2 ^ Z.pos n).
Proof.
  induction n as [n IH|n IH|]; intros mrs N D HN HD Hrep; cbn [iter_pos].
  - replace (D * 2 ^ Z.pos n~1) with (D * 2 * 2 ^ Z.pos n * 2 ^ Z.pos n).
    + assert (0 < 2 ^ Z.pos n) by (apply Z.pow_pos_nonneg; lia).
      apply IH; [lia | nia |]. apply IH; [lia | lia |].
      now apply shr_1_represents.
    + change (Z.pos n~1) with (2 * Z.pos n + 1).
      rewrite Z.pow_add_r, Z.pow_mul_r by lia.
      change (2 ^ 2) with 4. change (2 ^ 1) with 2.
      replace 4 with (2 * 2) by lia. rewrite Z.pow_mul_l. lia.
  - replace (D * 2 ^ Z.pos n~0) with (D * 2 ^ Z.pos n * 2 ^ Z.pos n).
    + assert (0 < 2 ^ Z.pos n) by (apply Z.pow_pos_nonneg; lia).
      apply IH; [lia | nia |]. now apply IH.
    + change (Z.pos n~0) with (2 * Z.pos n).
      rewrite Z.pow_mul_r by lia.
      change (2 ^ 2) with 4. replace 4 with (2 * 2) by lia.
      rewrite Z.pow_mul_l. lia.
  - change (2 ^ 1) with 2. now apply shr_1_represents.
Qed.

Lemma shr_represents (mrs : shr_record) (N D e n : Z) :
  0 <= N -> 0 < D ->
  represents mrs N D ->
  let e' := Z.max e (e + n) in
  snd (shr mrs e n) = e'
  /\ represents (fst (shr mrs e n)) N (D * 2 ^ (e' - e)).
Proof.
  intros HN HD Hrep. destruct n as [|n|n]; cbn [shr fst snd].
  - rewrite Z.add_0_r, Z.max_id, Z.sub_diag, Z.mul_1_r. auto.
  - rewrite Z.max_r by lia.
    replace (e + Z.pos n - e) with (Z.pos n) by lia.
    split; [reflexivity | now apply iter_shr_1_represents].
  - rewrite Z.max_l by lia. rewrite Z.sub_diag, Z.mul_1_r. auto.
Qed.

Lemma shr_fexp_represents (N D e : Z) :
  0 <= N -> 0 < D ->
  let e' := Z.max e (fexp PyFloat.prec PyFloat.emax (Zdigits2 (N / D) + e)) in
  snd (shr_fexp PyFloat.prec PyFloat.emax (N / D) e (loc_of_frac N D)) = e'
  /\ represents
       (fst (shr_fexp PyFloat.prec PyFloat.emax (N / D) e (loc_of_frac N D)))
       N (D * 2 ^ (e' - e)).
Proof.
  intros HN HD e'. unfold shr_fexp.
  pose proof (shr_represents
                (shr_record_of_loc (N / D) (loc_of_frac N D)) N D e
                (fexp PyFloat.prec PyFloat.emax (Zdigits2 (N / D) + e) - e)
                HN HD) as Hshr.
  cbv zeta in Hshr.
  replace (e + (fexp PyFloat.prec PyFloat.emax (Zdigits2 (N / D) + e) - e))
    with (fexp PyFloat.prec PyFloat.emax (Zdigits2 (N / D) + e)) in Hshr
    by lia.
  apply Hshr. split;
    [apply shr_m_of_loc | apply loc_of_shr_record_of_loc].
Qed.

Lemma round_nearest_even_frac (mrs : shr_record) (N D : Z) :
  0 < D ->
  represents mrs N D ->
  round_nearest_even (shr_m mrs) (loc_of_shr_record mrs)
  = PyFloat.div_half_even N D.
Proof.
  intros HD [Hm Hl]. rewrite Hm, Hl.
  unfold loc_of_frac, PyFloat.div_half_even, round_nearest_even.
  pose proof (Z.mod_pos_bound N D HD) as HR.
  destruct (Z.eqb_spec (N mod D) 0) as [Z0|NZ].
  - rewrite Z0. replace (2 * 0 ?= D) with Lt
      by (symmetry; apply Z.compare_lt_iff; lia).
    reflexivity.
  - destruct (2 * (N mod D) ?= D); reflexivity.
Qed.

Lemma loc_of_frac_exact (m : Z) : loc_of_frac m 1 = loc_Exact.
Proof. unfold loc_of_frac. rewrite Z.mod_1_r. reflexivity. Qed.

Lemma div_half_even_nonneg (N D : Z) :
  0 <= N -> 0 < D -> 0 <= PyFloat.div_half_even N D.
Proof.
  intros HN HD. unfold PyFloat.div_half_even.
  assert (0 <= N / D) by (apply Z.div_pos; lia).
  destruct (2 * (N mod D) ?= D); [destruct (Z.even (N / D))| |]; lia.
Qed.

(** The rounding step of every float operation, in closed form. *)
Lemma binary_round_aux_frac (s : bool) (N D e : Z) :
  0 <= N -> 0 < D ->
  binary_round_aux PyFloat.prec PyFloat.emax s (N / D) e (loc_of_frac N D)
  = round_frac s N D e.
Proof.
  intros HN HD. unfold binary_round_aux, round_frac.
  destruct (shr_fexp_represents N D e HN HD) as [He1 Hrep1].
  destruct (shr_fexp PyFloat.prec PyFloat.emax (N / D) e (loc_of_frac N D))
    as [mrs1 e1]. cbn [fst snd] in He1, Hrep1. subst e1.
  set (e1 := Z.max e (fexp PyFloat.prec PyFloat.emax (Zdigits2 (N / D) + e)))
    in *.
  assert (HD1 : 0 < D * 2 ^ (e1 - e)).
  { apply Z.mul_pos_pos; [exact HD | apply Z.pow_pos_nonneg; lia]. }
  rewrite (round_nearest_even_frac mrs1 N _ HD1 Hrep1).
  set (m1 := PyFloat.div_half_even N (D * 2 ^ (e1 - e))).
  assert (Hm1 : 0 <= m1) by (apply div_half_even_nonneg; lia).
  pose proof (shr_fexp_represents m1 1 e1 Hm1 ltac:(lia)) as Hrep2.
  rewrite Z.div_1_r, loc_of_frac_exact in Hrep2. cbv zeta in Hrep2.
  destruct (shr_fexp PyFloat.prec PyFloat.emax m1 e1 loc_Exact)
    as [mrs2 e2]. cbn [fst snd] in Hrep2. destruct Hrep2 as [He2 [Hm2 _]].
  subst e2. rewrite Hm2, Z.mul_1_l. reflexivity.
Qed.

Lemma new_location_frac (b r : Z) :
  0 < b -> 0 <= r < b ->
  new_location b r
  = if r =? 0 then loc_Exact else loc_Inexact (2 * r ?= b).
Proof.
  intros Hb Hr. unfold new_location, new_location_even, new_location_odd.
  destruct (Z.even b) eqn:Eb; destruct (Z.eqb_spec r 0); try reflexivity.
  f_equal.
  assert (Hodd : b mod 2 = 1).
  { rewrite Zmod_odd, <- Z.negb_even, Eb. reflexivity. }
  pose proof (Z.div_mod b 2 ltac:(lia)) as Hdm.
  destruct (Z.compare_spec (2 * r + 1) b);
    symmetry; [apply Z.compare_lt_iff | apply Z.compare_lt_iff
              | apply Z.compare_gt_iff]; lia.
Qed.

(** The quotient of two positive integers as a float. *)
Lemma SFdiv_exact_pos (a b : positive) :
  let e := Z.min (fexp PyFloat.prec PyFloat.emax
                    (Zdigits2 (Z.pos a) - Zdigits2 (Z.pos b))) 0 in
  SFdiv PyFloat.prec PyFloat.emax
    (S754_finite false a 0) (S754_finite false b 0)
  = round_frac false (Z.pos a * 2 ^ (- e)) (Z.pos b) e.
Proof.
  intros e. unfold SFdiv, SFdiv_core_binary.
  rewrite !Z.add_0_r, Z.sub_0_r. fold e.
  assert (He : e <= 0) by (unfold e; lia).
  set (m' := match 0 - e with
             | 0 => Z.pos a
             | Z.pos _ => Z.shiftl (Z.pos a) (0 - e)
             | Z.neg _ => 0
             end).
  assert (Hm' : m' = Z.pos a * 2 ^ (- e)).
  { unfold m'. destruct (0 - e) as [|k|k] eqn:Ek; try lia.
    - replace (- e) with 0 by lia. lia.
    - rewrite Z.shiftl_mul_pow2 by lia. f_equal. f_equal. lia. }
  assert (Hpow : 0 < 2 ^ (- e)) by (apply Z.pow_pos_nonneg; lia).
  pose proof (Z_div_mod m' (Z.pos b) ltac:(lia)) as Hde.
  unfold Z.div, Z.modulo in *.
  destruct (Z.div_eucl m' (Z.pos b)) as [q r] eqn:Eqr.
  destruct Hde as [Hq Hr].
  cbn [xorb].
  assert (Hqd : q = m' / Z.pos b)
    by (unfold Z.div; rewrite Eqr; reflexivity).
  assert (Hrm : r = m' mod Z.pos b)
    by (unfold Z.modulo; rewrite Eqr; reflexivity).
  rewrite new_location_frac by lia.
  rewrite <- Hm'.
  replace (if r =? 0 then loc_Exact else loc_Inexact (2 * r ?= Z.pos b))
    with (loc_of_frac m' (Z.pos b))
    by (unfold loc_of_frac; rewrite <- Hrm; reflexivity).
  rewrite Hqd. apply binary_round_aux_frac; lia.
Qed.

(** ** Division rounded to nearest *)

Lemma div_half_even_le (n d M : Z) :
  0 <= n -> 0 < d -> n <= M * d -> PyFloat.div_half_even n d <= M.
Proof.
  intros Hn Hd HM. unfold PyFloat.div_half_even.
  pose proof (Z.div_mod n d ltac:(lia)) as Hdm.
  pose proof (Z.mod_pos_bound n d Hd) as Hr.
  assert (Hq : n / d <= M) by (apply Z.div_le_upper_bound; lia).
  destruct (Z.compare_spec (2 * (n mod d)) d) as [E|E|E];
    [destruct (Z.even (n / d))| |]; try lia;
    assert (n / d < M) by nia; lia.
Qed.

Lemma div_half_even_ge (n d M : Z) :
  0 <= n -> 0 < d -> M * d <= n -> M <= PyFloat.div_half_even n d.
Proof.
  intros Hn Hd HM. unfold PyFloat.div_half_even.
  assert (Hq : M <= n / d) by (apply Z.div_le_lower_bound; lia).
  destruct (2 * (n mod d) ?= d); [destruct (Z.even (n / d))| |]; lia.
Qed.

Lemma div_half_even_lt (n d M : Z) :
  0 <= n -> 0 < d -> 2 * n < (2 * M - 1) * d ->
  PyFloat.div_half_even n d < M.
Proof.
  intros Hn Hd HM. unfold PyFloat.div_half_even.
  pose proof (Z.div_mod n d ltac:(lia)) as Hdm.
  pose proof (Z.mod_pos_bound n d Hd) as Hr.
  destruct (Z.compare_spec (2 * (n mod d)) d) as [E|E|E];
    [destruct (Z.even (n / d))| |]; nia.
Qed.

Lemma div_half_even_scale (n d z : Z) :
  0 < d -> 0 < z ->
  PyFloat.div_half_even (n * z) (d * z) = PyFloat.div_half_even n d.
Proof.
  intros Hd Hz. unfold PyFloat.div_half_even.
  rewrite Z.div_mul_cancel_r by lia.
  rewrite Z.mul_mod_distr_r by lia.
  replace (2 * (n mod d * z) ?= d * z) with (2 * (n mod d) ?= d);
    [reflexivity|].
  destruct (Z.compare_spec (2 * (n mod d)) d) as [E|E|E]; symmetry;
    [apply Z.compare_eq_iff | apply Z.compare_lt_iff
    | apply Z.compare_gt_iff]; nia.
Qed.

(** Rounding [a * 2 ^ k / b] to an integer and dropping the [k] fraction
    bits again gives the integer quotient, as long as the rounding cannot
    reach the next integer. *)
Lemma div_half_even_floor (a b k : Z) :
  0 <= a -> 0 < b -> 0 <= k ->
  b < 2 ^ (k + 1) \/ a * 2 ^ (k + 1) < (2 ^ (k + 1) - 1) * b ->
  PyFloat.div_half_even (a * 2 ^ k) b / 2 ^ k = a / b.
Proof.
  intros Ha Hb Hk Hsmall.
  assert (Hp : 0 < 2 ^ k) by (apply Z.pow_pos_nonneg; lia).
  assert (Hp1 : 2 ^ (k + 1) = 2 * 2 ^ k) by (rewrite Z.pow_add_r; lia).
  pose proof (Z.div_mod a b ltac:(lia)) as Hdm.
  pose proof (Z.mod_pos_bound a b Hb) as Hr.
  assert (HQ : 0 <= a / b) by (apply Z.div_pos; lia).
  assert (Hlo : a / b * 2 ^ k <= PyFloat.div_half_even (a * 2 ^ k) b).
  { apply div_half_even_ge; [nia | lia | nia]. }
  assert (Hhi : PyFloat.div_half_even (a * 2 ^ k) b < (a / b + 1) * 2 ^ k).
  { apply div_half_even_lt; [nia | lia |].
    destruct Hsmall as [Hs|Hs].
    - nia.
    - assert (a < b) by nia.
      rewrite (Z.div_small a b) by lia. nia. }
  symmetry. apply Z.div_unique with
    (r := PyFloat.div_half_even (a * 2 ^ k) b - a / b * 2 ^ k); lia.
Qed.

Lemma fexp_double (x : Z) :
  fexp PyFloat.prec PyFloat.emax x = Z.max (x - 53) (-1074).
Proof. reflexivity. Qed.

Lemma Zdigits2_le (m d : Z) : 0 <= m -> 0 <= d -> m < 2 ^ d -> Zdigits2 m <= d.
Proof.
  intros Hm Hd Hlt.
  destruct (Z.eq_dec m 0) as [->|Hnz]; [cbn; lia|].
  pose proof (Zdigits2_bounds m ltac:(lia)) as [Hlo _].
  pose proof (Zdigits2_nonneg m).
  destruct (Z.le_gt_cases (Zdigits2 m) d) as [L|L]; [exact L|].
  assert (2 ^ d <= 2 ^ (Zdigits2 m - 1)) by (apply Z.pow_le_mono_r; lia).
  lia.
Qed.

(** A rounded fraction below one unit in the last place of the integers
    truncates to the rounded mantissa with its fraction bits dropped. *)
Lemma round_frac_to_int (s : bool) (N D e : Z) :
  0 <= N -> 0 < D ->
  let e1 := Z.max e (fexp PyFloat.prec PyFloat.emax (Zdigits2 (N / D) + e)) in
  let m1 := PyFloat.div_half_even N (D * 2 ^ (e1 - e)) in
  e1 <= 0 -> m1 < 2 ^ (53 - e1) ->
  PyFloat.to_int (round_frac s N D e) = Ok (cond_Zopp s (m1 / 2 ^ (- e1))).
Proof.
  intros HN HD e1 m1 He1 Hm1. unfold round_frac. fold e1. fold m1.
  assert (HD1 : 0 < D * 2 ^ (e1 - e)).
  { apply Z.mul_pos_pos; [exact HD | apply Z.pow_pos_nonneg; unfold e1; lia]. }
  assert (Hm0 : 0 <= m1) by (apply div_half_even_nonneg; lia).
  pose proof (Zdigits2_le m1 (53 - e1) Hm0 ltac:(lia) Hm1) as Hd.
  set (e2 := Z.max e1 (fexp PyFloat.prec PyFloat.emax (Zdigits2 m1 + e1))).
  assert (He2 : e1 <= e2 <= 0).
  { unfold e2. rewrite fexp_double. unfold e1 in *. rewrite fexp_double in *.
    lia. }
  assert (Hp : 0 < 2 ^ (e2 - e1)) by (apply Z.pow_pos_nonneg; lia).
  assert (Hdd : m1 / 2 ^ (- e1) = m1 / 2 ^ (e2 - e1) / 2 ^ (- e2)).
  { rewrite Z.div_div by (try apply Z.pow_pos_nonneg; lia).
    rewrite <- Z.pow_add_r by lia. do 2 f_equal. lia. }
  rewrite Hdd.
  assert (Hq : 0 <= m1 / 2 ^ (e2 - e1)) by (apply Z.div_pos; lia).
  destruct (m1 / 2 ^ (e2 - e1)) as [|m|m] eqn:Em; [| |lia].
  - cbn [PyFloat.to_int]. rewrite Z.div_0_l by lia.
    destruct s; reflexivity.
  - replace (e2 <=? PyFloat.emax - PyFloat.prec) with true
      by (symmetry; apply Z.leb_le; cbn; lia).
    cbn [PyFloat.to_int]. do 2 f_equal.
    rewrite <- (Z.opp_involutive e2) at 1.
    rewrite Z.shiftl_opp_r, Z.shiftr_div_pow2 by lia. reflexivity.
Qed.

(** For a dividend below 2^53, the float quotient of two ints truncates
    to their integer quotient. *)
Lemma int_truediv_floor (a b : Z) :
  0 <= a < 2 ^ 53 -> 0 < b ->
  exists f, PyFloat.int_truediv a b = Ok f /\ PyFloat.to_int f = Ok (a / b).
Proof.
  intros Ha Hb. unfold PyFloat.int_truediv.
  destruct (Z.eqb_spec b 0) as [|_]; [lia|].
  destruct (Z.eqb_spec a 0) as [->|Hnz].
  { eexists. split; [reflexivity|]. rewrite Z.div_0_l by lia. reflexivity. }
  destruct a as [|pa|pa]; try lia. destruct b as [|pb|pb]; try lia.
  cbn [PyFloat.exact_int]. rewrite SFdiv_exact_pos.
  set (a := Z.pos pa) in *. set (b := Z.pos pb) in *.
  set (da := Zdigits2 a). set (db := Zdigits2 b).
  set (e := Z.min (fexp PyFloat.prec PyFloat.emax (da - db)) 0).
  set (sh := - e).
  assert (Hda : 2 ^ (da - 1) <= a < 2 ^ da) by (apply Zdigits2_bounds; lia).
  assert (Hdb : 2 ^ (db - 1) <= b < 2 ^ db) by (apply Zdigits2_bounds; lia).
  assert (Hda53 : 1 <= da <= 53).
  { split.
    - unfold da, a. cbn [Zdigits2]. lia.
    - apply Zdigits2_le; lia. }
  assert (Hdb1 : 1 <= db) by (unfold db, b; cbn [Zdigits2]; lia).
  assert (He : -1074 <= e <= 0) by (unfold e; rewrite fexp_double; lia).
  assert (Hsh0 : 0 <= sh <= 1074) by (unfold sh; lia).
  assert (Hsh : 0 < 2 ^ sh) by (apply Z.pow_pos_nonneg; lia).
  assert (Hq0 : 0 <= a * 2 ^ sh / b < 2 ^ (53 + sh)).
  { split; [apply Z.div_pos; nia|].
    apply Z.div_lt_upper_bound; [lia|]. rewrite Z.pow_add_r by lia.
    nia. }
  set (q0 := a * 2 ^ sh / b) in *.
  set (dq := Zdigits2 q0).
  assert (Hdq : 0 <= dq <= 53 + sh).
  { split; [apply Zdigits2_nonneg|]. apply Zdigits2_le; lia. }
  pose proof (round_frac_to_int false (a * 2 ^ sh) b e
                ltac:(nia) ltac:(lia)) as Hto.
  cbv zeta in Hto. fold q0 in Hto. fold dq in Hto.
  set (e1 := Z.max e (fexp PyFloat.prec PyFloat.emax (dq + e))) in *.
  assert (He1 : e <= e1 <= 0 /\ e1 = Z.max e (dq + e - 53)).
  { unfold e1. rewrite fexp_double. unfold sh in *. lia. }
  set (k := - e1).
  assert (Hk : 0 <= k <= sh) by (unfold k, sh; lia).
  assert (Hpk : 0 < 2 ^ k) by (apply Z.pow_pos_nonneg; lia).
  assert (Hpz : 0 < 2 ^ (sh - k)) by (apply Z.pow_pos_nonneg; lia).
  assert (Hscale : PyFloat.div_half_even (a * 2 ^ sh) (b * 2 ^ (e1 - e))
                   = PyFloat.div_half_even (a * 2 ^ k) b).
  { replace (e1 - e) with (sh - k) by (unfold sh, k; lia).
    replace (a * 2 ^ sh) with (a * 2 ^ k * 2 ^ (sh - k)).
    - apply div_half_even_scale; lia.
    - rewrite <- Z.mul_assoc, <- Z.pow_add_r by lia. do 2 f_equal. lia. }
  rewrite Hscale in Hto.
  assert (Hm1 : PyFloat.div_half_even (a * 2 ^ k) b < 2 ^ (53 - e1)).
  { apply Z.le_lt_trans with (a * 2 ^ k).
    - apply div_half_even_le; nia.
    - replace (53 - e1) with (53 + k) by (unfold k; lia).
      rewrite Z.pow_add_r by lia. nia. }
  specialize (Hto ltac:(lia) Hm1). cbn [cond_Zopp] in Hto.
  fold k in Hto.
  rewrite div_half_even_floor in Hto; try lia.
  - destruct (round_frac false (a * 2 ^ sh) b e) as [s0|s0| |s0 m0 e0] eqn:Ef;
      try discriminate; eexists; split; try reflexivity; exact Hto.
  - (* the rounding cannot reach the next integer *)
    destruct (Z.le_gt_cases 53 dq) as [Hbig|Hsmall].
    + left.
      assert (Hq0pos : 0 < q0).
      { destruct (Z.eq_dec q0 0) as [Z0|NZ]; [|lia].
        unfold dq in Hbig. rewrite Z0 in Hbig. cbn in Hbig. lia. }
      pose proof (Zdigits2_bounds q0 Hq0pos) as [Hql _]. fold dq in Hql.
      assert (Hk' : k = sh + 53 - dq) by (unfold k; lia).
      assert (Hqb : q0 * b <= a * 2 ^ sh).
      { unfold q0. rewrite Z.mul_comm. apply Z.mul_div_le. lia. }
      assert (Hlt : b * 2 ^ (dq - 1) < 2 ^ (k + 1) * 2 ^ (dq - 1)).
      { rewrite <- Z.pow_add_r by lia.
        replace (k + 1 + (dq - 1)) with (53 + sh) by lia.
        rewrite Z.pow_add_r by lia. nia. }
      assert (0 < 2 ^ (dq - 1)) by (apply Z.pow_pos_nonneg; lia).
      nia.
    + assert (Hk' : k = sh) by (unfold k; lia).
      destruct (Z.le_gt_cases (-1074) (da - db - 53)) as [Hn|Hsub].
      * left.
        assert (Hsh' : db <= sh).
        { unfold sh, e. rewrite fexp_double. lia. }
        assert (2 ^ db <= 2 ^ sh) by (apply Z.pow_le_mono_r; lia).
        rewrite Hk', Z.pow_add_r by lia. change (2 ^ 1) with 2. lia.
      * right.
        assert (Hsh' : sh = 1074).
        { unfold sh, e. rewrite fexp_double. lia. }
        assert (Hbig : a * 2 ^ 1021 < b).
        { apply Z.lt_le_trans with (2 ^ (da + 1021)).
          - rewrite Z.pow_add_r by lia.
            assert (0 < 2 ^ 1021) by (apply Z.pow_pos_nonneg; lia). nia.
          - apply Z.le_trans with (2 ^ (db - 1)); [|lia].
            apply Z.pow_le_mono_r; lia. }
        rewrite Hk', Hsh', Z.pow_add_r by lia. change (2 ^ 1) with 2.
        assert (0 < 2 ^ 1074) by (apply Z.pow_pos_nonneg; lia).
        assert (2 <= 2 ^ 1021).
        { change 2 with (2 ^ 1) at 1. apply Z.pow_le_mono_r; lia. }
        nia.
Qed.

(** The float quotient of two ints is bounded by any integer below 2^53
    that bounds the exact quotient. *)
Lemma int_truediv_le (a b M : Z) :
  0 <= a -> 0 < b -> 0 <= M < 2 ^ 53 -> a <= M * b ->
  exists f, PyFloat.int_truediv a b = Ok f
    /\ (f = PyFloat.zero
        \/ exists m e, f = S754_finite false m e
             /\ e <= 0 /\ Z.pos m <= M * 2 ^ (- e)).
Proof.
  intros Ha Hb HM Hab. unfold PyFloat.int_truediv.
  destruct (Z.eqb_spec b 0) as [|_]; [lia|].
  destruct (Z.eqb_spec a 0) as [->|Hnz].
  { eexists. split; [reflexivity|]. left.
    replace (b <? 0) with false by (symmetry; apply Z.ltb_ge; lia).
    reflexivity. }
  destruct a as [|pa|pa]; try lia. destruct b as [|pb|pb]; try lia.
  cbn [PyFloat.exact_int]. rewrite SFdiv_exact_pos.
  set (a := Z.pos pa) in *. set (b := Z.pos pb) in *.
  set (e := Z.min (fexp PyFloat.prec PyFloat.emax
                     (Zdigits2 a - Zdigits2 b)) 0).
  set (sh := - e).
  assert (He : -1074 <= e <= 0) by (unfold e; rewrite fexp_double; lia).
  assert (Hsh0 : 0 <= sh <= 1074) by (unfold sh; lia).
  assert (Hsh : 0 < 2 ^ sh) by (apply Z.pow_pos_nonneg; lia).
  unfold round_frac.
  set (q0 := a * 2 ^ sh / b).
  assert (Hq0 : 0 <= q0 < 2 ^ (53 + sh)).
  { split; [apply Z.div_pos; nia|].
    apply Z.div_lt_upper_bound; [lia|]. rewrite Z.pow_add_r by lia. nia. }
  pose proof (Zdigits2_nonneg q0) as Hdq0.
  pose proof (Zdigits2_le q0 (53 + sh) ltac:(lia) ltac:(lia) ltac:(lia))
    as Hdq.
  set (e1 := Z.max e (fexp PyFloat.prec PyFloat.emax (Zdigits2 q0 + e))).
  assert (He1 : e <= e1 <= 0).
  { unfold e1. rewrite fexp_double. unfold sh in *. lia. }
  assert (Hp1 : 0 < 2 ^ (e1 - e)) by (apply Z.pow_pos_nonneg; lia).
  assert (Hpk : 0 < 2 ^ (- e1)) by (apply Z.pow_pos_nonneg; lia).
  assert (Hsplit : 2 ^ sh = 2 ^ (- e1) * 2 ^ (e1 - e)).
  { rewrite <- Z.pow_add_r by lia. f_equal. unfold sh. lia. }
  set (m1 := PyFloat.div_half_even (a * 2 ^ sh) (b * 2 ^ (e1 - e))).
  assert (Hm1 : 0 <= m1 <= M * 2 ^ (- e1)).
  { split.
    - apply div_half_even_nonneg; nia.
    - apply div_half_even_le; [nia | nia |]. rewrite Hsplit. nia. }
  assert (Hm1' : m1 < 2 ^ (53 - e1)).
  { replace (53 - e1) with (53 + - e1) by lia.
    rewrite Z.pow_add_r by lia. nia. }
  pose proof (Zdigits2_le m1 (53 - e1) ltac:(lia) ltac:(lia) Hm1') as Hd1.
  set (e2 := Z.max e1 (fexp PyFloat.prec PyFloat.emax (Zdigits2 m1 + e1))).
  assert (He2 : e1 <= e2 <= 0).
  { unfold e2. rewrite fexp_double. lia. }
  assert (Hp2 : 0 < 2 ^ (e2 - e1)) by (apply Z.pow_pos_nonneg; lia).
  assert (Hp3 : 0 < 2 ^ (- e2)) by (apply Z.pow_pos_nonneg; lia).
  assert (Hsplit2 : 2 ^ (- e1) = 2 ^ (- e2) * 2 ^ (e2 - e1)).
  { rewrite <- Z.pow_add_r by lia. f_equal. lia. }
  assert (Hm : 0 <= m1 / 2 ^ (e2 - e1) <= M * 2 ^ (- e2)).
  { split; [apply Z.div_pos; lia|].
    apply Z.div_le_upper_bound; [lia|]. rewrite Hsplit2 in Hm1. nia. }
  destruct (m1 / 2 ^ (e2 - e1)) as [|m|m] eqn:Em; [| |lia].
  - eexists. split; [reflexivity|]. now left.
  - replace (e2 <=? PyFloat.emax - PyFloat.prec) with true
      by (symmetry; apply Z.leb_le; cbn; lia).
    eexists. split; [reflexivity|]. right. exists m, e2. repeat split; lia.
Qed.

Lemma tenths_in_range_upto_spec (n : nat) :
  tenths_in_range_upto n = true ->
  forall k, (Pos.to_nat k <= n)%nat -> tenths_in_range k = true.
Proof.
  induction n as [|n IH]; intros Hall k Hk.
  - pose proof (Pos2Nat.is_pos k). lia.
  - cbn [tenths_in_range_upto] in Hall.
    apply andb_true_iff in Hall as [Hn Hall].
    destruct (Nat.eq_dec (Pos.to_nat k) (S n)) as [E|NE].
    + rewrite <- E, Pos2Nat.id in Hn. exact Hn.
    + apply IH; [exact Hall | lia].
Qed.

Lemma tenths_in_range_1000 : tenths_in_range_upto 1000 = true.
Proof. vm_compute. reflexivity. Qed.

(** Rounding to one decimal keeps a float of [0.0 .. 100.0] in that
    range. *)
Lemma round1_in_range (f : PyFloat.float) :
  f = PyFloat.zero
  \/ (exists m e, f = S754_finite false m e
        /\ e <= 0 /\ Z.pos m <= 100 * 2 ^ (- e)) ->
  PyFloat.leb PyFloat.zero (PyFloat.round1 f) = true
  /\ PyFloat.leb (PyFloat.round1 f) PyFloat.hundred = true.
Proof.
  intros [->|(m & e & -> & He & Hm)]; [split; reflexivity|].
  unfold PyFloat.round1.
  assert (Hp : 0 < 2 ^ (- e)) by (apply Z.pow_pos_nonneg; lia).
  set (tenths := if 0 <=? e then 10 * Z.pos m * 2 ^ e
                 else PyFloat.div_half_even (10 * Z.pos m) (2 ^ (- e))).
  assert (Ht : 0 <= tenths <= 1000).
  { unfold tenths. destruct (Z.leb_spec 0 e).
    - replace e with 0 in * by lia. change (2 ^ (- 0)) with 1 in Hm.
      change (2 ^ 0) with 1. lia.
    - split; [apply div_half_even_nonneg; lia|].
      apply div_half_even_le; lia. }
  destruct tenths as [|k|k]; [split; reflexivity| |lia].
  pose proof (tenths_in_range_upto_spec 1000 tenths_in_range_1000 k) as Hk.
  unfold tenths_in_range in Hk. apply andb_true_iff. apply Hk. lia.
Qed.

(** ** Sum, minimum and maximum *)

Lemma fold_left_add (l : list Z) (acc : Z) :
  fold_left Z.add l acc = acc + py_sum l.
Proof.
  unfold py_sum. revert acc.
  induction l as [|x l IH]; intros acc; cbn [fold_left]; [lia|].
  rewrite (IH (acc + x)), (IH (0 + x)). lia.
Qed.

Lemma py_sum_cons (x : Z) (l : list Z) : py_sum (x :: l) = x + py_sum l.
Proof. unfold py_sum at 1. cbn [fold_left]. now rewrite fold_left_add. Qed.

Lemma py_sum_bounds (l : list Z) (lo hi : Z) :
  (forall x, In x l -> lo <= x <= hi) ->
  lo * len l <= py_sum l <= hi * len l.
Proof.
  induction l as [|x l IH]; intros Hb.
  - unfold len, py_sum. cbn. lia.
  - rewrite py_sum_cons. unfold len in *. cbn [length].
    rewrite Nat2Z.inj_succ.
    pose proof (Hb x (or_introl eq_refl)).
    specialize (IH (fun y Hy => Hb y (or_intror Hy))). lia.
Qed.

Lemma fold_left_min_spec (l : list Z) (x : Z) :
  is_minimum (fold_left Z.min l x) (x :: l).
Proof.
  revert x. induction l as [|y l IH]; intros x; cbn [fold_left].
  - split; [now left | intros z [<-|[]]; lia].
  - destruct (IH (Z.min x y)) as [Hin Hle]. split.
    + destruct Hin as [E|Hin]; [|right; right; exact Hin].
      rewrite <- E. destruct (Z.min_spec x y) as [[_ ->]|[_ ->]];
        [now left | right; now left].
    + intros z [E|[E|Hz]].
      * specialize (Hle (Z.min x y) (or_introl eq_refl)). lia.
      * specialize (Hle (Z.min x y) (or_introl eq_refl)). lia.
      * apply Hle. now right.
Qed.

Lemma fold_left_max_spec (l : list Z) (x : Z) :
  is_maximum (fold_left Z.max l x) (x :: l).
Proof.
  revert x. induction l as [|y l IH]; intros x; cbn [fold_left].
  - split; [now left | intros z [<-|[]]; lia].
  - destruct (IH (Z.max x y)) as [Hin Hle]. split.
    + destruct Hin as [E|Hin]; [|right; right; exact Hin].
      rewrite <- E. destruct (Z.max_spec x y) as [[_ ->]|[_ ->]];
        [right; now left | now left].
    + intros z [E|[E|Hz]].
      * specialize (Hle (Z.max x y) (or_introl eq_refl)). lia.
      * specialize (Hle (Z.max x y) (or_introl eq_refl)). lia.
      * apply Hle. now right.
Qed.

(** ** The statistics *)

(** C7, as amended: for a non-empty outcome sequence whose sum lies in
    [0, 2^53) and a bankrupt count between 0 and its length,
    [bankrupt_prob] yields the odds [round(100 * bankrupt_count / len, 1)],
    the average [floor(sum / len)], the minimum and the maximum; the odds
    lie in [0.0, 100.0] and the average between minimum and maximum. *)
Theorem bankrupt_prob_statistics (outcome : list Z) (bankrupt_count : Z) :
  outcome <> [] ->
  0 <= py_sum outcome < 2 ^ 53 ->
  0 <= bankrupt_count <= len outcome ->
  exists q lo hi,
    PyFloat.int_truediv (100 * bankrupt_count) (len outcome) = Ok q
    /\ bankrupt_prob outcome bankrupt_count
       = Ok {| odds := PyFloat.round1 q;
               average := py_sum outcome / len outcome;
               minimum := lo;
               maximum := hi |}
    /\ is_minimum lo outcome
    /\ is_maximum hi outcome
    /\ PyFloat.leb PyFloat.zero (PyFloat.round1 q) = true
    /\ PyFloat.leb (PyFloat.round1 q) PyFloat.hundred = true
    /\ lo <= py_sum outcome / len outcome <= hi.
Proof.
  intros Hne Hsum Hbc.
  pose proof (len_pos outcome Hne) as Hlen.
  assert (H100 : 0 <= 100 < 2 ^ 53) by (split; reflexivity || discriminate).
  destruct (int_truediv_le (100 * bankrupt_count) (len outcome) 100
              ltac:(lia) Hlen H100 ltac:(lia))
    as (q & Hq & Hqr).
  destruct (int_truediv_floor (py_sum outcome) (len outcome) Hsum Hlen)
    as (mean & Hmean & Havg).
  destruct (round1_in_range q Hqr) as [Hge Hle].
  destruct outcome as [|x rest]; [congruence|].
  pose proof (fold_left_min_spec rest x) as Hmin.
  pose proof (fold_left_max_spec rest x) as Hmax.
  exists q, (fold_left Z.min rest x), (fold_left Z.max rest x).
  split; [exact Hq|]. split.
  { unfold bankrupt_prob. rewrite Hq. cbn [bind].
    rewrite Hmean. cbn [bind]. rewrite Havg. reflexivity. }
  repeat (split; [assumption|]).
  destruct Hmin as [_ Hmin]. destruct Hmax as [_ Hmax].
  pose proof (py_sum_bounds (x :: rest) _ _
                (fun y Hy => conj (Hmin y Hy) (Hmax y Hy))) as Hb.
  split.
  - apply Z.div_le_lower_bound; lia.
  - apply Z.div_le_upper_bound; lia.
Qed.

Lemma bankrupt_prob_statistics_witness :
  [108900; 0] <> []
  /\ 0 <= py_sum [108900; 0] < 2 ^ 53
  /\ 0 <= 1 <= len [108900; 0]
  /\ exists q lo hi,
       PyFloat.int_truediv (100 * 1) (len [108900; 0]) = Ok q
       /\ bankrupt_prob [108900; 0] 1
          = Ok {| odds := PyFloat.round1 q;
                  average := py_sum [108900; 0] / len [108900; 0];
                  minimum := lo;
                  maximum := hi |}
       /\ is_minimum lo [108900; 0]
       /\ is_maximum hi [108900; 0]
       /\ PyFloat.leb PyFloat.zero (PyFloat.round1 q) = true
       /\ PyFloat.leb (PyFloat.round1 q) PyFloat.hundred = true
       /\ lo <= py_sum [108900; 0] / len [108900; 0] <= hi.
Proof.
  assert (H1 : [108900; 0] <> []) by discriminate.
  assert (H2 : 0 <= py_sum [108900; 0] < 2 ^ 53) by (vm_compute; split; congruence).
  assert (H3 : 0 <= 1 <= len [108900; 0]) by (vm_compute; split; congruence).
  split; [exact H1|]. split; [exact H2|]. split; [exact H3|].
  exact (bankrupt_prob_statistics [108900; 0] 1 H1 H2 H3).
Defined.

(** C7 as stated fails. For the single outcome 2^53 + 1 the printed
    average is 2^53: it is not [floor(sum / len)] and it lies below the
    minimum. And nothing in [bankrupt_prob] ties the count to the length:
    a count of 2 for one outcome gives odds of 200.0. *)
Lemma average_below_minimum :
  Sample.odd_outcome <> []
  /\ (exists s, bankrupt_prob Sample.odd_outcome 0 = Ok s
        /\ average s = 9007199254740992
        /\ average s <> py_sum Sample.odd_outcome / len Sample.odd_outcome
        /\ minimum s = 9007199254740993
        /\ ~ minimum s <= average s)
  /\ (exists s, bankrupt_prob [1] 2 = Ok s
        /\ PyFloat.of_int 200 = Ok (odds s)
        /\ PyFloat.leb (odds s) PyFloat.hundred = false).
Proof.
  split; [discriminate|]. split.
  - eexists. split; [vm_compute; reflexivity|].
    cbn [average minimum]. repeat split; try reflexivity.
    + vm_compute. discriminate.
    + lia.
  - eexists. split; [vm_compute; reflexivity|].
    cbn [odds]. split; vm_compute; reflexivity.
Qed.

(** The constants [0.0] and [100.0] are the floats of 0 and 100. *)
Lemma zero_hundred_floats :
  PyFloat.of_int 0 = Ok PyFloat.zero /\ PyFloat.of_int 100 = Ok PyFloat.hundred.
Proof. split; vm_compute; reflexivity. Qed.

(** ** Digits *)

Lemma Zdigits2_unique (m d : Z) :
  0 < d -> 2 ^ (d - 1) <= m < 2 ^ d -> Zdigits2 m = d.
Proof.
  intros Hd Hm.
  assert (0 < m).
  { assert (0 < 2 ^ (d - 1)) by (apply Z.pow_pos_nonneg; lia). lia. }
  rewrite Zdigits2_log2 by assumption.
  assert (Z.log2 m = d - 1); [|lia].
  apply Z.log2_unique; [lia|]. replace (Z.succ (d - 1)) with d by lia.
  exact Hm.
Qed.

Lemma Zdigits2_pos (m : Z) : 0 < m -> 0 < Zdigits2 m.
Proof. destruct m; cbn [Zdigits2]; lia. Qed.

Lemma Zdigits2_mul_pow2 (m k : Z) :
  0 < m -> 0 <= k -> Zdigits2 (m * 2 ^ k) = Zdigits2 m + k.
Proof.
  intros Hm Hk. pose proof (Zdigits2_bounds m Hm) as [Hl Hh].
  pose proof (Zdigits2_pos m Hm).
  assert (0 < 2 ^ k) by (apply Z.pow_pos_nonneg; lia).
  apply Zdigits2_unique; [lia|].
  replace (Zdigits2 m + k - 1) with (Zdigits2 m - 1 + k) by lia.
  rewrite !Z.pow_add_r by lia. nia.
Qed.

Lemma Zdigits2_div_pow2 (m k : Z) :
  0 <= k -> 2 ^ k <= m -> Zdigits2 (m / 2 ^ k) = Zdigits2 m - k.
Proof.
  intros Hk Hm.
  assert (Hp : 0 < 2 ^ k) by (apply Z.pow_pos_nonneg; lia).
  pose proof (Zdigits2_bounds m ltac:(lia)) as [Hl Hh].
  pose proof (Zdigits2_pos m ltac:(lia)).
  assert (Hdk : k < Zdigits2 m).
  { destruct (Z.lt_ge_cases k (Zdigits2 m)) as [L|L]; [exact L|].
    assert (2 ^ Zdigits2 m <= 2 ^ k) by (apply Z.pow_le_mono_r; lia). lia. }
  apply Zdigits2_unique; [lia|]. split.
  - apply Z.div_le_lower_bound; [lia|].
    rewrite <- Z.pow_add_r by lia.
    replace (k + (Zdigits2 m - k - 1)) with (Zdigits2 m - 1) by lia. exact Hl.
  - apply Z.div_lt_upper_bound; [lia|].
    rewrite <- Z.pow_add_r by lia.
    replace (k + (Zdigits2 m - k)) with (Zdigits2 m) by lia. exact Hh.
Qed.

Lemma Zdigits2_mul_ge (a b : Z) :
  0 < a -> 0 < b -> Zdigits2 a + Zdigits2 b - 1 <= Zdigits2 (a * b).
Proof.
  intros Ha Hb.
  pose proof (Zdigits2_bounds a Ha) as [Hal _].
  pose proof (Zdigits2_bounds b Hb) as [Hbl _].
  pose proof (Zdigits2_pos a Ha). pose proof (Zdigits2_pos b Hb).
  pose proof (Zdigits2_bounds (a * b) ltac:(nia)) as [_ Hh].
  destruct (Z.le_gt_cases (Zdigits2 a + Zdigits2 b - 1) (Zdigits2 (a * b)))
    as [L|L]; [exact L|].
  assert (2 ^ Zdigits2 (a * b) <= 2 ^ (Zdigits2 a - 1 + (Zdigits2 b - 1))).
  { apply Z.pow_le_mono_r; lia. }
  rewrite Z.pow_add_r in * by lia.
  assert (0 < 2 ^ (Zdigits2 a - 1)) by (apply Z.pow_pos_nonneg; lia).
  assert (0 < 2 ^ (Zdigits2 b - 1)) by (apply Z.pow_pos_nonneg; lia).
  nia.
Qed.

Lemma Zdigits2_ge (m d : Z) : 0 <= d -> 2 ^ d <= m -> d + 1 <= Zdigits2 m.
Proof.
  intros Hd Hm.
  assert (0 < 2 ^ d) by (apply Z.pow_pos_nonneg; lia).
  pose proof (Zdigits2_bounds m ltac:(lia)) as [_ Hh].
  pose proof (Zdigits2_pos m ltac:(lia)).
  destruct (Z.le_gt_cases (d + 1) (Zdigits2 m)) as [L|L]; [exact L|].
  assert (2 ^ Zdigits2 m <= 2 ^ d) by (apply Z.pow_le_mono_r; lia). lia.
Qed.

Lemma iter_xO_pow2 (m d : positive) :
  Z.pos (Pos.iter xO m d) = Z.pos m * 2 ^ Z.pos d.
Proof.
  induction d as [|d IH] using Pos.peano_ind.
  - change (Z.pos (Pos.iter xO m 1)) with (2 * Z.pos m).
    change (2 ^ 1) with 2. lia.
  - rewrite Pos.iter_succ, Pos2Z.inj_succ, Z.pow_succ_r by lia.
    change (Z.pos (Pos.iter xO m d)~0) with (2 * Z.pos (Pos.iter xO m d)).
    rewrite IH. lia.
Qed.

(** Alignment keeps the value and leaves the mantissa with the digits its
    exponent asks for, or more. *)
Lemma shl_align_spec (m : positive) (e : Z) :
  let '(mz, ez) :=
    shl_align m e (fexp PyFloat.prec PyFloat.emax (Z.pos (digits2_pos m) + e))
  in
  ez <= e
  /\ Z.pos mz = Z.pos m * 2 ^ (e - ez)
  /\ ez <= fexp PyFloat.prec PyFloat.emax (Zdigits2 (Z.pos mz) + ez).
Proof.
  unfold shl_align.
  set (e' := fexp PyFloat.prec PyFloat.emax (Z.pos (digits2_pos m) + e)).
  destruct (e' - e) as [|d|d] eqn:Ed.
  - change (2 ^ (e - e)) with (2 ^ (e - e)). rewrite Z.sub_diag.
    cbn [Zdigits2]. fold e'. lia.
  - rewrite Z.sub_diag. cbn [Zdigits2]. fold e'. lia.
  - rewrite iter_xO_pow2. replace (e - e') with (Z.pos d) by lia.
    split; [lia|]. split; [reflexivity|].
    rewrite <- iter_xO_pow2.
    change (Z.pos (Pos.iter xO m d)) with (Z.pos (Pos.iter xO m d)).
    rewrite iter_xO_pow2, Zdigits2_mul_pow2 by lia.
    cbn [Zdigits2].
    replace (Z.pos (digits2_pos m) + Z.pos d + e')
      with (Z.pos (digits2_pos m) + e) by lia.
    fold e'. lia.
Qed.

(** ** Rounding an exact value of bounded magnitude *)

(** An exact value [N * 2 ^ e] of magnitude at most [2 ^ B], with the
    digits its exponent asks for, rounds to a double of magnitude at most
    [2 ^ B]. *)
Lemma round_frac_exact_bounded (s : bool) (N e B : Z) :
  0 < N ->
  e <= fexp PyFloat.prec PyFloat.emax (Zdigits2 N + e) ->
  e <= B -> N <= 2 ^ (B - e) -> -1074 <= B <= 1023 ->
  bounded_by B (round_frac s N 1 e).
Proof.
  intros HN Hdig HeB HNB HB. unfold round_frac.
  rewrite Z.div_1_r, Z.mul_1_l.
  set (dN := Zdigits2 N) in *.
  pose proof (Zdigits2_bounds N HN) as [HNl HNh]. fold dN in HNl, HNh.
  pose proof (Zdigits2_pos N HN) as HdN. fold dN in HdN.
  assert (HdNB : dN <= B - e + 1).
  { apply Zdigits2_le; [lia | lia |].
    rewrite Z.pow_add_r by lia. change (2 ^ 1) with 2.
    assert (0 < 2 ^ (B - e)) by (apply Z.pow_pos_nonneg; lia). lia. }
  rewrite fexp_double in Hdig.
  set (e1 := Z.max e (fexp PyFloat.prec PyFloat.emax (dN + e))).
  assert (He1 : e1 = Z.max (dN + e - 53) (-1074))
    by (unfold e1; rewrite fexp_double; lia).
  assert (He1e : e <= e1 <= B) by lia.
  assert (Hp1 : 0 < 2 ^ (e1 - e)) by (apply Z.pow_pos_nonneg; lia).
  assert (Hsplit : 2 ^ (B - e) = 2 ^ (B - e1) * 2 ^ (e1 - e)).
  { rewrite <- Z.pow_add_r by lia. f_equal. lia. }
  set (m1 := PyFloat.div_half_even N (2 ^ (e1 - e))).
  assert (Hm1h : m1 <= 2 ^ (B - e1)).
  { apply div_half_even_le; [lia | lia |]. rewrite <- Hsplit. exact HNB. }
  assert (Hm1l : N / 2 ^ (e1 - e) <= m1).
  { apply div_half_even_ge; [lia | lia |].
    rewrite Z.mul_comm. apply Z.mul_div_le. lia. }
  assert (Hm10 : 0 <= m1).
  { apply Z.le_trans with (N / 2 ^ (e1 - e)); [apply Z.div_pos; lia | exact Hm1l]. }
  assert (HpB1 : 0 < 2 ^ (B - e1)) by (apply Z.pow_pos_nonneg; lia).
  assert (Hdm1 : Zdigits2 m1 <= B - e1 + 1).
  { apply Zdigits2_le; [lia | lia |].
    rewrite Z.pow_add_r by lia. change (2 ^ 1) with 2. lia. }
  pose proof (Zdigits2_nonneg m1) as Hdm10.
  set (e2 := Z.max e1 (fexp PyFloat.prec PyFloat.emax (Zdigits2 m1 + e1))).
  assert (He2 : e2 = Z.max e1 (Z.max (Zdigits2 m1 + e1 - 53) (-1074)))
    by (unfold e2; rewrite fexp_double; reflexivity).
  assert (He2b : e1 <= e2 <= B /\ e2 <= 971) by lia.
  assert (Hp2 : 0 < 2 ^ (e2 - e1)) by (apply Z.pow_pos_nonneg; lia).
  assert (Hsplit2 : 2 ^ (B - e1) = 2 ^ (B - e2) * 2 ^ (e2 - e1)).
  { rewrite <- Z.pow_add_r by lia. f_equal. lia. }
  assert (Hm : 0 <= m1 / 2 ^ (e2 - e1) <= 2 ^ (B - e2)).
  { split; [apply Z.div_pos; lia|].
    apply Z.div_le_upper_bound; [lia|]. rewrite Z.mul_comm, <- Hsplit2.
    exact Hm1h. }
  destruct (m1 / 2 ^ (e2 - e1)) as [|m|m] eqn:Em; [exact I| |lia].
  replace (e2 <=? PyFloat.emax - PyFloat.prec) with true
    by (symmetry; apply Z.leb_le; cbn; lia).
  cbn [bounded_by]. split; [|lia].
  unfold canonical. rewrite fexp_double.
  change (Z.pos (digits2_pos m)) with (Zdigits2 (Z.pos m)). rewrite <- Em.
  destruct (Z.eq_dec e2 e1) as [Eq|Neq].
  - (* no second shift *)
    rewrite Eq, Z.sub_diag. change (2 ^ 0) with 1. rewrite Z.div_1_r.
    destruct (Z.eq_dec e1 (-1074)) as [Emin|Hnorm]; [lia|].
    assert (Hk : e1 - e = dN - 53) by lia.
    assert (H52 : 2 ^ 52 <= N / 2 ^ (e1 - e)).
    { apply Z.div_le_lower_bound; [lia|].
      rewrite Hk, <- Z.pow_add_r by lia.
      replace (dN - 53 + 52) with (dN - 1) by lia. exact HNl. }
    pose proof (Zdigits2_ge m1 52 ltac:(lia) ltac:(lia)). lia.
  - (* the rounded mantissa is shifted once more *)
    assert (Hm1big : 2 ^ (e2 - e1) <= m1).
    { destruct (Z.le_gt_cases (2 ^ (e2 - e1)) m1) as [L|L]; [exact L|].
      rewrite Z.div_small in Em by lia. discriminate. }
    rewrite Zdigits2_div_pow2 by lia. lia.
Qed.

Lemma binary_round_aux_exact (s : bool) (N e : Z) :
  0 <= N ->
  binary_round_aux PyFloat.prec PyFloat.emax s N e loc_Exact
  = round_frac s N 1 e.
Proof.
  intros HN. rewrite <- binary_round_aux_frac by lia.
  rewrite Z.div_1_r. unfold loc_of_frac. rewrite Z.mod_1_r. reflexivity.
Qed.

Lemma binary_round_bounded (s : bool) (m : positive) (e B : Z) :
  e <= B -> Z.pos m <= 2 ^ (B - e) -> -1074 <= B <= 1023 ->
  bounded_by B (binary_round PyFloat.prec PyFloat.emax s m e).
Proof.
  intros HeB HmB HB. unfold binary_round.
  pose proof (shl_align_spec m e) as Hal.
  destruct (shl_align m e _) as [mz ez]. destruct Hal as (Hez & Hmz & Hdig).
  rewrite binary_round_aux_exact by lia.
  apply round_frac_exact_bounded; [lia | exact Hdig | lia | | lia].
  rewrite Hmz.
  replace (B - ez) with (B - e + (e - ez)) by lia.
  rewrite Z.pow_add_r by lia.
  assert (0 < 2 ^ (e - ez)) by (apply Z.pow_pos_nonneg; lia). nia.
Qed.

Lemma binary_normalize_bounded (n e B : Z) (szero : bool) :
  e <= B -> Z.abs n <= 2 ^ (B - e) -> -1074 <= B <= 1023 ->
  bounded_by B (binary_normalize PyFloat.prec PyFloat.emax n e szero).
Proof.
  intros HeB HnB HB. destruct n as [|m|m]; cbn [binary_normalize].
  - exact I.
  - apply binary_round_bounded; lia.
  - apply binary_round_bounded; lia.
Qed.

(** ** Float operations on bounded operands *)

Lemma of_int_bounded (n B : Z) :
  Z.abs n <= 2 ^ B -> 0 <= B <= 1023 ->
  exists f, PyFloat.of_int n = Ok f /\ bounded_by B f.
Proof.
  intros Hn HB. unfold PyFloat.of_int.
  pose proof (binary_normalize_bounded n 0 B false ltac:(lia)) as Hb.
  rewrite Z.sub_0_r in Hb. specialize (Hb Hn ltac:(lia)).
  destruct (binary_normalize PyFloat.prec PyFloat.emax n 0 false);
    cbn [bounded_by] in Hb; try contradiction; eexists; split;
    try reflexivity; exact Hb.
Qed.

Lemma shl_align_fst (m : positive) (e ez : Z) :
  ez <= e -> Z.pos (fst (shl_align m e ez)) = Z.pos m * 2 ^ (e - ez).
Proof.
  intros He. unfold shl_align.
  destruct (ez - e) as [|d|d] eqn:Ed; cbn [fst]; try lia.
  - replace (e - ez) with 0 by lia. change (2 ^ 0) with 1. lia.
  - rewrite iter_xO_pow2. replace (e - ez) with (Z.pos d) by lia.
    reflexivity.
Qed.

Lemma of_int_one :
  PyFloat.of_int 1 = Ok (S754_finite false 4503599627370496 (-52)).
Proof. reflexivity. Qed.

(** [1 + r] for a rate of at most 100 % in magnitude: a double of
    magnitude at most 2. *)
Lemma int_add_one_bounded (r : PyFloat.float) :
  modest_rate r ->
  exists g, PyFloat.int_add 1 r = Ok g /\ bounded_by 1 g.
Proof.
  intros Hr. unfold PyFloat.int_add. rewrite of_int_one. cbn [bind].
  eexists. split; [reflexivity|].
  destruct r as [sr|sr| |sr mr er]; cbn [modest_rate bounded_by] in Hr;
    try contradiction.
  - cbn. repeat split; try reflexivity; discriminate.
  - destruct Hr as (Hcan & He & Hm). rewrite Z.sub_0_l in Hm.
    unfold PyFloat.add, SFadd.
    set (ez := Z.min (-52) er).
    apply binary_normalize_bounded; [lia | | lia].
    rewrite !shl_align_fst by lia.
    assert (Hp : 0 < 2 ^ (er - ez)) by (apply Z.pow_pos_nonneg; lia).
    assert (Hone : 4503599627370496 * 2 ^ (-52 - ez) = 2 ^ (- ez)).
    { change 4503599627370496 with (2 ^ 52).
      rewrite <- Z.pow_add_r by lia. f_equal. lia. }
    assert (Hrate : Z.pos mr * 2 ^ (er - ez) <= 2 ^ (- ez)).
    { replace (- ez) with (- er + (er - ez)) by lia.
      rewrite Z.pow_add_r by lia. nia. }
    assert (Htwo : 2 ^ (1 - ez) = 2 * 2 ^ (- ez)).
    { replace (1 - ez) with (1 + - ez) by lia.
      rewrite Z.pow_add_r by lia. reflexivity. }
    assert (0 < 2 ^ (- ez)) by (apply Z.pow_pos_nonneg; lia).
    rewrite Htwo. cbn [cond_Zopp]. rewrite Hone.
    destruct sr; cbn [cond_Zopp]; lia.
Qed.

Lemma canonical_digits (m : positive) (e : Z) :
  canonical m e ->
  -1074 <= e /\ Zdigits2 (Z.pos m) <= 53
  /\ (Zdigits2 (Z.pos m) = 53 \/ e = -1074).
Proof.
  unfold canonical. rewrite fexp_double. cbn [Zdigits2]. lia.
Qed.

Lemma mul_bounded (x y : PyFloat.float) (Bx By : Z) :
  bounded_by Bx x -> bounded_by By y ->
  -1074 <= Bx + By <= 1023 ->
  bounded_by (Bx + By) (PyFloat.mul x y).
Proof.
  intros Hx Hy HB.
  destruct x as [sx|sx| |sx mx ex]; cbn [bounded_by] in Hx; try contradiction;
    destruct y as [sy|sy| |sy my ey]; cbn [bounded_by] in Hy;
    try contradiction; try exact I.
  destruct Hx as (Hcx & Hex & Hmx). destruct Hy as (Hcy & Hey & Hmy).
  unfold PyFloat.mul, SFmul.
  rewrite binary_round_aux_exact by lia.
  apply canonical_digits in Hcx as (Hx1 & Hx2 & Hx3).
  apply canonical_digits in Hcy as (Hy1 & Hy2 & Hy3).
  pose proof (Zdigits2_pos (Z.pos mx) ltac:(lia)).
  pose proof (Zdigits2_pos (Z.pos my) ltac:(lia)).
  pose proof (Zdigits2_mul_ge (Z.pos mx) (Z.pos my) ltac:(lia) ltac:(lia))
    as Hd.
  rewrite Pos2Z.inj_mul.
  apply round_frac_exact_bounded; try lia.
  - rewrite fexp_double. lia.
  - replace (Bx + By - (ex + ey)) with (Bx - ex + (By - ey)) by lia.
    rewrite Z.pow_add_r by lia.
    assert (0 < 2 ^ (Bx - ex)) by (apply Z.pow_pos_nonneg; lia).
    assert (0 < 2 ^ (By - ey)) by (apply Z.pow_pos_nonneg; lia).
    nia.
Qed.

Lemma to_int_bounded (f : PyFloat.float) (B : Z) :
  bounded_by B f -> 0 <= B ->
  exists z, PyFloat.to_int f = Ok z /\ Z.abs z <= 2 ^ B.
Proof.
  intros Hf HB.
  assert (0 < 2 ^ B) by (apply Z.pow_pos_nonneg; lia).
  destruct f as [s|s| |s m e]; cbn [bounded_by] in Hf; try contradiction.
  - exists 0. split; [reflexivity | cbn; lia].
  - destruct Hf as (_ & He & Hm). eexists. split; [reflexivity|].
    assert (Hmag : 0 <= Z.shiftl (Z.pos m) e <= 2 ^ B).
    { destruct (Z.le_gt_cases 0 e) as [L|L].
      - rewrite Z.shiftl_mul_pow2 by lia.
        assert (0 < 2 ^ e) by (apply Z.pow_pos_nonneg; lia).
        assert (Hs : 2 ^ B = 2 ^ (B - e) * 2 ^ e).
        { rewrite <- Z.pow_add_r by lia. f_equal. lia. }
        rewrite Hs. nia.
      - rewrite <- (Z.opp_involutive e) at 1 2.
        rewrite Z.shiftl_opp_r, Z.shiftr_div_pow2 by lia.
        assert (0 < 2 ^ (- e)) by (apply Z.pow_pos_nonneg; lia).
        split; [apply Z.div_pos; lia|].
        apply Z.div_le_upper_bound; [lia|].
        rewrite Z.mul_comm, <- Z.pow_add_r by lia.
        replace (B + - e) with (B - e) by lia. exact Hm. }
    destruct s; cbn [cond_Zopp]; lia.
Qed.

(** An int of magnitude at most [2 ^ B] grown by a modest rate and
    truncated: an int of magnitude at most [2 ^ (B + 1)]. *)
Lemma grow_bounded (n B : Z) (r : PyFloat.float) :
  Z.abs n <= 2 ^ B -> 0 <= B <= 1022 -> modest_rate r ->
  exists z,
    (growth <- PyFloat.int_add 1 r ;;
     x <- PyFloat.int_mul n growth ;;
     PyFloat.to_int x) = Ok z
    /\ Z.abs z <= 2 ^ (B + 1).
Proof.
  intros Hn HB Hr.
  destruct (int_add_one_bounded r Hr) as (g & -> & Hg). cbn [bind].
  unfold PyFloat.int_mul.
  destruct (of_int_bounded n B Hn ltac:(lia)) as (f & -> & Hf). cbn [bind].
  apply to_int_bounded; [|lia].
  apply mul_bounded; [exact Hf | exact Hg | lia].
Qed.

(** ** Runs that cannot overflow *)

Section BoundedRuns.

Context {G : Type} `{RandomGen G}.

Variable p : SimulationParameters.
Variable returns infl_rate : list PyFloat.float.

(** All amounts start below [2 ^ B0]. *)
Variable B0 : Z.
Hypothesis B0_nonneg : 0 <= B0.
Hypothesis withdrawal_bound : Z.abs (withdrawal p) <= 2 ^ B0.

Lemma year_withdrawal_returns (index : nat) (infl : PyFloat.float) (w : Z) :
  modest_rate infl ->
  Z.abs w <= 2 ^ (B0 + Z.of_nat index) ->
  B0 + Z.of_nat index <= 1022 ->
  exists w', year_withdrawal p index infl w = Ok w'
    /\ Z.abs w' <= 2 ^ (B0 + Z.of_nat index + 1).
Proof.
  intros Hinfl Hw HB. destruct index as [|k]; cbn [year_withdrawal].
  - exists (withdrawal p). split; [reflexivity|].
    apply Z.le_trans with (2 ^ B0); [exact withdrawal_bound|].
    apply Z.pow_le_mono_r; lia.
  - apply grow_bounded; [exact Hw | lia | exact Hinfl].
Qed.

Lemma year_investments_returns (i : PyFloat.float) (w v B : Z) :
  modest_rate i ->
  Z.abs w <= 2 ^ B -> Z.abs v <= 2 ^ B -> 0 <= B <= 1021 ->
  exists v', year_investments i w v = Ok v' /\ Z.abs v' <= 2 ^ (B + 2).
Proof.
  intros Hi Hw Hv HB. unfold year_investments.
  replace (B + 2) with (B + 1 + 1) by lia.
  apply grow_bounded; [|lia | exact Hi].
  rewrite Z.pow_add_r by lia. change (2 ^ 1) with 2. lia.
Qed.

Lemma retirement_years_returns (lifespan_returns lifespan_infl : list PyFloat.float) :
  Forall modest_rate lifespan_infl ->
  forall index w v,
    Forall modest_rate lifespan_returns ->
    (index + length lifespan_returns <= length lifespan_infl)%nat ->
    Z.abs w <= 2 ^ (B0 + Z.of_nat index) ->
    Z.abs v <= 2 ^ (B0 + 3 * Z.of_nat index) ->
    B0 + 3 * Z.of_nat (index + length lifespan_returns) <= 1023 ->
    exists bankrupt final,
      retirement_years p index lifespan_returns lifespan_infl w v
      = Ok (bankrupt, final).
Proof.
  intros Hinfl.
  induction lifespan_returns as [|i rest IH];
    intros index w v Hret Hlen Hw Hv HB; cbn [retirement_years].
  - eauto.
  - cbn [length] in Hlen, HB. inversion Hret as [|? ? Hi Hrest]; subst.
    destruct (py_index_in_range lifespan_infl (Z.of_nat index))
      as (infl & -> & Hnth); [unfold len; lia|]. cbn [bind].
    rewrite Nat2Z.id in Hnth.
    assert (Hm : modest_rate infl).
    { rewrite Forall_forall in Hinfl. apply Hinfl.
      eapply nth_error_In; eauto. }
    destruct (year_withdrawal_returns index infl w Hm Hw ltac:(lia))
      as (w' & -> & Hw'). cbn [bind].
    assert (Hmono : 2 ^ (B0 + Z.of_nat index + 1)
                    <= 2 ^ (B0 + 3 * Z.of_nat index + 1))
      by (apply Z.pow_le_mono_r; lia).
    assert (Hmono' : 2 ^ (B0 + 3 * Z.of_nat index)
                     <= 2 ^ (B0 + 3 * Z.of_nat index + 1))
      by (apply Z.pow_le_mono_r; lia).
    destruct (year_investments_returns i w' v
                (B0 + 3 * Z.of_nat index + 1) Hi ltac:(lia) ltac:(lia)
                ltac:(lia))
      as (v' & -> & Hv'). cbn [bind].
    destruct (v' <=? 0); [eauto|].
    apply IH; try assumption; try lia.
    + replace (B0 + Z.of_nat (S index)) with (B0 + Z.of_nat index + 1)
        by lia. exact Hw'.
    + replace (B0 + 3 * Z.of_nat (S index))
        with (B0 + 3 * Z.of_nat index + 1 + 2) by lia. exact Hv'.
Qed.

Hypothesis returns_nonempty : returns <> [].
Hypothesis infl_nonempty : infl_rate <> [].
Hypothesis returns_modest : Forall modest_rate returns.
Hypothesis infl_modest : Forall modest_rate infl_rate.
Hypothesis valid : valid_parameters p.
Hypothesis start_bound : start_value p <= 2 ^ B0.
Hypothesis B0_small : B0 <= 726.
Hypothesis samples : honours_range p.

Lemma simulate_run_returns (g : G) :
  exists o bankrupt g', simulate_run p returns infl_rate g = Ok (o, bankrupt, g').
Proof.
  destruct valid as (Hstart & Hwd & Hmin & Hmode & Hmax & H99 & Hn).
  unfold simulate_run, randrange. rewrite Z.sub_0_r.
  pose proof (len_pos _ returns_nonempty) as Hl. apply Z.ltb_lt in Hl.
  rewrite Hl. destruct (randbelow (len returns) g) as [r0 g1]. cbn [bind].
  pose proof (samples g1) as Ht.
  destruct (triangular (min_years p) (max_years p) (most_likely_years p) g1)
    as [t g2]. cbn [fst] in Ht.
  destruct (to_int_within (min_years p) (max_years p) t ltac:(lia) Ht)
    as (d & -> & Hd). cbn [bind].
  destruct (build_lifespan_spec returns infl_rate returns_nonempty
              infl_nonempty (py_range (0 + r0) (0 + r0 + d)) [] [])
    as (rs & fs & -> & Lr & Lf & Hnth). cbn [bind app].
  rewrite py_range_length in Lr, Lf.
  replace (0 + r0 + d - (0 + r0)) with d in Lr, Lf by lia.
  assert (Hoff : forall k, (k < Z.to_nat d)%nat ->
            nth_error (py_range (0 + r0) (0 + r0 + d)) k
            = Some (0 + r0 + Z.of_nat k)).
  { intros k Hk. apply py_range_nth.
    replace (0 + r0 + d - (0 + r0)) with d by lia. exact Hk. }
  assert (Hrs : Forall modest_rate rs).
  { apply Forall_forall. intros x Hx. apply In_nth_error in Hx as [k Hk].
    assert (Hklen : (k < Z.to_nat d)%nat)
      by (rewrite <- Lr; apply nth_error_Some; congruence).
    destruct (Hnth k _ (Hoff k Hklen)) as [(r & Er & Nr) _].
    rewrite Forall_forall in returns_modest. apply returns_modest.
    replace x with r by congruence. eapply nth_error_In; eauto. }
  assert (Hfs : Forall modest_rate fs).
  { apply Forall_forall. intros x Hx. apply In_nth_error in Hx as [k Hk].
    assert (Hklen : (k < Z.to_nat d)%nat)
      by (rewrite <- Lf; apply nth_error_Some; congruence).
    destruct (Hnth k _ (Hoff k Hklen)) as [_ (f & Ef & Nf)].
    rewrite Forall_forall in infl_modest. apply infl_modest.
    replace x with f by congruence. eapply nth_error_In; eauto. }
  destruct (retirement_years_returns rs fs Hfs 0%nat 0 (start_value p) Hrs)
    as (b & final & ->).
  - cbn. lia.
  - cbn. assert (0 < 2 ^ (B0 + 0)) by (apply Z.pow_pos_nonneg; lia). lia.
  - rewrite Z.mul_0_r, Z.add_0_r. lia.
  - cbn [Nat.add]. lia.
  - cbn [bind]. destruct b; eauto.
Qed.

Lemma sim_loop_returns (remaining : nat) :
  forall bankrupt_count outcome g,
  exists outcome' bankrupt_count' g',
    sim_loop p returns infl_rate remaining bankrupt_count outcome g
    = Ok (outcome', bankrupt_count', g').
Proof.
  induction remaining as [|n IH]; intros bc out g; cbn [sim_loop].
  - eauto.
  - destruct (simulate_run_returns g) as (o & b & g' & ->). cbn [bind].
    apply IH.
Qed.

End BoundedRuns.

(** C1, as amended: under valid parameters and non-empty series the
    simulator either is stopped by a float conversion ([OverflowError] or
    [ValueError]) or returns [num_sim] outcomes together with a bankrupt
    count between 0 and [num_sim]; and it does return when the starting
    value is at most 2^512, every rate is a double between -100 % and
    +100 %, and every sampled duration lies in [[min_years, max_years)]. *)
Theorem simulator_result_shape {G : Type} `{RandomGen G}
  (p : SimulationParameters) (returns infl_rate : list PyFloat.float) (g : G) :
  valid_parameters p ->
  returns <> [] -> infl_rate <> [] ->
  match simulator p returns infl_rate g with
  | Ok (outcome, bankrupt_count, _) =>
      len outcome = num_sim p /\ 0 <= bankrupt_count <= num_sim p
  | Raise e => float_error e
  end
  /\ (start_value p <= 2 ^ 512 ->
      Forall modest_rate returns -> Forall modest_rate infl_rate ->
      honours_range p ->
      exists outcome bankrupt_count g',
        simulator p returns infl_rate g = Ok (outcome, bankrupt_count, g')
        /\ len outcome = num_sim p
        /\ 0 <= bankrupt_count <= num_sim p).
Proof.
  intros Hvalid Hr Hi.
  pose proof (simulator_shape_or_error p returns infl_rate g Hvalid Hr Hi)
    as Hshape.
  split; [exact Hshape|].
  intros Hstart Hrm Him Hsamples.
  assert (Hw : Z.abs (withdrawal p) <= 2 ^ 512)
    by (destruct Hvalid as (_ & Hw & _); lia).
  destruct (sim_loop_returns p returns infl_rate 512 ltac:(lia) Hw Hr Hi
              Hrm Him Hvalid Hstart ltac:(lia) Hsamples
              (Z.to_nat (num_sim p)) 0 [] g)
    as (outcome & bc & g' & Hsim).
  fold (simulator p returns infl_rate g) in Hsim.
  rewrite Hsim in Hshape. exists outcome, bc, g'. split; [exact Hsim|].
  exact Hshape.
Qed.

Lemma boom_bust_modest : Forall modest_rate Sample.boom_bust.
Proof.
  repeat constructor; cbn [modest_rate bounded_by];
    try (vm_compute; reflexivity); try (vm_compute; discriminate).
Qed.

Lemma no_inflation_modest : Forall modest_rate Sample.no_inflation.
Proof.
  apply Forall_forall. intros x Hx. apply repeat_spec in Hx. subst. exact I.
Qed.

Lemma steady_honours_range : honours_range (G := Steady) Sample.two_runs.
Proof.
  intros g. cbn [triangular SteadyGen fst]. vm_compute.
  split; [discriminate | reflexivity].
Qed.

Lemma simulator_result_shape_witness :
  valid_parameters Sample.two_runs
  /\ match simulator Sample.two_runs Sample.boom_bust Sample.no_inflation
             {| steady_count := 0 |} with
     | Ok (outcome, bankrupt_count, _) =>
         len outcome = num_sim Sample.two_runs
         /\ 0 <= bankrupt_count <= num_sim Sample.two_runs
     | Raise e => float_error e
     end
  /\ exists outcome bankrupt_count g',
       simulator Sample.two_runs Sample.boom_bust Sample.no_inflation
         {| steady_count := 0 |} = Ok (outcome, bankrupt_count, g')
       /\ len outcome = num_sim Sample.two_runs
       /\ 0 <= bankrupt_count <= num_sim Sample.two_runs.
Proof.
  split; [exact two_runs_valid|].
  destruct (simulator_result_shape Sample.two_runs Sample.boom_bust
              Sample.no_inflation {| steady_count := 0 |} two_runs_valid
              ltac:(discriminate) ltac:(discriminate)) as [Hshape Hreturns].
  split; [exact Hshape|].
  apply Hreturns.
  - vm_compute. discriminate.
  - exact boom_bust_modest.
  - exact no_inflation_modest.
  - exact steady_honours_range.
Defined.

(** * Further properties of the simulator *)

Section MoreRuns.

Context {G : Type} `{RandomGen G}.

Variable p : SimulationParameters.
Variable returns infl_rate : list PyFloat.float.


Lemma simulate_run_advance (g g' : G) (o : Z) (bankrupt : bool) :
  simulate_run p returns infl_rate g = Ok (o, bankrupt, g') ->
  g' = advance p returns g.
Proof.
  unfold simulate_run, randrange, advance. rewrite Z.sub_0_r.
  destruct (0 <? len returns); cbn [bind]; [|discriminate].
  destruct (randbelow (len returns) g) as [r0 g1]. cbn [bind snd].
  destruct (triangular _ _ _ g1) as [t g2]. cbn [snd].
  intros Hrun. bind_inv Hrun. bind_inv Hrun. destruct a0 as [lr li].
  bind_inv Hrun. destruct a0 as [b final].
  destruct b; inversion Hrun; reflexivity.
Qed.

(** X2: every run, bankrupt or not, takes exactly one [randrange] draw
    and then one [triangular] draw: after the simulator has returned, the
    generator is the one reached by [num_sim] such pairs of draws. *)
Theorem generator_after_runs (g g' : G) (outcome : list Z)
  (bankrupt_count : Z) :
  simulator p returns infl_rate g = Ok (outcome, bankrupt_count, g') ->
  g' = Nat.iter (Z.to_nat (num_sim p)) (advance p returns) g.
Proof.
  unfold simulator. generalize (Z.to_nat (num_sim p)) as n.
  generalize 0 as bc. generalize (@nil Z) as out. revert g.
  intros g out bc n. revert g out bc.
  induction n as [|n IH]; intros g out bc Hloop; cbn [sim_loop] in Hloop.
  - inversion Hloop. reflexivity.
  - bind_inv Hloop. destruct a as [[o b] g1].
    apply simulate_run_advance in Ha. subst g1.
    apply IH in Hloop. rewrite Hloop. symmetry. apply Nat.iter_succ_r.
Qed.

(** X3: a sample that truncates to zero years or fewer leaves the run
    without a single year: it is reported with the starting value
    untouched and never as bankrupt, whatever the series hold. *)
Theorem zero_duration_run (g : G) (duration : Z) :
  returns <> [] ->
  PyFloat.to_int
    (fst (triangular (min_years p) (max_years p) (most_likely_years p)
            (snd (randbelow (len returns) g)))) = Ok duration ->
  duration <= 0 ->
  simulate_run p returns infl_rate g
  = Ok (start_value p, false, advance p returns g).
Proof.
  intros Hr Hd Hle. unfold simulate_run, randrange, advance.
  rewrite Z.sub_0_r. pose proof (len_pos _ Hr) as Hl.
  apply Z.ltb_lt in Hl. rewrite Hl.
  destruct (randbelow (len returns) g) as [r0 g1]. cbn [bind snd] in *.
  destruct (triangular _ _ _ g1) as [t g2]. cbn [fst snd] in *.
  rewrite Hd. cbn [bind]. unfold py_range.
  replace (Z.to_nat (0 + r0 + duration - (0 + r0))) with 0%nat by lia.
  reflexivity.
Qed.

End MoreRuns.

Section FirstYear.

Variable p : SimulationParameters.

Lemma retirement_years_later (rest li : list PyFloat.float)
  (x y : PyFloat.float) :
  forall k w v,
    retirement_years p (S k) rest (x :: li) w v
    = retirement_years p (S k) rest (y :: li) w v.
Proof.
  induction rest as [|i rest IH]; intros k w v; cbn [retirement_years];
    [reflexivity|].
  assert (Hidx : forall z : PyFloat.float,
            py_index (z :: li) (Z.of_nat (S k))
            = match nth_error li k with
              | Some f => Ok f
              | None => Raise IndexError
              end).
  { intros z. unfold py_index.
    replace (Z.of_nat (S k) <? 0) with false
      by (symmetry; apply Z.ltb_ge; lia).
    replace (Z.of_nat (S k) <? 0) with false
      by (symmetry; apply Z.ltb_ge; lia).
    rewrite Nat2Z.id. reflexivity. }
  rewrite !Hidx.
  destruct (nth_error li k) as [infl|]; cbn [bind]; [|reflexivity].
  destruct (year_withdrawal p (S k) infl w) as [w'|]; cbn [bind];
    [|reflexivity].
  destruct (year_investments i w' v) as [v'|]; cbn [bind]; [|reflexivity].
  destruct (v' <=? 0); [reflexivity | apply IH].
Qed.

(** X4: the inflation rate of the first year of a run is looked up but
    never used, and neither is the withdrawal left over from the run
    before: the yearly loop gives the same result for any first inflation
    entry and any initial [withdrawal_infl]. *)
Theorem first_year_inflation_unused (lifespan_returns li : list PyFloat.float)
  (x y : PyFloat.float) (w w' v : Z) :
  retirement_years p 0 lifespan_returns (x :: li) w v
  = retirement_years p 0 lifespan_returns (y :: li) w' v.
Proof.
  destruct lifespan_returns as [|i rest]; cbn [retirement_years];
    [reflexivity|].
  change (py_index (x :: li) (Z.of_nat 0)) with (@Ok PyFloat.float x).
  change (py_index (y :: li) (Z.of_nat 0)) with (@Ok PyFloat.float y).
  cbn [bind year_withdrawal].
  destruct (year_investments i (withdrawal p) v) as [v'|]; cbn [bind];
    [|reflexivity].
  destruct (v' <=? 0); [reflexivity | apply retirement_years_later].
Qed.

End FirstYear.

Lemma generator_after_runs_witness :
  simulator Sample.two_runs Sample.boom_bust Sample.no_inflation
    Sample.two_draws = Ok ([108900; 0], 1, [])
  /\ ([] : Script)
     = Nat.iter (Z.to_nat (num_sim Sample.two_runs))
         (advance Sample.two_runs Sample.boom_bust) Sample.two_draws.
Proof.
  split; [exact two_runs_result|].
  exact (generator_after_runs Sample.two_runs Sample.boom_bust
           Sample.no_inflation Sample.two_draws [] [108900; 0] 1
           two_runs_result).
Defined.

Lemma zero_duration_run_witness :
  Sample.boom_bust <> []
  /\ PyFloat.to_int
       (fst (triangular (min_years Sample.two_runs)
               (max_years Sample.two_runs)
               (most_likely_years Sample.two_runs)
               (snd (randbelow (len Sample.boom_bust)
                       [(0, Sample.ratio 1 2)]))))
     = Ok 0
  /\ 0 <= 0
  /\ simulate_run Sample.two_runs Sample.boom_bust Sample.no_inflation
       [(0, Sample.ratio 1 2)]
     = Ok (start_value Sample.two_runs, false,
           advance Sample.two_runs Sample.boom_bust [(0, Sample.ratio 1 2)]).
Proof.
  split; [discriminate|]. split; [vm_compute; reflexivity|].
  split; [lia|].
  apply (zero_duration_run Sample.two_runs Sample.boom_bust
           Sample.no_inflation [(0, Sample.ratio 1 2)] 0).
  - discriminate.
  - vm_compute. reflexivity.
  - lia.
Defined.

(** * The program as a whole *)

Lemma bankrupt_prob_Ok (outcome : list Z) (bankrupt_count : Z)
  (s : Statistics) :
  bankrupt_prob outcome bankrupt_count = Ok s ->
  outcome <> []
  /\ is_minimum (minimum s) outcome
  /\ is_maximum (maximum s) outcome
  /\ (exists q, PyFloat.int_truediv (100 * bankrupt_count) (len outcome) = Ok q
        /\ odds s = PyFloat.round1 q)
  /\ (exists mean, PyFloat.int_truediv (py_sum outcome) (len outcome) = Ok mean
        /\ PyFloat.to_int mean = Ok (average s)).
Proof.
  intros Hs. destruct outcome as [|x rest]; [discriminate|].
  split; [discriminate|]. unfold bankrupt_prob in Hs.
  bind_inv Hs. bind_inv Hs. bind_inv Hs. bind_inv Hs. bind_inv Hs.
  inversion Hs; subst s; cbn [minimum maximum odds average].
  cbn [py_min py_max] in Ha2, Ha3. inversion Ha2; inversion Ha3; subst.
  split; [apply fold_left_min_spec|]. split; [apply fold_left_max_spec|].
  split; eauto.
Qed.

(** X5: whenever the program runs to its end on inputs that passed the
    prompts, at least one run was requested, there is one outcome per
    run, every outcome is 0 or positive, the printed minimum and maximum
    are attained by outcomes, and the printed minimum is 0 exactly when
    some run went bankrupt. *)
Theorem finished_program {G : Type} `{RandomGen G}
  (p : SimulationParameters) (returns infl_rate : list PyFloat.float)
  (g : G) (s : Statistics) (outcome : list Z) :
  digits_only p ->
  program p returns infl_rate g = Finished s outcome ->
  check_inputs p = None
  /\ 1 <= num_sim p
  /\ len outcome = num_sim p
  /\ Forall zero_or_positive outcome
  /\ is_minimum (minimum s) outcome
  /\ is_maximum (maximum s) outcome
  /\ 0 <= minimum s <= maximum s
  /\ (minimum s = 0 <-> 0 < zeros outcome).
Proof.
  intros Hdigits Hrun. unfold program in Hrun.
  destruct (check_inputs p) as [why|] eqn:Hcheck; [discriminate|].
  destruct (simulator p returns infl_rate g) as [[[out bc] g']|e] eqn:Hsim;
    [|discriminate].
  destruct (bankrupt_prob out bc) as [s'|e] eqn:Hstat; [|discriminate].
  inversion Hrun; subst s' out.
  pose proof (checked_start_positive p Hdigits Hcheck) as Hstart.
  destruct (simulator_spec p returns infl_rate _ _ _ _ Hstart Hsim)
    as (Hlen & Hall & Hbc).
  destruct (bankrupt_prob_Ok _ _ _ Hstat) as (Hne & Hmin & Hmax & _).
  destruct Hdigits as (_ & _ & _ & _ & _ & Hn).
  assert (Hl : len outcome = num_sim p) by (unfold len; lia).
  pose proof (len_pos _ Hne) as Hpos.
  assert (Hnonneg : forall x, In x outcome -> 0 <= x).
  { intros x Hx. rewrite Forall_forall in Hall.
    destruct (Hall x Hx); lia. }
  destruct Hmin as [Hmin_in Hmin_le]. destruct Hmax as [Hmax_in Hmax_le].
  split; [reflexivity|]. split; [lia|]. split; [exact Hl|].
  split; [exact Hall|]. split; [split; assumption|].
  split; [split; assumption|].
  split; [split; [apply Hnonneg, Hmin_in | apply Hmax_le, Hmin_in]|].
  split.
  - intros E. unfold zeros.
    apply (Nat2Z.inj_lt 0). apply (count_occ_In Z.eq_dec). rewrite <- E.
    exact Hmin_in.
  - intros Hz. unfold zeros in Hz.
    assert (Hin : In 0 outcome) by (apply (count_occ_In Z.eq_dec); lia).
    specialize (Hmin_le 0 Hin). specialize (Hnonneg _ Hmin_in). lia.
Qed.

Lemma two_runs_digits : digits_only Sample.two_runs.
Proof. unfold digits_only; simpl; lia. Qed.

Lemma two_runs_program :
  program Sample.two_runs Sample.boom_bust Sample.no_inflation
    Sample.two_draws
  = Finished {| odds := Sample.ratio 50 1; average := 54450;
                minimum := 0; maximum := 108900 |} [108900; 0].
Proof. vm_compute. reflexivity. Qed.

Lemma finished_program_witness :
  digits_only Sample.two_runs
  /\ program Sample.two_runs Sample.boom_bust Sample.no_inflation
       Sample.two_draws
     = Finished {| odds := Sample.ratio 50 1; average := 54450;
                   minimum := 0; maximum := 108900 |} [108900; 0]
  /\ check_inputs Sample.two_runs = None
  /\ 1 <= num_sim Sample.two_runs
  /\ len [108900; 0] = num_sim Sample.two_runs
  /\ Forall zero_or_positive [108900; 0]
  /\ is_minimum 0 [108900; 0]
  /\ is_maximum 108900 [108900; 0]
  /\ 0 <= 0 <= 108900
  /\ (0 = 0 <-> 0 < zeros [108900; 0]).
Proof.
  split; [exact two_runs_digits|]. split; [exact two_runs_program|].
  exact (finished_program Sample.two_runs Sample.boom_bust
           Sample.no_inflation Sample.two_draws _ _ two_runs_digits
           two_runs_program).
Defined.

(** * Division of floats in closed form *)

Lemma SFdiv_finite (sx sy : bool) (mx my : positive) (ex ey : Z) :
  let e := Z.min (fexp PyFloat.prec PyFloat.emax
                    (Zdigits2 (Z.pos mx) + ex - (Zdigits2 (Z.pos my) + ey)))
                 (ex - ey) in
  SFdiv PyFloat.prec PyFloat.emax
    (S754_finite sx mx ex) (S754_finite sy my ey)
  = round_frac (xorb sx sy) (Z.pos mx * 2 ^ (ex - ey - e)) (Z.pos my) e.
Proof.
  intros e. unfold SFdiv, SFdiv_core_binary. fold e.
  assert (He : e <= ex - ey) by (unfold e; lia).
  set (m' := match ex - ey - e with
             | 0 => Z.pos mx
             | Z.pos _ => Z.shiftl (Z.pos mx) (ex - ey - e)
             | Z.neg _ => 0
             end).
  assert (Hm' : m' = Z.pos mx * 2 ^ (ex - ey - e)).
  { unfold m'. destruct (ex - ey - e) as [|k|k] eqn:Ek; try lia.
    rewrite Z.shiftl_mul_pow2 by lia. reflexivity. }
  assert (Hpow : 0 < 2 ^ (ex - ey - e)) by (apply Z.pow_pos_nonneg; lia).
  pose proof (Z_div_mod m' (Z.pos my) ltac:(lia)) as Hde.
  destruct (Z.div_eucl m' (Z.pos my)) as [q r] eqn:Eqr.
  destruct Hde as [Hq Hr].
  assert (Hqd : q = m' / Z.pos my)
    by (unfold Z.div; rewrite Eqr; reflexivity).
  assert (Hrm : r = m' mod Z.pos my)
    by (unfold Z.modulo; rewrite Eqr; reflexivity).
  rewrite new_location_frac by lia.
  rewrite <- Hm'.
  replace (if r =? 0 then loc_Exact else loc_Inexact (2 * r ?= Z.pos my))
    with (loc_of_frac m' (Z.pos my))
    by (unfold loc_of_frac; rewrite <- Hrm; reflexivity).
  rewrite Hqd. apply binary_round_aux_frac; lia.
Qed.

Lemma round_frac_not_nan (s : bool) (N D e : Z) :
  0 <= N -> 0 < D -> round_frac s N D e <> S754_nan.
Proof.
  intros HN HD. unfold round_frac.
  set (e1 := Z.max e (fexp PyFloat.prec PyFloat.emax (Zdigits2 (N / D) + e))).
  set (m1 := PyFloat.div_half_even N (D * 2 ^ (e1 - e))).
  set (e2 := Z.max e1 (fexp PyFloat.prec PyFloat.emax (Zdigits2 m1 + e1))).
  assert (0 < D * 2 ^ (e1 - e)).
  { apply Z.mul_pos_pos; [exact HD|]. apply Z.pow_pos_nonneg; unfold e1; lia. }
  assert (0 <= m1) by (apply div_half_even_nonneg; lia).
  assert (0 <= m1 / 2 ^ (e2 - e1)).
  { apply Z.div_pos; [lia|]. apply Z.pow_pos_nonneg; unfold e2; lia. }
  destruct (m1 / 2 ^ (e2 - e1)) as [|m|m]; [discriminate| |lia].
  destruct (e2 <=? PyFloat.emax - PyFloat.prec); discriminate.
Qed.

(** The quotient of two ints, when there is one, is a number. *)
Lemma int_truediv_number (a b : Z) (f : PyFloat.float) :
  PyFloat.int_truediv a b = Ok f ->
  exists z, PyFloat.to_int f = Ok z.
Proof.
  unfold PyFloat.int_truediv.
  destruct (b =? 0); [discriminate|].
  destruct (a =? 0) eqn:Ea.
  { intros E. inversion E. exists 0. reflexivity. }
  destruct a as [|pa|pa]; [discriminate| |];
    (destruct b as [|pb|pb];
     [intros E; cbn in E; inversion E; subst; eexists; reflexivity| |]);
    cbn [PyFloat.exact_int]; rewrite SFdiv_finite.
  all: match goal with
       | |- context [round_frac ?s ?N ?D ?e] =>
           pose proof (round_frac_not_nan s N D e) as Hnn;
           destruct (round_frac s N D e) as [s0|s0| |s0 m0 e0]
       end.
  all: try discriminate.
  all: try (intros E; inversion E; subst; eexists; reflexivity).
  all: exfalso; apply Hnn; try reflexivity; try lia.
  all: apply Z.mul_nonneg_nonneg; [lia|]; apply Z.pow_nonneg; lia.
Qed.

(** * What [bankrupt_prob] can raise *)

(** X6: [bankrupt_prob] raises [ZeroDivisionError] exactly on an empty
    outcome list; on a non-empty one the only exception it can raise is
    [OverflowError], from a quotient too large for a float. *)
Theorem bankrupt_prob_raises (outcome : list Z) (bankrupt_count : Z) :
  (bankrupt_prob outcome bankrupt_count = Raise ZeroDivisionError
   <-> outcome = [])
  /\ (forall e, bankrupt_prob outcome bankrupt_count = Raise e ->
        outcome <> [] -> e = OverflowError).
Proof.
  assert (Hdiv : forall a b e, b <> 0 ->
            PyFloat.int_truediv a b = Raise e -> e = OverflowError).
  { intros a b e Hb. unfold PyFloat.int_truediv.
    destruct (Z.eqb_spec b 0); [contradiction|].
    destruct (a =? 0); [discriminate|].
    destruct (SFdiv _ _ _ _); intros E; inversion E; reflexivity. }
  assert (Hne : forall e, outcome <> [] ->
            bankrupt_prob outcome bankrupt_count = Raise e ->
            e = OverflowError).
  { intros e Hout Hr. pose proof (len_pos _ Hout) as Hlen.
    unfold bankrupt_prob in Hr.
    apply bind_Raise in Hr as [Hr | (q & _ & Hr)];
      [apply Hdiv in Hr; [exact Hr | lia]|].
    apply bind_Raise in Hr as [Hr | (mean & Hmean & Hr)];
      [apply Hdiv in Hr; [exact Hr | lia]|].
    destruct (int_truediv_number _ _ _ Hmean) as (avg & Havg).
    rewrite Havg in Hr. cbn [bind] in Hr.
    destruct outcome as [|x rest]; [congruence|]. discriminate. }
  split; [split|].
  - intros Hr. destruct outcome as [|x rest]; [reflexivity|].
    specialize (Hne _ ltac:(discriminate) Hr). discriminate.
  - intros ->. reflexivity.
  - intros e Hr Hout. exact (Hne e Hout Hr).
Qed.

(** * Exact odds *)

Lemma div_half_even_exact (M d : Z) :
  0 < d -> PyFloat.div_half_even (M * d) d = M.
Proof.
  intros Hd. unfold PyFloat.div_half_even.
  rewrite Z.div_mul, Z.mod_mul by lia.
  replace (2 * 0 ?= d) with Lt by (symmetry; apply Z.compare_lt_iff; lia).
  reflexivity.
Qed.

(** A hundred times a count, divided by that count, is exactly 100.0. *)
Lemma int_truediv_hundred (n : Z) :
  0 < n -> PyFloat.int_truediv (100 * n) n = Ok PyFloat.hundred.
Proof.
  intros Hn. unfold PyFloat.int_truediv.
  destruct (Z.eqb_spec n 0); [lia|].
  destruct (Z.eqb_spec (100 * n) 0); [lia|].
  destruct n as [|pn|pn]; try lia.
  change (100 * Z.pos pn) with (Z.pos (100 * pn)).
  cbn [PyFloat.exact_int]. rewrite SFdiv_exact_pos.
  change (Z.pos (100 * pn)) with (100 * Z.pos pn).
  set (n := Z.pos pn) in *.
  set (dn := Zdigits2 n). set (da := Zdigits2 (100 * n)).
  pose proof (Zdigits2_bounds n Hn) as [Hnl Hnh]. fold dn in Hnl, Hnh.
  pose proof (Zdigits2_pos n Hn) as Hdn. fold dn in Hdn.
  assert (Hda : dn + 6 <= da <= dn + 7).
  { split.
    - replace (dn + 6) with (dn + 5 + 1) by lia.
      apply Zdigits2_ge; [lia|].
      replace (dn + 5) with (6 + (dn - 1)) by lia.
      rewrite Z.pow_add_r by lia. change (2 ^ 6) with 64. lia.
    - apply Zdigits2_le; [lia | lia |].
      rewrite Z.pow_add_r by lia. change (2 ^ 7) with 128. lia. }
  rewrite fexp_double.
  set (e := Z.min (Z.max (da - dn - 53) (-1074)) 0).
  assert (He : e = da - dn - 53) by (unfold e; lia).
  assert (Hsh : - e = 46 \/ - e = 47) by lia.
  assert (Hp : 0 < 2 ^ (- e)) by (apply Z.pow_pos_nonneg; lia).
  unfold round_frac.
  assert (Hq : 100 * n * 2 ^ (- e) / n = 100 * 2 ^ (- e)).
  { replace (100 * n * 2 ^ (- e)) with (100 * 2 ^ (- e) * n) by lia.
    apply Z.div_mul. lia. }
  rewrite Hq.
  assert (Hdq : Zdigits2 (100 * 2 ^ (- e)) = 7 + - e).
  { rewrite Zdigits2_mul_pow2 by lia. reflexivity. }
  rewrite Hdq, fexp_double.
  replace (Z.max e (Z.max (7 + - e + e - 53) (-1074))) with (-46) by lia.
  assert (Hm1 : PyFloat.div_half_even (100 * n * 2 ^ (- e))
                  (n * 2 ^ (-46 - e)) = 7036874417766400).
  { replace (100 * n * 2 ^ (- e))
      with (7036874417766400 * (n * 2 ^ (-46 - e))).
    - apply div_half_even_exact.
      apply Z.mul_pos_pos; [lia | apply Z.pow_pos_nonneg; lia].
    - destruct Hsh as [E|E].
      + replace (-46 - e) with 0 by lia. rewrite E.
        change (2 ^ 0) with 1. change (2 ^ 46) with 70368744177664. lia.
      + replace (-46 - e) with 1 by lia. rewrite E.
        change (2 ^ 1) with 2. change (2 ^ 47) with 140737488355328. lia. }
  rewrite Hm1. reflexivity.
Qed.

(** X7: when every run went bankrupt the odds are exactly 100.0, and when
    none did they are exactly 0.0. *)
Theorem odds_at_the_ends (outcome : list Z) (bankrupt_count : Z)
  (s : Statistics) :
  bankrupt_prob outcome bankrupt_count = Ok s ->
  (bankrupt_count = len outcome -> odds s = PyFloat.hundred)
  /\ (bankrupt_count = 0 -> odds s = PyFloat.zero).
Proof.
  intros Hs.
  destruct (bankrupt_prob_Ok _ _ _ Hs) as (Hne & _ & _ & (q & Hq & ->) & _).
  pose proof (len_pos _ Hne) as Hlen. split; intros Hbc; subst.
  - rewrite int_truediv_hundred in Hq by exact Hlen.
    inversion Hq. reflexivity.
  - unfold PyFloat.int_truediv in Hq.
    destruct (Z.eqb_spec (len outcome) 0); [lia|].
    cbn in Hq. inversion Hq.
    replace (len outcome <? 0) with false
      by (symmetry; apply Z.ltb_ge; lia).
    reflexivity.
Qed.

Lemma odds_at_the_ends_witness :
  bankrupt_prob [0; 0] 2
  = Ok {| odds := PyFloat.hundred; average := 0;
          minimum := 0; maximum := 0 |}
  /\ (2 = len [0; 0] -> PyFloat.hundred = PyFloat.hundred)
  /\ (2 = 0 -> PyFloat.hundred = PyFloat.zero).
Proof.
  split; [vm_compute; reflexivity|].
  apply (odds_at_the_ends [0; 0] 2
           {| odds := PyFloat.hundred; average := 0;
              minimum := 0; maximum := 0 |}).
  vm_compute. reflexivity.
Defined.

(** * The guaranteed loss *)

Lemma year_total_loss (w v : Z) :
  Z.abs (v - w) <= 2 ^ 1023 ->
  year_investments total_loss_rate w v = Ok 0.
Proof.
  intros Hb. unfold year_investments.
  change (PyFloat.int_add 1 total_loss_rate) with (Ok (S754_zero false)).
  cbn [bind]. unfold PyFloat.int_mul.
  destruct (of_int_bounded (v - w) 1023 Hb ltac:(lia)) as (f & -> & Hf).
  cbn [bind].
  destruct f as [s|s| |s m e]; cbn [bounded_by] in Hf; try contradiction;
    reflexivity.
Qed.

Section GuaranteedLoss.

Context {G : Type} `{RandomGen G}.

Variable p : SimulationParameters.
Variable returns infl_rate : list PyFloat.float.

Hypothesis inputs_digits : digits_only p.
Hypothesis inputs_checked : check_inputs p = None.
Hypothesis start_bound : start_value p <= 2 ^ 1023.
Hypothesis returns_nonempty : returns <> [].
Hypothesis infl_nonempty : infl_rate <> [].
Hypothesis all_lost : Forall (eq total_loss_rate) returns.
Hypothesis a_year : samples_a_year p.

Lemma simulate_run_total_loss (g : G) :
  simulate_run p returns infl_rate g = Ok (0, true, advance p returns g).
Proof.
  pose proof (check_inputs_withdrawal p inputs_checked) as Hw.
  destruct inputs_digits as (_ & Hw0 & _).
  unfold simulate_run, randrange, advance. rewrite Z.sub_0_r.
  pose proof (len_pos _ returns_nonempty) as Hl. apply Z.ltb_lt in Hl.
  rewrite Hl. destruct (randbelow (len returns) g) as [r0 g1].
  cbn [bind snd].
  destruct (a_year g1) as (d & Hd & Hd1).
  destruct (triangular _ _ _ g1) as [t g2]. cbn [fst snd] in *.
  rewrite Hd. cbn [bind].
  destruct (build_lifespan_spec returns infl_rate returns_nonempty
              infl_nonempty (py_range (0 + r0) (0 + r0 + d)) [] [])
    as (rs & fs & -> & Lr & Lf & Hnth). cbn [bind app].
  rewrite py_range_length in Lr, Lf.
  replace (0 + r0 + d - (0 + r0)) with d in Lr, Lf by lia.
  assert (Hfirst : nth_error (py_range (0 + r0) (0 + r0 + d)) 0
                   = Some (0 + r0 + Z.of_nat 0)).
  { apply py_range_nth. lia. }
  destruct (Hnth _ _ Hfirst) as [(r & Er & Nr) (f & Ef & _)].
  destruct rs as [|r' rs]; [discriminate|].
  destruct fs as [|f' fs]; [discriminate|].
  cbn [nth_error] in Er, Ef. inversion Er; inversion Ef; subst r' f'.
  assert (Hr : r = total_loss_rate).
  { rewrite Forall_forall in all_lost. symmetry. apply all_lost.
    eapply nth_error_In; eauto. }
  subst r. cbn [retirement_years].
  change (py_index (f :: fs) (Z.of_nat 0)) with (@Ok PyFloat.float f).
  cbn [bind year_withdrawal].
  rewrite year_total_loss by lia. cbn [bind]. reflexivity.
Qed.

Lemma sim_loop_total_loss (n : nat) :
  forall bankrupt_count outcome g,
    sim_loop p returns infl_rate n bankrupt_count outcome g
    = Ok (outcome ++ repeat 0 n, bankrupt_count + Z.of_nat n,
          Nat.iter n (advance p returns) g).
Proof.
  induction n as [|n IH]; intros bc out g; cbn [sim_loop].
  - cbn [repeat Nat.iter nat_rect]. rewrite app_nil_r, Z.add_0_r.
    reflexivity.
  - rewrite simulate_run_total_loss. cbn [bind]. rewrite IH.
    rewrite <- app_assoc. cbn [app repeat].
    rewrite Nat.iter_succ_r. do 3 f_equal. lia.
Qed.

Lemma bankrupt_prob_all_zero (n : nat) :
  (0 < n)%nat ->
  bankrupt_prob (repeat 0 n) (Z.of_nat n)
  = Ok {| odds := PyFloat.hundred; average := 0;
          minimum := 0; maximum := 0 |}.
Proof.
  intros Hn.
  assert (Hlen : len (repeat 0 n) = Z.of_nat n)
    by (unfold len; rewrite repeat_length; reflexivity).
  assert (Hsum : py_sum (repeat 0 n) = 0).
  { clear. induction n as [|n IH]; [reflexivity|].
    cbn [repeat]. rewrite py_sum_cons, IH. reflexivity. }
  unfold bankrupt_prob. rewrite Hlen, Hsum.
  rewrite int_truediv_hundred by lia. cbn [bind].
  change (PyFloat.round1 PyFloat.hundred) with PyFloat.hundred.
  unfold PyFloat.int_truediv at 1.
  destruct (Z.eqb_spec (Z.of_nat n) 0); [lia|].
  change (0 =? 0) with true. cbn [bind PyFloat.to_int].
  destruct n as [|n]; [lia|]. cbn [repeat py_min py_max bind].
  assert (Hmin : fold_left Z.min (repeat 0 n) 0 = 0).
  { clear. induction n as [|n IH]; [reflexivity|]. exact IH. }
  assert (Hmax : fold_left Z.max (repeat 0 n) 0 = 0).
  { clear. induction n as [|n IH]; [reflexivity|]. exact IH. }
  rewrite Hmin, Hmax. reflexivity.
Qed.

(** X8: when every year of the return table is a total loss and every
    run lasts at least a year, every run is reported as 0 and the program
    prints odds of 100.0 with average, minimum and maximum 0. *)
Theorem guaranteed_loss_program (g : G) :
  1 <= num_sim p ->
  program p returns infl_rate g
  = Finished {| odds := PyFloat.hundred; average := 0;
                minimum := 0; maximum := 0 |}
      (repeat 0 (Z.to_nat (num_sim p))).
Proof.
  intros Hn. unfold program, simulator.
  rewrite inputs_checked, sim_loop_total_loss. cbn [app].
  rewrite Z.add_0_l, bankrupt_prob_all_zero by lia. reflexivity.
Qed.

End GuaranteedLoss.

Lemma five_runs_digits : digits_only Sample.five_runs.
Proof. unfold digits_only; simpl; lia. Qed.

Lemma total_loss_all_lost : Forall (eq total_loss_rate) Sample.total_loss.
Proof.
  apply Forall_forall. intros x Hx. apply repeat_spec in Hx. subst.
  vm_compute. reflexivity.
Qed.

Lemma steady_samples_a_year : samples_a_year (G := Steady) Sample.five_runs.
Proof.
  intros g. exists 2. split; [vm_compute; reflexivity | lia].
Qed.

Lemma guaranteed_loss_program_witness :
  digits_only Sample.five_runs
  /\ check_inputs Sample.five_runs = None
  /\ start_value Sample.five_runs <= 2 ^ 1023
  /\ Sample.total_loss <> []
  /\ Sample.no_inflation <> []
  /\ Forall (eq total_loss_rate) Sample.total_loss
  /\ samples_a_year (G := Steady) Sample.five_runs
  /\ 1 <= num_sim Sample.five_runs
  /\ program Sample.five_runs Sample.total_loss Sample.no_inflation
       {| steady_count := 0 |}
     = Finished {| odds := PyFloat.hundred; average := 0;
                   minimum := 0; maximum := 0 |}
         (repeat 0 (Z.to_nat (num_sim Sample.five_runs))).
Proof.
  split; [exact five_runs_digits|]. split; [reflexivity|].
  split; [vm_compute; discriminate|]. split; [discriminate|].
  split; [discriminate|]. split; [exact total_loss_all_lost|].
  split; [exact steady_samples_a_year|]. split; [simpl; lia|].
  apply (guaranteed_loss_program Sample.five_runs Sample.total_loss
           Sample.no_inflation five_runs_digits eq_refl).
  - vm_compute. discriminate.
  - discriminate.
  - discriminate.
  - exact total_loss_all_lost.
  - exact steady_samples_a_year.
  - simpl. lia.
Defined.

(** * Rounded fractions of bounded magnitude *)

(** A fraction [N / D * 2 ^ e] of at most the integer [M] rounds to at
    most [M]. *)
Lemma round_frac_le (s : bool) (N D e M : Z) :
  0 <= N -> 0 < D -> e <= 0 -> 0 <= M < 2 ^ 53 ->
  N <= M * D * 2 ^ (- e) ->
  round_frac s N D e = S754_zero s
  \/ exists m e2, round_frac s N D e = S754_finite s m e2
       /\ e2 <= 0 /\ Z.pos m <= M * 2 ^ (- e2).
Proof.
  intros HN HD He HM HNM. unfold round_frac.
  assert (Hsh : 0 < 2 ^ (- e)) by (apply Z.pow_pos_nonneg; lia).
  set (q0 := N / D).
  assert (Hq0 : 0 <= q0 < 2 ^ (53 + - e)).
  { split; [apply Z.div_pos; lia|].
    apply Z.div_lt_upper_bound; [lia|]. rewrite Z.pow_add_r by lia. nia. }
  pose proof (Zdigits2_nonneg q0) as Hdq0.
  pose proof (Zdigits2_le q0 (53 + - e) ltac:(lia) ltac:(lia) ltac:(lia))
    as Hdq.
  set (e1 := Z.max e (fexp PyFloat.prec PyFloat.emax (Zdigits2 q0 + e))).
  assert (He1 : e <= e1 <= 0) by (unfold e1; rewrite fexp_double; lia).
  assert (Hp1 : 0 < 2 ^ (e1 - e)) by (apply Z.pow_pos_nonneg; lia).
  assert (Hpk : 0 < 2 ^ (- e1)) by (apply Z.pow_pos_nonneg; lia).
  assert (Hsplit : 2 ^ (- e) = 2 ^ (- e1) * 2 ^ (e1 - e)).
  { rewrite <- Z.pow_add_r by lia. f_equal. lia. }
  set (m1 := PyFloat.div_half_even N (D * 2 ^ (e1 - e))).
  assert (Hm1 : 0 <= m1 <= M * 2 ^ (- e1)).
  { split.
    - apply div_half_even_nonneg; nia.
    - apply div_half_even_le; [lia | nia |]. rewrite Hsplit in HNM. nia. }
  assert (Hm1' : m1 < 2 ^ (53 - e1)).
  { replace (53 - e1) with (53 + - e1) by lia.
    rewrite Z.pow_add_r by lia. nia. }
  pose proof (Zdigits2_le m1 (53 - e1) ltac:(lia) ltac:(lia) Hm1') as Hd1.
  set (e2 := Z.max e1 (fexp PyFloat.prec PyFloat.emax (Zdigits2 m1 + e1))).
  assert (He2 : e1 <= e2 <= 0) by (unfold e2; rewrite fexp_double; lia).
  assert (Hp2 : 0 < 2 ^ (e2 - e1)) by (apply Z.pow_pos_nonneg; lia).
  assert (Hp3 : 0 < 2 ^ (- e2)) by (apply Z.pow_pos_nonneg; lia).
  assert (Hsplit2 : 2 ^ (- e1) = 2 ^ (- e2) * 2 ^ (e2 - e1)).
  { rewrite <- Z.pow_add_r by lia. f_equal. lia. }
  assert (Hm : 0 <= m1 / 2 ^ (e2 - e1) <= M * 2 ^ (- e2)).
  { split; [apply Z.div_pos; lia|].
    apply Z.div_le_upper_bound; [lia|]. rewrite Hsplit2 in Hm1. nia. }
  destruct (m1 / 2 ^ (e2 - e1)) as [|m|m] eqn:Em; [now left| |lia].
  replace (e2 <=? PyFloat.emax - PyFloat.prec) with true
    by (symmetry; apply Z.leb_le; cbn; lia).
  right. exists m, e2. repeat split; lia.
Qed.

(** A fraction of at least one unit in the last place, with the digits
    its exponent asks for and of magnitude at most [2 ^ B], rounds to a
    double of magnitude at most [2 ^ B]. *)
Lemma round_frac_bounded (s : bool) (N D e B : Z) :
  0 < D -> D <= N ->
  e <= fexp PyFloat.prec PyFloat.emax (Zdigits2 (N / D) + e) ->
  e <= B -> N <= 2 ^ (B - e) * D -> -1074 <= B <= 1023 ->
  bounded_by B (round_frac s N D e).
Proof.
  intros HD HDN Hdig HeB HNB HB. unfold round_frac.
  set (q0 := N / D) in *.
  assert (HpB : 0 < 2 ^ (B - e)) by (apply Z.pow_pos_nonneg; lia).
  assert (Hq0 : 1 <= q0 <= 2 ^ (B - e)).
  { split.
    - apply Z.div_le_lower_bound; lia.
    - apply Z.div_le_upper_bound; lia. }
  assert (HqD : q0 * D <= N).
  { unfold q0. rewrite Z.mul_comm. apply Z.mul_div_le. lia. }
  set (dq := Zdigits2 q0) in *.
  pose proof (Zdigits2_bounds q0 ltac:(lia)) as [Hql Hqh].
  fold dq in Hql, Hqh.
  pose proof (Zdigits2_pos q0 ltac:(lia)) as Hdq. fold dq in Hdq.
  assert (HdqB : dq <= B - e + 1).
  { apply Zdigits2_le; [lia | lia |].
    rewrite Z.pow_add_r by lia. change (2 ^ 1) with 2. lia. }
  rewrite fexp_double in Hdig.
  set (e1 := Z.max e (fexp PyFloat.prec PyFloat.emax (dq + e))).
  assert (He1 : e1 = Z.max (dq + e - 53) (-1074))
    by (unfold e1; rewrite fexp_double; lia).
  assert (He1e : e <= e1 <= B) by lia.
  assert (Hp1 : 0 < 2 ^ (e1 - e)) by (apply Z.pow_pos_nonneg; lia).
  assert (Hsplit : 2 ^ (B - e) = 2 ^ (B - e1) * 2 ^ (e1 - e)).
  { rewrite <- Z.pow_add_r by lia. f_equal. lia. }
  set (m1 := PyFloat.div_half_even N (D * 2 ^ (e1 - e))).
  assert (Hm1h : m1 <= 2 ^ (B - e1)).
  { apply div_half_even_le; [lia | nia |]. rewrite Hsplit in HNB. nia. }
  assert (Hfl : q0 / 2 ^ (e1 - e) * 2 ^ (e1 - e) <= q0).
  { rewrite Z.mul_comm. apply Z.mul_div_le. lia. }
  assert (Hfl0 : 0 <= q0 / 2 ^ (e1 - e)) by (apply Z.div_pos; lia).
  assert (Hm1l : q0 / 2 ^ (e1 - e) <= m1).
  { apply div_half_even_ge; [lia | nia |]. nia. }
  assert (Hm10 : 0 <= m1) by lia.
  assert (HpB1 : 0 < 2 ^ (B - e1)) by (apply Z.pow_pos_nonneg; lia).
  assert (Hdm1 : Zdigits2 m1 <= B - e1 + 1).
  { apply Zdigits2_le; [lia | lia |].
    rewrite Z.pow_add_r by lia. change (2 ^ 1) with 2. lia. }
  pose proof (Zdigits2_nonneg m1) as Hdm10.
  set (e2 := Z.max e1 (fexp PyFloat.prec PyFloat.emax (Zdigits2 m1 + e1))).
  assert (He2 : e2 = Z.max e1 (Z.max (Zdigits2 m1 + e1 - 53) (-1074)))
    by (unfold e2; rewrite fexp_double; reflexivity).
  assert (He2b : e1 <= e2 <= B /\ e2 <= 971) by lia.
  assert (Hp2 : 0 < 2 ^ (e2 - e1)) by (apply Z.pow_pos_nonneg; lia).
  assert (Hsplit2 : 2 ^ (B - e1) = 2 ^ (B - e2) * 2 ^ (e2 - e1)).
  { rewrite <- Z.pow_add_r by lia. f_equal. lia. }
  assert (Hm : 0 <= m1 / 2 ^ (e2 - e1) <= 2 ^ (B - e2)).
  { split; [apply Z.div_pos; lia|].
    apply Z.div_le_upper_bound; [lia|]. rewrite Z.mul_comm, <- Hsplit2.
    exact Hm1h. }
  destruct (m1 / 2 ^ (e2 - e1)) as [|m|m] eqn:Em; [exact I| |lia].
  replace (e2 <=? PyFloat.emax - PyFloat.prec) with true
    by (symmetry; apply Z.leb_le; cbn; lia).
  cbn [bounded_by]. split; [|lia].
  unfold canonical. rewrite fexp_double.
  change (Z.pos (digits2_pos m)) with (Zdigits2 (Z.pos m)). rewrite <- Em.
  destruct (Z.eq_dec e2 e1) as [Eq|Neq].
  - rewrite Eq, Z.sub_diag. change (2 ^ 0) with 1. rewrite Z.div_1_r.
    destruct (Z.eq_dec e1 (-1074)) as [Emin|Hnorm]; [lia|].
    assert (Hk : e1 - e = dq - 53) by lia.
    assert (H52 : 2 ^ 52 <= q0 / 2 ^ (e1 - e)).
    { apply Z.div_le_lower_bound; [lia|].
      rewrite Hk, <- Z.pow_add_r by lia.
      replace (dq - 53 + 52) with (dq - 1) by lia. exact Hql. }
    pose proof (Zdigits2_ge m1 52 ltac:(lia) ltac:(lia)). lia.
  - assert (Hm1big : 2 ^ (e2 - e1) <= m1).
    { destruct (Z.le_gt_cases (2 ^ (e2 - e1)) m1) as [L|L]; [exact L|].
      rewrite Z.div_small in Em by lia. discriminate. }
    rewrite Zdigits2_div_pow2 by lia. lia.
Qed.

(** The quotient of two positive ints in the normal range. *)
Lemma SFdiv_ints_bounded (sa sb : bool) (a b : positive) (B : Z) :
  Zdigits2 (Z.pos b) <= Zdigits2 (Z.pos a) + 1021 ->
  Z.pos a <= 2 ^ B * Z.pos b -> 0 <= B <= 1023 ->
  bounded_by B
    (SFdiv PyFloat.prec PyFloat.emax
       (S754_finite sa a 0) (S754_finite sb b 0)).
Proof.
  intros Hnorm Hab HB. rewrite SFdiv_finite.
  rewrite !Z.add_0_r, Z.sub_0_r, fexp_double.
  set (da := Zdigits2 (Z.pos a)) in *. set (db := Zdigits2 (Z.pos b)) in *.
  pose proof (Zdigits2_bounds (Z.pos a) ltac:(lia)) as [Hal Hah].
  pose proof (Zdigits2_bounds (Z.pos b) ltac:(lia)) as [Hbl Hbh].
  fold da in Hal, Hah. fold db in Hbl, Hbh.
  pose proof (Zdigits2_pos (Z.pos a) ltac:(lia)) as Hda. fold da in Hda.
  pose proof (Zdigits2_pos (Z.pos b) ltac:(lia)) as Hdb. fold db in Hdb.
  set (e := Z.min (Z.max (da - db - 53) (-1074)) 0).
  assert (He : e = Z.min (da - db - 53) 0) by (unfold e; lia).
  replace (0 - e) with (- e) by lia.
  assert (Hsh : 0 < 2 ^ (- e)) by (apply Z.pow_pos_nonneg; lia).
  assert (HpB : 0 < 2 ^ B) by (apply Z.pow_pos_nonneg; lia).
  (* the quotient has at least 53 digits *)
  assert (Hbig : 2 ^ 52 * Z.pos b <= Z.pos a * 2 ^ (- e)).
  { destruct (Z.le_gt_cases (da - db - 53) 0) as [L|L].
    - replace (- e) with (53 + db - da) by lia.
      apply Z.le_trans with (2 ^ 52 * 2 ^ db); [nia|].
      apply Z.le_trans with (2 ^ (da - 1) * 2 ^ (53 + db - da)).
      + rewrite <- !Z.pow_add_r by lia.
        apply Z.pow_le_mono_r; lia.
      + assert (0 < 2 ^ (53 + db - da)) by (apply Z.pow_pos_nonneg; lia).
        nia.
    - replace (- e) with 0 by lia. change (2 ^ 0) with 1.
      apply Z.le_trans with (2 ^ 52 * 2 ^ db); [nia|].
      apply Z.le_trans with (2 ^ (da - 1)); [|lia].
      rewrite <- Z.pow_add_r by lia. apply Z.pow_le_mono_r; lia. }
  assert (H52 : 0 < 2 ^ 52) by reflexivity.
  assert (Hb52 : Z.pos b <= 2 ^ 52 * Z.pos b).
  { change (2 ^ 52) with 4503599627370496. lia. }
  apply round_frac_bounded; try lia.
  - rewrite fexp_double.
    assert (2 ^ 52 <= Z.pos a * 2 ^ (- e) / Z.pos b)
      by (apply Z.div_le_lower_bound; lia).
    pose proof (Zdigits2_ge (Z.pos a * 2 ^ (- e) / Z.pos b) 52
                  ltac:(lia) ltac:(lia)).
    lia.
  - replace (B - e) with (B + - e) by lia.
    rewrite Z.pow_add_r by lia. nia.
Qed.

(** * Loading a file of percentages *)

Lemma of_int_hundred : PyFloat.of_int 100 = Ok PyFloat.hundred.
Proof. reflexivity. Qed.

(** A percentage divided by 100 is a number of magnitude at most 1. *)
Lemma percentage_div_hundred (line : PyFloat.float) :
  percentage line ->
  exists x, float_div_int line 100 = Ok x /\ at_most 1 x.
Proof.
  intros Hp. unfold float_div_int. rewrite of_int_hundred. cbn [bind].
  unfold PyFloat.hundred.
  destruct line as [s| | |s m e]; try contradiction.
  - exists (S754_zero (xorb s false)). split; [reflexivity | exact I].
  - rewrite SFdiv_finite.
    unfold percentage, at_most in Hp.
    set (dm := Zdigits2 (Z.pos m)).
    replace (Zdigits2 7036874417766400) with 53 by reflexivity.
    rewrite fexp_double.
    pose proof (Zdigits2_pos (Z.pos m) ltac:(lia)) as Hdm. fold dm in Hdm.
    assert (Hdig : dm + e <= 7).
    { destruct (Z.le_gt_cases 0 e) as [L|L].
      - rewrite Z.max_l in Hp by lia. rewrite Z.max_r in Hp by lia.
        change (2 ^ 0) with 1 in Hp.
        unfold dm. rewrite <- Zdigits2_mul_pow2 by lia.
        assert (0 < 2 ^ e) by (apply Z.pow_pos_nonneg; lia).
        apply Zdigits2_le; [nia | lia |].
        change (2 ^ 7) with 128. lia.
      - rewrite Z.max_r in Hp by lia. rewrite Z.max_l in Hp by lia.
        change (2 ^ 0) with 1 in Hp.
        assert (0 < 2 ^ (- e)) by (apply Z.pow_pos_nonneg; lia).
        assert (dm <= 7 + - e); [|lia].
        apply Zdigits2_le; [lia | lia |].
        rewrite Z.pow_add_r by lia. change (2 ^ 7) with 128. lia. }
    set (e' := Z.min (Z.max (dm + e - (53 + -46) - 53) (-1074)) (e - -46)).
    assert (He' : e' <= 0 /\ e' <= e + 46) by (unfold e'; lia).
    assert (Hsh : 0 < 2 ^ (- e')) by (apply Z.pow_pos_nonneg; lia).
    assert (HN : Z.pos m * 2 ^ (e - -46 - e')
                 <= 1 * 7036874417766400 * 2 ^ (- e')).
    { change 7036874417766400 with (100 * 2 ^ 46).
      destruct (Z.le_gt_cases 0 e) as [L|L].
      - rewrite Z.max_l in Hp by lia. rewrite Z.max_r in Hp by lia.
        change (2 ^ 0) with 1 in Hp.
        replace (e - -46 - e') with (e + (46 + - e')) by lia.
        rewrite !Z.pow_add_r by lia.
        assert (0 < 2 ^ 46) by reflexivity.
        assert (0 < 2 ^ e) by (apply Z.pow_pos_nonneg; lia).
        nia.
      - rewrite Z.max_r in Hp by lia. rewrite Z.max_l in Hp by lia.
        change (2 ^ 0) with 1 in Hp.
        assert (Hs : 2 ^ (- e) * 2 ^ (e - -46 - e') = 2 ^ 46 * 2 ^ (- e')).
        { rewrite <- !Z.pow_add_r by lia. f_equal. lia. }
        assert (0 < 2 ^ (e - -46 - e')) by (apply Z.pow_pos_nonneg; lia).
        assert (0 < 2 ^ (- e)) by (apply Z.pow_pos_nonneg; lia).
        nia. }
    assert (HN0 : 0 <= Z.pos m * 2 ^ (e - -46 - e')).
    { assert (0 < 2 ^ (e - -46 - e')) by (apply Z.pow_pos_nonneg; lia).
      nia. }
    destruct (round_frac_le (xorb s false) _ 7036874417766400 e' 1
                HN0 ltac:(lia) ltac:(lia) ltac:(cbn; lia) HN)
      as [E|(m2 & e2 & E & He2 & Hm2)].
    + rewrite E. eexists. split; [reflexivity | exact I].
    + rewrite E. eexists. split; [reflexivity|].
      cbn [at_most]. rewrite Z.max_r by lia. rewrite Z.max_l by lia.
      change (2 ^ 0) with 1. lia.
Qed.

(** Rounding a number of magnitude at most 1 to five decimals gives a
    double of magnitude at most 1. *)
Lemma round5_modest (x : PyFloat.float) :
  at_most 1 x -> modest_rate (round5 x).
Proof.
  intros Hx. destruct x as [s| | |s m e]; try contradiction.
  - exact I.
  - cbn [at_most] in Hx. unfold round5.
    set (units := if 0 <=? e then 100000 * Z.pos m * 2 ^ e
                  else PyFloat.div_half_even (100000 * Z.pos m) (2 ^ (- e))).
    assert (Hu : 0 <= units <= 100000).
    { unfold units. destruct (0 <=? e) eqn:Ee.
      - apply Z.leb_le in Ee.
        rewrite Z.max_l in Hx by lia. rewrite Z.max_r in Hx by lia.
        change (2 ^ 0) with 1 in Hx.
        assert (0 < 2 ^ e) by (apply Z.pow_pos_nonneg; lia). nia.
      - apply Z.leb_gt in Ee.
        rewrite Z.max_r in Hx by lia. rewrite Z.max_l in Hx by lia.
        change (2 ^ 0) with 1 in Hx.
        assert (0 < 2 ^ (- e)) by (apply Z.pow_pos_nonneg; lia).
        split.
        + apply div_half_even_nonneg; lia.
        + apply div_half_even_le; lia. }
    destruct units as [|k|k]; [exact I| |lia].
    apply SFdiv_ints_bounded.
    + pose proof (Zdigits2_pos (Z.pos k) ltac:(lia)).
      replace (Zdigits2 100000) with 17 by reflexivity. lia.
    + change (2 ^ 0) with 1. lia.
    + lia.
Qed.

(** X9: every percentage between -100 and 100 loads: [read_to_list]
    divides and rounds without an error, keeps one entry a line, and
    every entry is a double of magnitude at most 1. *)
Theorem read_to_list_percentages (lines : list PyFloat.float) :
  Forall percentage lines ->
  exists decimal,
    read_to_list lines = Ok decimal
    /\ length decimal = length lines
    /\ Forall modest_rate decimal.
Proof.
  induction 1 as [|line rest Hline _ (decimal & E & Hlen & Hall)].
  - exists []. repeat split. constructor.
  - destruct (percentage_div_hundred line Hline) as (x & Ex & Hx).
    exists (round5 x :: decimal). cbn [read_to_list].
    rewrite Ex. cbn [bind]. rewrite E. cbn [bind].
    split; [reflexivity|]. split; [cbn; lia|].
    constructor; [apply round5_modest; exact Hx | exact Hall].
Qed.

Lemma read_to_list_percentages_witness :
  Forall percentage [Sample.ratio 5 1; Sample.ratio (-25) 2]
  /\ exists decimal,
       read_to_list [Sample.ratio 5 1; Sample.ratio (-25) 2] = Ok decimal
       /\ length decimal = length [Sample.ratio 5 1; Sample.ratio (-25) 2]
       /\ Forall modest_rate decimal.
Proof.
  assert (Hp : Forall percentage [Sample.ratio 5 1; Sample.ratio (-25) 2]).
  { repeat constructor; vm_compute; discriminate. }
  split; [exact Hp|].
  exact (read_to_list_percentages _ Hp).
Defined.

(** * A program that runs to its end *)




Section BoundedOutcomes.

Context {G : Type} `{RandomGen G}.

Variable p : SimulationParameters.
Variable returns infl_rate : list PyFloat.float.

Variable B0 : Z.
Hypothesis B0_nonneg : 0 <= B0.
Hypothesis withdrawal_bound : Z.abs (withdrawal p) <= 2 ^ B0.


Hypothesis returns_nonempty : returns <> [].
Hypothesis infl_nonempty : infl_rate <> [].
Hypothesis returns_modest : Forall modest_rate returns.
Hypothesis infl_modest : Forall modest_rate infl_rate.
Hypothesis valid : valid_parameters p.
Hypothesis start_bound : start_value p <= 2 ^ B0.
Hypothesis B0_small : B0 <= 726.
Hypothesis samples : honours_range p.



End BoundedOutcomes.




(** * Statistics and the order of the runs *)

Lemma py_sum_permutation (l l' : list Z) :
  Permutation l l' -> py_sum l = py_sum l'.
Proof.
  induction 1 as [|x l l' _ IH|x y l|l l' l'' _ IH1 _ IH2].
  - reflexivity.
  - rewrite !py_sum_cons, IH. reflexivity.
  - rewrite !py_sum_cons. lia.
  - congruence.
Qed.

Lemma is_minimum_unique (a b : Z) (l l' : list Z) :
  (forall x, In x l <-> In x l') ->
  is_minimum a l -> is_minimum b l' -> a = b.
Proof.
  intros Hin [Ha Hla] [Hb Hlb].
  pose proof (Hla b (proj2 (Hin b) Hb)).
  pose proof (Hlb a (proj1 (Hin a) Ha)). lia.
Qed.

Lemma is_maximum_unique (a b : Z) (l l' : list Z) :
  (forall x, In x l <-> In x l') ->
  is_maximum a l -> is_maximum b l' -> a = b.
Proof.
  intros Hin [Ha Hla] [Hb Hlb].
  pose proof (Hla b (proj2 (Hin b) Hb)).
  pose proof (Hlb a (proj1 (Hin a) Ha)). lia.
Qed.

(** X11: the statistics do not depend on the order of the runs. *)
Theorem bankrupt_prob_permutation (outcome outcome' : list Z)
  (bankrupt_count : Z) :
  Permutation outcome outcome' ->
  bankrupt_prob outcome bankrupt_count
  = bankrupt_prob outcome' bankrupt_count.
Proof.
  intros Hperm.
  assert (Hin : forall x, In x outcome <-> In x outcome').
  { intros x. split; apply Permutation_in;
      [exact Hperm | apply Permutation_sym, Hperm]. }
  unfold bankrupt_prob, len.
  rewrite (Permutation_length Hperm), (py_sum_permutation _ _ Hperm).
  assert (Hmin : py_min outcome = py_min outcome'
                 /\ py_max outcome = py_max outcome').
  { destruct outcome as [|x l]; destruct outcome' as [|y l'].
    - split; reflexivity.
    - apply Permutation_length in Hperm. discriminate.
    - apply Permutation_length in Hperm. discriminate.
    - cbn [py_min py_max]. split; f_equal.
      + exact (is_minimum_unique _ _ _ _ Hin (fold_left_min_spec l x)
                 (fold_left_min_spec l' y)).
      + exact (is_maximum_unique _ _ _ _ Hin (fold_left_max_spec l x)
                 (fold_left_max_spec l' y)). }
  destruct Hmin as [-> ->]. reflexivity.
Qed.

(** * The bar chart *)

(** X12: after a complete run on inputs that passed the prompts, the
    chart has one bar for each of the first [min(3000, num_sim)] runs, in
    the order of the runs, at positions 1, 2, 3, ... *)
Theorem chart_shows_first_runs {G : Type} `{RandomGen G}
  (p : SimulationParameters) (returns infl_rate : list PyFloat.float)
  (g : G) (s : Statistics) (outcome : list Z) :
  digits_only p ->
  program p returns infl_rate g = Finished s outcome ->
  len (plot_data outcome) = Z.min 3000 (num_sim p)
  /\ len (bar_index (plot_data outcome)) = len (plot_data outcome)
  /\ forall k, (Z.of_nat k < Z.min 3000 (num_sim p)) ->
       nth_error (bar_index (plot_data outcome)) k = Some (Z.of_nat k + 1)
       /\ nth_error (plot_data outcome) k = nth_error outcome k.
Proof.
  intros Hdigits Hrun. unfold program in Hrun.
  destruct (check_inputs p) as [why|] eqn:Hcheck; [discriminate|].
  destruct (simulator p returns infl_rate g) as [[[out bc] g']|e] eqn:Hsim;
    [|discriminate].
  destruct (bankrupt_prob out bc) as [s'|e] eqn:Hstat; [|discriminate].
  inversion Hrun; subst s' out.
  pose proof (checked_start_positive p Hdigits Hcheck) as Hstart.
  destruct (simulator_spec p returns infl_rate _ _ _ _ Hstart Hsim)
    as (Hlen & _ & _).
  destruct Hdigits as (_ & _ & _ & _ & _ & Hn).
  assert (Hplot : len (plot_data outcome) = Z.min 3000 (num_sim p)).
  { unfold len, plot_data. rewrite length_firstn, Hlen. lia. }
  split; [exact Hplot|]. split.
  - unfold bar_index, len at 1.
    rewrite length_map, py_range_length. lia.
  - intros k Hk. split.
    + unfold bar_index. rewrite nth_error_map, py_range_nth by lia.
      cbn [option_map]. reflexivity.
    + unfold plot_data. rewrite nth_error_firstn.
      destruct (Nat.ltb_spec k 3000) as [_|L]; [reflexivity | lia].
Qed.

Lemma bankrupt_prob_permutation_witness :
  Permutation [108900; 0] [0; 108900]
  /\ bankrupt_prob [108900; 0] 1 = bankrupt_prob [0; 108900] 1.
Proof.
  split; [apply perm_swap|].
  apply (bankrupt_prob_permutation [108900; 0] [0; 108900] 1).
  apply perm_swap.
Defined.

Lemma chart_shows_first_runs_witness :
  digits_only Sample.two_runs
  /\ program Sample.two_runs Sample.boom_bust Sample.no_inflation
       Sample.two_draws
     = Finished {| odds := Sample.ratio 50 1; average := 54450;
                   minimum := 0; maximum := 108900 |} [108900; 0]
  /\ len (plot_data [108900; 0]) = Z.min 3000 (num_sim Sample.two_runs)
  /\ len (bar_index (plot_data [108900; 0])) = len (plot_data [108900; 0])
  /\ forall k, Z.of_nat k < Z.min 3000 (num_sim Sample.two_runs) ->
       nth_error (bar_index (plot_data [108900; 0])) k
       = Some (Z.of_nat k + 1)
       /\ nth_error (plot_data [108900; 0]) k = nth_error [108900; 0] k.
Proof.
  split; [exact two_runs_digits|]. split; [exact two_runs_program|].
  exact (chart_shows_first_runs Sample.two_runs Sample.boom_bust
           Sample.no_inflation Sample.two_draws _ _ two_runs_digits
           two_runs_program).
Defined.

(** * Years without inflation or return *)

(** A number that already fits its exponent rounds to itself. *)
Lemma round_frac_fits (s : bool) (m : positive) (e k : Z) :
  fexp PyFloat.prec PyFloat.emax (Zdigits2 (Z.pos m) + e) = e ->
  e <= 971 -> 0 <= k ->
  round_frac s (Z.pos m * 2 ^ k) 1 (e - k) = S754_finite s m e.
Proof.
  intros Hcan He Hk. unfold round_frac.
  assert (Hp : 0 < 2 ^ k) by (apply Z.pow_pos_nonneg; lia).
  rewrite Z.div_1_r, Z.mul_1_l, Zdigits2_mul_pow2 by lia.
  replace (Zdigits2 (Z.pos m) + k + (e - k)) with (Zdigits2 (Z.pos m) + e)
    by lia.
  rewrite Hcan. replace (Z.max (e - k) e) with e by lia.
  replace (e - (e - k)) with k by lia.
  rewrite div_half_even_exact by lia.
  rewrite Hcan, Z.max_id, Z.sub_diag. change (2 ^ 0) with 1.
  rewrite Z.div_1_r.
  replace (e <=? PyFloat.emax - PyFloat.prec) with true
    by (symmetry; apply Z.leb_le; cbn; lia).
  reflexivity.
Qed.

(** An int below [2 ^ 53] in magnitude converts to a float without
    rounding, and multiplying that float by [1.0] leaves it as it is. *)
Lemma of_int_small (n : Z) :
  Z.abs n < 2 ^ 53 ->
  exists f, PyFloat.of_int n = Ok f
    /\ PyFloat.to_int f = Ok n
    /\ PyFloat.mul f (S754_finite false 4503599627370496 (-52)) = f.
Proof.
  intros Hn. unfold PyFloat.of_int.
  destruct n as [|m|m]; cbn [binary_normalize].
  - exists (S754_zero false). repeat split.
  - assert (Hm : Z.pos m < 2 ^ 53) by lia.
    unfold binary_round.
    pose proof (Zdigits2_pos (Z.pos m) ltac:(lia)) as Hd1.
    pose proof (Zdigits2_le (Z.pos m) 53 ltac:(lia) ltac:(lia) Hm) as Hd2.
    change (Z.pos (digits2_pos m)) with (Zdigits2 (Z.pos m)).
    rewrite Z.add_0_r, fexp_double.
    set (d := Zdigits2 (Z.pos m)) in *.
    replace (Z.max (d - 53) (-1074)) with (d - 53) by lia.
    pose proof (shl_align_fst m 0 (d - 53) ltac:(lia)) as Hfst.
    assert (Hsnd : snd (shl_align m 0 (d - 53)) = d - 53).
    { unfold shl_align. destruct (d - 53 - 0) eqn:E; cbn [snd]; lia. }
    destruct (shl_align m 0 (d - 53)) as [mz ez]. cbn [fst snd] in Hfst, Hsnd.
    subst ez. rewrite binary_round_aux_exact by lia.
    assert (Hdz : Zdigits2 (Z.pos mz) = 53).
    { rewrite Hfst, Zdigits2_mul_pow2 by lia. fold d. lia. }
    assert (Hcan : fexp PyFloat.prec PyFloat.emax
                     (Zdigits2 (Z.pos mz) + (d - 53)) = d - 53)
      by (rewrite Hdz, fexp_double; lia).
    pose proof (round_frac_fits false mz (d - 53) 0 Hcan ltac:(lia)
                  ltac:(lia)) as E0.
    change (2 ^ 0) with 1 in E0. rewrite Z.mul_1_r, Z.sub_0_r in E0.
    rewrite E0. eexists. split; [reflexivity|]. split.
    + cbn [PyFloat.to_int cond_Zopp]. f_equal.
      rewrite <- (Z.opp_involutive (d - 53)).
      rewrite Z.shiftl_opp_r, Z.shiftr_div_pow2, Hfst by lia.
      replace (0 - (d - 53)) with (- (d - 53)) by lia.
      apply Z.div_mul. apply Z.pow_nonzero; lia.
    + unfold PyFloat.mul, SFmul. cbn [xorb].
      rewrite binary_round_aux_exact by lia.
      change (Z.pos (mz * 4503599627370496))
        with (Z.pos mz * 2 ^ 52).
      replace (d - 53 + -52) with (d - 53 - 52) by lia.
      apply round_frac_fits; [exact Hcan | lia | lia].
  - assert (Hm : Z.pos m < 2 ^ 53) by lia.
    unfold binary_round.
    pose proof (Zdigits2_pos (Z.pos m) ltac:(lia)) as Hd1.
    pose proof (Zdigits2_le (Z.pos m) 53 ltac:(lia) ltac:(lia) Hm) as Hd2.
    change (Z.pos (digits2_pos m)) with (Zdigits2 (Z.pos m)).
    rewrite Z.add_0_r, fexp_double.
    set (d := Zdigits2 (Z.pos m)) in *.
    replace (Z.max (d - 53) (-1074)) with (d - 53) by lia.
    pose proof (shl_align_fst m 0 (d - 53) ltac:(lia)) as Hfst.
    assert (Hsnd : snd (shl_align m 0 (d - 53)) = d - 53).
    { unfold shl_align. destruct (d - 53 - 0) eqn:E; cbn [snd]; lia. }
    destruct (shl_align m 0 (d - 53)) as [mz ez]. cbn [fst snd] in Hfst, Hsnd.
    subst ez. rewrite binary_round_aux_exact by lia.
    assert (Hdz : Zdigits2 (Z.pos mz) = 53).
    { rewrite Hfst, Zdigits2_mul_pow2 by lia. fold d. lia. }
    assert (Hcan : fexp PyFloat.prec PyFloat.emax
                     (Zdigits2 (Z.pos mz) + (d - 53)) = d - 53)
      by (rewrite Hdz, fexp_double; lia).
    pose proof (round_frac_fits true mz (d - 53) 0 Hcan ltac:(lia)
                  ltac:(lia)) as E0.
    change (2 ^ 0) with 1 in E0. rewrite Z.mul_1_r, Z.sub_0_r in E0.
    rewrite E0. eexists. split; [reflexivity|]. split.
    + cbn [PyFloat.to_int cond_Zopp]. f_equal.
      rewrite <- (Z.opp_involutive (d - 53)).
      rewrite Z.shiftl_opp_r, Z.shiftr_div_pow2, Hfst by lia.
      replace (0 - (d - 53)) with (- (d - 53)) by lia.
      rewrite Z.div_mul by (apply Z.pow_nonzero; lia). reflexivity.
    + unfold PyFloat.mul, SFmul. cbn [xorb].
      rewrite binary_round_aux_exact by lia.
      change (Z.pos (mz * 4503599627370496))
        with (Z.pos mz * 2 ^ 52).
      replace (d - 53 + -52) with (d - 53 - 52) by lia.
      apply round_frac_fits; [exact Hcan | lia | lia].
Qed.

(** Growth at a rate of [0.0] changes nothing below [2 ^ 53]. *)
Lemma grow_flat (n : Z) :
  Z.abs n < 2 ^ 53 ->
  (growth <- PyFloat.int_add 1 PyFloat.zero ;;
   x <- PyFloat.int_mul n growth ;;
   PyFloat.to_int x) = Ok n.
Proof.
  intros Hn.
  change (PyFloat.int_add 1 PyFloat.zero)
    with (Ok (S754_finite false 4503599627370496 (-52))).
  cbn [bind]. unfold PyFloat.int_mul.
  destruct (of_int_small n Hn) as (f & -> & Hint & Hmul). cbn [bind].
  rewrite Hmul. exact Hint.
Qed.

Section FlatYears.

Context {G : Type} `{RandomGen G}.

Variable p : SimulationParameters.
Variable returns infl_rate : list PyFloat.float.

Hypothesis withdrawal_range : 0 <= withdrawal p < 2 ^ 53.

Lemma retirement_years_flat (lifespan_returns lifespan_infl : list PyFloat.float) :
  Forall (eq PyFloat.zero) lifespan_infl ->
  forall index w v,
    Forall (eq PyFloat.zero) lifespan_returns ->
    (index + length lifespan_returns <= length lifespan_infl)%nat ->
    (index <> 0%nat -> w = withdrawal p) ->
    0 < v < 2 ^ 53 ->
    exists final,
      retirement_years p index lifespan_returns lifespan_infl w v
      = Ok (v - len lifespan_returns * withdrawal p <=? 0, final)
      /\ (0 < v - len lifespan_returns * withdrawal p ->
          final = v - len lifespan_returns * withdrawal p).
Proof.
  intros Hinfl.
  induction lifespan_returns as [|i rest IH];
    intros index w v Hret Hlen Hw Hv; cbn [retirement_years].
  - exists v. unfold len. cbn [length Z.of_nat].
    rewrite Z.mul_0_l, Z.sub_0_r.
    replace (v <=? 0) with false by (symmetry; apply Z.leb_gt; lia).
    split; [reflexivity | reflexivity].
  - cbn [length] in Hlen. inversion Hret as [|? ? Hi Hrest]; subst.
    destruct (py_index_in_range lifespan_infl (Z.of_nat index))
      as (infl & -> & Hnth); [unfold len; lia|]. cbn [bind].
    rewrite Nat2Z.id in Hnth.
    assert (Hz : infl = PyFloat.zero).
    { rewrite Forall_forall in Hinfl. symmetry. apply Hinfl.
      eapply nth_error_In; eauto. }
    subst infl.
    assert (Hyw : year_withdrawal p index PyFloat.zero w
                  = Ok (withdrawal p)).
    { destruct index as [|k]; cbn [year_withdrawal]; [reflexivity|].
      rewrite (Hw ltac:(discriminate)). apply grow_flat. lia. }
    rewrite Hyw. cbn [bind]. unfold year_investments.
    rewrite grow_flat by lia. cbn [bind].
    assert (Hl : len (PyFloat.zero :: rest) = len rest + 1)
      by (unfold len; cbn [length]; lia).
    assert (Hr0 : 0 <= len rest) by (unfold len; lia).
    rewrite Hl.
    destruct (Z.leb_spec (v - withdrawal p) 0) as [Hb|Hb].
    + exists (v - withdrawal p).
      replace (v - (len rest + 1) * withdrawal p <=? 0) with true
        by (symmetry; apply Z.leb_le; nia).
      split; [reflexivity | nia].
    + destruct (IH (S index) (withdrawal p) (v - withdrawal p) Hrest
                  ltac:(lia) ltac:(reflexivity) ltac:(lia))
        as (final & E & Hfinal).
      exists final. rewrite E.
      replace (v - (len rest + 1) * withdrawal p)
        with (v - withdrawal p - len rest * withdrawal p) by lia.
      split; [reflexivity | exact Hfinal].
Qed.

Hypothesis start_range : 0 < start_value p < 2 ^ 53.
Hypothesis returns_nonempty : returns <> [].
Hypothesis infl_nonempty : infl_rate <> [].
Hypothesis returns_flat : Forall (eq PyFloat.zero) returns.
Hypothesis infl_flat : Forall (eq PyFloat.zero) infl_rate.

(** X13: with returns and inflation of 0.0 throughout and amounts below
    2^53, a run of [duration] years ends with the starting value less
    [duration] withdrawals; it is bankrupt, and reported as 0, exactly
    when that is not positive. *)
Theorem flat_run (g : G) (duration : Z) :
  PyFloat.to_int
    (fst (triangular (min_years p) (max_years p) (most_likely_years p)
            (snd (randbelow (len returns) g))))
  = Ok duration ->
  0 <= duration ->
  simulate_run p returns infl_rate g
  = Ok (Z.max (start_value p - duration * withdrawal p) 0,
        start_value p - duration * withdrawal p <=? 0,
        advance p returns g).
Proof.
  intros Hd Hd0.
  unfold simulate_run, randrange, advance. rewrite Z.sub_0_r.
  pose proof (len_pos _ returns_nonempty) as Hl. apply Z.ltb_lt in Hl.
  rewrite Hl. destruct (randbelow (len returns) g) as [r0 g1].
  cbn [bind snd] in *.
  destruct (triangular _ _ _ g1) as [t g2]. cbn [fst snd] in *.
  rewrite Hd. cbn [bind].
  destruct (build_lifespan_spec returns infl_rate returns_nonempty
              infl_nonempty (py_range (0 + r0) (0 + r0 + duration)) [] [])
    as (rs & fs & -> & Lr & Lf & Hnth). cbn [bind app].
  rewrite py_range_length in Lr, Lf.
  replace (0 + r0 + duration - (0 + r0)) with duration in Lr, Lf by lia.
  assert (Hoff : forall k, (k < Z.to_nat duration)%nat ->
            nth_error (py_range (0 + r0) (0 + r0 + duration)) k
            = Some (0 + r0 + Z.of_nat k)).
  { intros k Hk. apply py_range_nth.
    replace (0 + r0 + duration - (0 + r0)) with duration by lia. exact Hk. }
  assert (Hrs : Forall (eq PyFloat.zero) rs).
  { apply Forall_forall. intros x Hx. apply In_nth_error in Hx as [k Hk].
    assert (Hklen : (k < Z.to_nat duration)%nat)
      by (rewrite <- Lr; apply nth_error_Some; congruence).
    destruct (Hnth k _ (Hoff k Hklen)) as [(r & Er & Nr) _].
    rewrite Forall_forall in returns_flat. apply returns_flat.
    replace x with r by congruence. eapply nth_error_In; eauto. }
  assert (Hfs : Forall (eq PyFloat.zero) fs).
  { apply Forall_forall. intros x Hx. apply In_nth_error in Hx as [k Hk].
    assert (Hklen : (k < Z.to_nat duration)%nat)
      by (rewrite <- Lf; apply nth_error_Some; congruence).
    destruct (Hnth k _ (Hoff k Hklen)) as [_ (f & Ef & Nf)].
    rewrite Forall_forall in infl_flat. apply infl_flat.
    replace x with f by congruence. eapply nth_error_In; eauto. }
  destruct (retirement_years_flat rs fs Hfs 0%nat 0 (start_value p) Hrs
              ltac:(lia) ltac:(congruence) start_range)
    as (final & E & Hfinal).
  assert (Hlen : len rs = duration) by (unfold len; lia).
  rewrite Hlen in E, Hfinal. rewrite E. cbn [bind].
  destruct (Z.leb_spec (start_value p - duration * withdrawal p) 0)
    as [Hb|Hb].
  - rewrite Z.max_r by lia. reflexivity.
  - rewrite Z.max_l by lia. rewrite (Hfinal Hb). reflexivity.
Qed.

End FlatYears.

Lemma no_inflation_flat : Forall (eq PyFloat.zero) Sample.no_inflation.
Proof.
  apply Forall_forall. intros x Hx. apply repeat_spec in Hx. subst.
  reflexivity.
Qed.

Lemma flat_run_witness :
  0 <= withdrawal Sample.two_runs < 2 ^ 53
  /\ 0 < start_value Sample.two_runs < 2 ^ 53
  /\ Sample.no_inflation <> []
  /\ Forall (eq PyFloat.zero) Sample.no_inflation
  /\ PyFloat.to_int
       (fst (triangular (min_years Sample.two_runs)
               (max_years Sample.two_runs)
               (most_likely_years Sample.two_runs)
               (snd (randbelow (len Sample.no_inflation)
                       [(0, Sample.ratio 5 2)]))))
     = Ok 2
  /\ 0 <= 2
  /\ simulate_run Sample.two_runs Sample.no_inflation Sample.no_inflation
       [(0, Sample.ratio 5 2)]
     = Ok (Z.max (start_value Sample.two_runs
                  - 2 * withdrawal Sample.two_runs) 0,
           start_value Sample.two_runs
           - 2 * withdrawal Sample.two_runs <=? 0,
           advance Sample.two_runs Sample.no_inflation
             [(0, Sample.ratio 5 2)]).
Proof.
  assert (Hw : 0 <= withdrawal Sample.two_runs < 2 ^ 53)
    by (split; vm_compute; [discriminate | reflexivity]).
  assert (Hs : 0 < start_value Sample.two_runs < 2 ^ 53)
    by (split; vm_compute; reflexivity).
  split; [exact Hw|]. split; [exact Hs|]. split; [discriminate|].
  split; [exact no_inflation_flat|]. split; [vm_compute; reflexivity|].
  split; [lia|].
  apply (flat_run (G := Script) Sample.two_runs Sample.no_inflation
           Sample.no_inflation
           Hw Hs ltac:(discriminate) ltac:(discriminate)
           no_inflation_flat no_inflation_flat [(0, Sample.ratio 5 2)] 2).
  - vm_compute. reflexivity.
  - lia.
Defined.
